(** * Listing Lens: job lifecycle and session staging

    A shallow embedding of the serverless handlers of the repository
    (netlify/functions/report-status.js, generate-report.js,
    generate-report-background.js and the Upstash helper library) together
    with the properties of the job lifecycle that the specification states.

    JavaScript values are embedded as the inductive [Value]; a string is
    held in its UTF-8 encoding ([string], a sequence of bytes), as the
    literals of this file are (a lone surrogate, which has no such encoding,
    is not represented); the blob store, the payment
    provider and the Redis counter store are explicit states threaded
    through the handlers; clocks, random draws and the generation service
    are inputs of the handlers. *)

From Stdlib Require Import ZArith Lia Ascii String List Bool Sorted.
From stdpp Require Import base gmap strings list pretty.

Local Open Scope Z_scope.
Set Warnings "-register-all".

(** ** JavaScript values *)

(** The values that [JSON.parse] yields, plus [undefined] (the result of
    reading an absent property). Numbers are the integers: none of the
    handlers computes with fractions. Objects list their own properties, each
    name once. *)
Inductive Value : Type :=
| VUndefined
| VNull
| VBool (b : bool)
| VNum (n : Z)
| VStr (s : string)
| VObj (fields : list (string * Value)).

(** Outcome of an operation that may throw; the payload of [Throw] is the
    [message] of the error. *)
Inductive Result (A : Type) : Type :=
| Ok (a : A)
| Throw (message : string).
Arguments Ok {A} a.
Arguments Throw {A} message.

(** [ToBoolean]: the test performed by [!v], [v && w] and [v || w]. *)
Definition truthy (v : Value) : bool :=
  match v with
  | VUndefined | VNull => false
  | VBool b => b
  | VNum n => negb (n =? 0)
  | VStr s => negb (String.eqb s "")
  | VObj _ => true
  end.

(** [ToString], as performed by template literals and by [+] with a string. *)
Definition toString (v : Value) : string :=
  match v with
  | VUndefined => "undefined"
  | VNull => "null"
  | VBool true => "true"
  | VBool false => "false"
  | VNum n => pretty n
  | VStr s => s
  | VObj _ => "[object Object]"
  end.

Fixpoint lookup_field (k : string) (fields : list (string * Value)) : Value :=
  match fields with
  | [] => VUndefined
  | (k', v) :: rest => if String.eqb k k' then v else lookup_field k rest
  end.

(** Property read [v.k]. Reading a property of [undefined] or [null] throws a
    [TypeError]; the primitives have none of the property names used by the
    handlers. *)
Definition prop (v : Value) (k : string) : Result Value :=
  match v with
  | VUndefined | VNull => Throw ("Cannot read properties of " +:+ toString v)
  | VObj fields => Ok (lookup_field k fields)
  | _ => Ok VUndefined
  end.

(** Property read on a value already known not to be [undefined] or [null]
    (a truthy value, or one guarded by [&&]). *)
Definition field (v : Value) (k : string) : Value :=
  match v with
  | VObj fields => lookup_field k fields
  | _ => VUndefined
  end.

(** Strict equality [v === 'literal']. *)
Definition strict_eq_str (v : Value) (lit : string) : bool :=
  match v with
  | VStr s => String.eqb s lit
  | _ => false
  end.

(** [list.includes(v)] for a list of string literals. *)
Definition includes_str (l : list string) (v : Value) : bool :=
  existsb (strict_eq_str v) l.

(** [list.includes(n)] for a list of number literals. *)
Definition includes_num (l : list Z) (n : Z) : bool :=
  existsb (Z.eqb n) l.

Definition all_digits (s : string) : bool :=
  negb (String.eqb s "") &&
  List.forallb (fun c => (48 <=? nat_of_ascii c)%nat && (nat_of_ascii c <=? 57)%nat)
               (list_ascii_of_string s).

Fixpoint digits_value (cs : list ascii) (acc : Z) : Z :=
  match cs with
  | [] => acc
  | c :: cs' => digits_value cs' (10 * acc + (Z.of_nat (nat_of_ascii c) - 48))
  end.

(** [ToNumber], as performed by [<] on a number and a value; [None] is
    [NaN]. Of the numeric strings only the empty string and the unsigned
    decimal literals are given their value; signs, exponents, other radixes
    and surrounding white space are read as [NaN]. *)
Definition toNumber (v : Value) : option Z :=
  match v with
  | VUndefined => None
  | VNull => Some 0
  | VBool b => Some (if b then 1 else 0)
  | VNum n => Some n
  | VStr s => if String.eqb s "" then Some 0
              else if all_digits s then Some (digits_value (list_ascii_of_string s) 0)
              else None
  | VObj _ => None
  end.

(** The host's date functions: [Date.parse] ([None] is [NaN]) and
    [Date.prototype.toISOString], over instants in milliseconds. *)
Record Runtime : Type := mkRuntime {
  Date_parse : string -> option Z;
  toISOString : Z -> string
}.

(** [new Date(v)] for a JSON value: the time value, [None] for an invalid
    date. *)
Definition newDate (rt : Runtime) (v : Value) : option Z :=
  match v with
  | VStr s => Date_parse rt s
  | VObj _ => Date_parse rt "[object Object]"
  | _ => match toNumber v with
         | Some n => if Z.abs n <=? 8640000000000000 then Some n else None
         | None => None
         end
  end.

(** ** String methods *)

(** The methods of [String.prototype] that the handlers call. A string is
    held in its UTF-8 encoding, and a position counts bytes; positions are
    integers, with [-1] for "not found", as in JavaScript. The patterns that
    the handlers search for and cut at are ASCII, so that the text cut out at
    the positions found is the text that JavaScript cuts out. *)
Module JSString.

Definition LF : ascii := "010"%char.

Fixpoint drop (n : nat) (s : string) : string :=
  match n, s with
  | O, _ => s
  | S _, EmptyString => EmptyString
  | S n', String _ s' => drop n' s'
  end.

Fixpoint take (n : nat) (s : string) : string :=
  match n, s with
  | O, _ => EmptyString
  | S _, EmptyString => EmptyString
  | S n', String c s' => String c (take n' s')
  end.

(** [s.substring(a, b)]: both positions are clamped to [0 .. s.length] and
    swapped when [a > b]. *)
Definition substring (s : string) (a b : Z) : string :=
  let len := Z.of_nat (String.length s) in
  let a' := Z.min (Z.max a 0) len in
  let b' := Z.min (Z.max b 0) len in
  let lo := Z.min a' b' in
  let hi := Z.max a' b' in
  take (Z.to_nat (hi - lo)) (drop (Z.to_nat lo) s).

Fixpoint indexOf_from (s pat : string) (i : Z) : Z :=
  if String.prefix pat s then i
  else match s with
       | EmptyString => -1
       | String _ s' => indexOf_from s' pat (i + 1)
       end.

(** [s.indexOf(pat)] *)
Definition indexOf (s pat : string) : Z := indexOf_from s pat 0.

(** [s.lastIndexOf(pat)] *)
Fixpoint lastIndexOf (s pat : string) : Z :=
  match s with
  | EmptyString => if String.prefix pat s then 0 else -1
  | String _ s' =>
      let r := lastIndexOf s' pat in
      if 0 <=? r then r + 1
      else if String.prefix pat s then 0 else -1
  end.

(** The string of the bytes given. *)
Definition utf8 (bytes : list nat) : string :=
  fold_right (fun n s => String (ascii_of_nat n) s) EmptyString bytes.

(** The white space and line terminators that [trim] removes, each in its
    UTF-8 encoding: TAB, LF, VT, FF, CR, SP, NBSP (U+00A0), U+1680, U+2000
    to U+200A, U+2028, U+2029, U+202F, U+205F, U+3000 and U+FEFF. *)
Definition white_space : list string :=
  map utf8
    [[9]; [10]; [11]; [12]; [13]; [32];
     [194; 160];
     [225; 154; 128];
     [226; 128; 128]; [226; 128; 129]; [226; 128; 130]; [226; 128; 131];
     [226; 128; 132]; [226; 128; 133]; [226; 128; 134]; [226; 128; 135];
     [226; 128; 136]; [226; 128; 137]; [226; 128; 138];
     [226; 128; 168]; [226; 128; 169]; [226; 128; 175];
     [226; 129; 159];
     [227; 128; 128];
     [239; 187; 191]]%nat.

(** The number of bytes of the white space that [s] begins with; zero when
    [s] does not begin with white space. *)
Definition white_space_width (s : string) : nat :=
  match List.find (fun w => String.prefix w s) white_space with
  | Some w => String.length w
  | None => O
  end.

(** [s.trimStart()]; [skip] counts the bytes of the current white space
    that are still to be dropped. *)
Fixpoint trimStart_go (s : string) (skip : nat) : string :=
  match s with
  | EmptyString => EmptyString
  | String _ s' =>
      match skip with
      | S k => trimStart_go s' k
      | O =>
          match white_space_width s with
          | O => s
          | S k => trimStart_go s' k
          end
      end
  end.

Definition trimStart (s : string) : string := trimStart_go s 0.

(** [s.trimEnd()]: the text is cut where what follows is white space and
    nothing else. *)
Fixpoint trimEnd (s : string) : string :=
  match s with
  | EmptyString => EmptyString
  | String c s' =>
      if String.eqb (trimStart s) EmptyString then EmptyString
      else String c (trimEnd s')
  end.

(** [s.trim()] *)
Definition trim (s : string) : string := trimEnd (trimStart s).

(** [s.replace(/<fence>\n?/g, '')] for a non-empty literal [fence]: every
    match, scanning from the left, is removed together with the line feed
    that follows it, if any. [skip] counts the bytes of the current
    match that are still to be dropped. *)
Fixpoint replace_fence_go (fence s : string) (skip : nat) : string :=
  match s with
  | EmptyString => EmptyString
  | String c s' =>
      match skip with
      | S k => replace_fence_go fence s' k
      | O =>
          if String.prefix fence s then
            let n := String.length fence in
            let nl := match drop n s with
                      | String d _ => if Ascii.eqb d LF then 1%nat else 0%nat
                      | EmptyString => 0%nat
                      end in
            replace_fence_go fence s' (n + nl - 1)
          else String c (replace_fence_go fence s' 0)
      end
  end.

Definition replace_fence (fence s : string) : string := replace_fence_go fence s 0.

(** [s.replace(/-/g, '')] *)
Fixpoint remove_dashes (s : string) : string :=
  match s with
  | EmptyString => EmptyString
  | String c s' => if Ascii.eqb c "-" then remove_dashes s' else String c (remove_dashes s')
  end.

Definition upper (c : ascii) : ascii :=
  let n := nat_of_ascii c in
  if ((97 <=? n) && (n <=? 122))%nat then ascii_of_nat (n - 32) else c.

(** [s.toUpperCase()] on the letters [a-z]; the other bytes that the
    callers pass (digits and the radix point) are left as they are. *)
Fixpoint toUpperCase (s : string) : string :=
  match s with
  | EmptyString => EmptyString
  | String c s' => String (upper c) (toUpperCase s')
  end.

Fixpoint forallb (p : ascii -> bool) (s : string) : bool :=
  match s with
  | EmptyString => true
  | String c s' => p c && forallb p s'
  end.

(** Character classes [0-9a-f], [0-9a-z] and [A-Z0-9]. *)
Definition is_digit (c : ascii) : bool :=
  let n := nat_of_ascii c in ((48 <=? n) && (n <=? 57))%nat.
Definition is_lower_hex (c : ascii) : bool :=
  let n := nat_of_ascii c in (is_digit c || (97 <=? n) && (n <=? 102))%nat.
Definition is_base36 (c : ascii) : bool :=
  let n := nat_of_ascii c in (is_digit c || (97 <=? n) && (n <=? 122))%nat.
Definition is_upper_alnum (c : ascii) : bool :=
  let n := nat_of_ascii c in (is_digit c || (65 <=? n) && (n <=? 90))%nat.

End JSString.

(** ** Keys of the blob store

    The client of @netlify/blobs puts the key into the path of the request:
    the request goes to [new URL('/api/v1/blobs/<siteID>/<store>/<key>',
    'https://api.netlify.com')]. The URL parser reads that text: C0 controls
    and spaces at its end are trimmed, tabs and line breaks are dropped
    everywhere, the path ends at the first [?] or [#], a backslash stands
    for a slash, and the dot segments ([.], [..] and their percent-escaped
    forms) are resolved. So two keys can name one blob, and a key can name a
    blob that lies outside its prefix, or outside the store. The parser also
    percent-encodes the bytes that a path may not hold; that is left out: it
    identifies no two keys unless one of them holds a literal percent escape
    of such a byte. The keys that the client itself refuses (the empty key,
    a key that begins with a slash, a key of more than 600 bytes) are among
    those on which an operation throws, see [faulty] below. *)
Module BlobKey.

Definition SITE_ID : string := "723a91f3-c306-48fd-b0d7-382ba89fb9a0".
Definition STORE_NAME : string := "listing-lens-sessions".

(** The path segments of the store, outermost first. *)
Definition ROOT : list string := ["api"; "v1"; "blobs"; SITE_ID; STORE_NAME].

(** The C0 controls and the space are trimmed from the end of the input of
    the URL parser (its beginning is the slash before [api]). *)
Definition is_c0_or_space (c : ascii) : bool := (nat_of_ascii c <=? 32)%nat.

Fixpoint trim_end (s : string) : string :=
  match s with
  | EmptyString => EmptyString
  | String c s' =>
      match trim_end s' with
      | EmptyString => if is_c0_or_space c then EmptyString else String c EmptyString
      | r => String c r
      end
  end.

(** TAB, LF and CR are removed from the input of the URL parser. *)
Definition is_removed (c : ascii) : bool :=
  let n := nat_of_ascii c in ((n =? 9) || (n =? 10) || (n =? 13))%nat.

Definition is_separator (c : ascii) : bool := Ascii.eqb c "/" || Ascii.eqb c "\".

Fixpoint strip (s : string) : string :=
  match s with
  | EmptyString => EmptyString
  | String c s' => if is_removed c then strip s' else String c (strip s')
  end.

(** The path ends where the query or the fragment begins. *)
Definition ends_path (c : ascii) : bool := Ascii.eqb c "?" || Ascii.eqb c "#".

Fixpoint path_part (s : string) : string :=
  match s with
  | EmptyString => EmptyString
  | String c s' => if ends_path c then EmptyString else String c (path_part s')
  end.

(** The segments of a path: the text between the separators; the last one
    ends with the input. *)
Fixpoint split (s : string) : list string :=
  match s with
  | EmptyString => [EmptyString]
  | String c s' =>
      if is_separator c then EmptyString :: split s'
      else match split s' with
           | seg :: rest => String c seg :: rest
           | [] => [String c EmptyString]
           end
  end.

Definition single_dot (seg : string) : bool :=
  existsb (String.eqb seg) ["."; "%2e"; "%2E"].

Definition double_dot (seg : string) : bool :=
  existsb (String.eqb seg)
          [".."; ".%2e"; ".%2E"; "%2e."; "%2E."; "%2e%2e"; "%2e%2E"; "%2E%2e"; "%2E%2E"].

(** A segment that a separator follows; [stack] is the path so far,
    innermost segment first. Shortening the empty path leaves it empty. *)
Definition step (stack : list string) (seg : string) : list string :=
  if double_dot seg then tail stack
  else if single_dot seg then stack
  else seg :: stack.

(** The last segment: a dot segment leaves an empty segment in its place. *)
Definition finish (stack : list string) (seg : string) : list string :=
  if double_dot seg then EmptyString :: tail stack
  else if single_dot seg then EmptyString :: stack
  else seg :: stack.

(** The path of the request for a key that has the given segments,
    outermost segment first. *)
Definition resolve (segs : list string) : list string :=
  rev (finish (fold_left step (List.removelast segs) (rev ROOT))
              (List.last segs EmptyString)).

(** The number of leading segments that a path shares with [root]. *)
Fixpoint common (root path : list string) : nat :=
  match root, path with
  | r :: root', q :: path' => if String.eqb r q then S (common root' path') else O
  | _, _ => O
  end.

(** A path as seen from the store: the segments below the store, joined
    with slashes; for a path whose last segment does not lie in the store,
    one [../] for each level to climb first. No resolved path has a [..]
    segment, so that different paths have different names. *)
Definition relative (path : list string) : string :=
  let k := common ROOT (List.removelast path) in
  String.concat "" (repeat "../" (length ROOT - k)) +:+ String.concat "/" (drop k path).

(** The name of the blob that the path written after the store denotes. *)
Definition pathName (path : string) : string := relative (resolve (split path)).

(** The name of the blob that a key denotes. *)
Definition blobName (key : string) : string :=
  pathName (path_part (strip (trim_end key))).

End BlobKey.

(** ** The blob store (@netlify/blobs) *)

(** A blob is either a JSON document (what [setJSON] writes and
    [get(key, {type: 'json'})] parses) or raw bytes (an uploaded image). The
    side metadata set at upload time is a JSON object. *)
Inductive Body : Type :=
| Json (doc : Value)
| Raw (bytes : string).

Record Entry : Type := mkEntry { body : Body; metadata : Value }.

(** A store operation that was issued and took effect. *)
Inductive StoreOp : Type :=
| OpSet (key : string) (doc : Value)
| OpDelete (key : string).

(** The store [listing-lens-sessions], as the service answers this client.
    [blobs] holds the blobs by name ([BlobKey.blobName]): a key of the code
    reaches the blob of its name. Every operation with a key in [faulty]
    throws (a key that the client refuses, network failure, revoked token);
    [log] records, oldest first, the writes and deletes that were carried
    out, with the keys as the code passed them. *)
Record Store : Type := mkStore {
  blobs : gmap string Entry;
  faulty : gset string;
  log : list StoreOp
}.

Definition store_unreachable : string := "blob store request failed".

(** [store.get(key, {type: 'json'})]: [null] for an absent blob; a blob that
    is not a JSON document makes the parse throw. *)
Definition store_get_json (st : Store) (key : string) : Result Value :=
  if decide (key ∈ faulty st) then Throw store_unreachable
  else match blobs st !! BlobKey.blobName key with
       | None => Ok VNull
       | Some e => match body e with
                   | Json doc => Ok doc
                   | Raw _ => Throw "Unexpected token in JSON"
                   end
       end.

(** [store.get(key, {type: 'arrayBuffer'})]: the content of the blob, or
    [None] for JavaScript's [null]. *)
Definition store_get_arrayBuffer (st : Store) (key : string) : Result (option Body) :=
  if decide (key ∈ faulty st) then Throw store_unreachable
  else Ok (body <$> blobs st !! BlobKey.blobName key).

(** [store.getMetadata(key)]: [{etag, metadata}] or [null]. *)
Definition store_getMetadata (st : Store) (key : string) : Result Value :=
  if decide (key ∈ faulty st) then Throw store_unreachable
  else match blobs st !! BlobKey.blobName key with
       | None => Ok VNull
       | Some e => Ok (VObj [("metadata", metadata e)])
       end.

(** [store.setJSON(key, doc)] replaces the whole blob. *)
Definition store_setJSON (st : Store) (key : string) (doc : Value) : Result unit * Store :=
  if decide (key ∈ faulty st) then (Throw store_unreachable, st)
  else (Ok tt,
        {| blobs := <[BlobKey.blobName key := mkEntry (Json doc) (VObj [])]> (blobs st);
           faulty := faulty st;
           log := log st ++ [OpSet key doc] |}).

(** [store.delete(key)]; deleting an absent blob is not an error. *)
Definition store_delete (st : Store) (key : string) : Result unit * Store :=
  if decide (key ∈ faulty st) then (Throw store_unreachable, st)
  else (Ok tt,
        {| blobs := delete (BlobKey.blobName key) (blobs st);
           faulty := faulty st;
           log := log st ++ [OpDelete key] |}).

(** An HTTP response: status code and the value passed to [JSON.stringify]
    for the body ([None] for the empty body). *)
Record Response : Type := mkResponse {
  statusCode : Z;
  response_body : option Value
}.

(** ** report-status.js *)
Module ReportStatus.

(** The fields of the event that the handler reads;
    [jobId] is [event.queryStringParameters && event.queryStringParameters.jobId]. *)
Record Event : Type := mkEvent {
  httpMethod : string;
  jobId : Value
}.

Definition handler (event : Event) (store : Store) : Response * Store :=
  if String.eqb (httpMethod event) "OPTIONS" then (mkResponse 200 None, store)
  else
    let jobId := jobId event in
    if negb (truthy jobId) then
      (mkResponse 400 (Some (VObj [("error", VStr "jobId required")])), store)
    else
      let key := "job/" +:+ toString jobId in
      let job := match store_get_json store key with
                 | Ok v => v
                 | Throw _ => VNull
                 end in
      if negb (truthy job) then
        (mkResponse 200 (Some (VObj [("status", VStr "processing")])), store)
      else
        let status := field job "status" in
        let store' :=
          if strict_eq_str status "complete" || strict_eq_str status "error"
          then snd (store_delete store key)
          else store in
        (mkResponse 200 (Some job), store').

End ReportStatus.


(** ** The payment provider (stripe) *)

(** The fields of a payment intent that [verifyPayment] reads; [pi_metadata]
    is [None] when the intent carries no metadata object. *)
Record PaymentIntent : Type := mkIntent {
  pi_status : string;
  pi_amount : Z;
  pi_currency : string;
  pi_metadata : option (gmap string string)
}.

(** The provider's state: the intents by identifier; [api_error], when set,
    is thrown by every request (missing key, network); updates of the intents
    in [locked] are refused. *)
Record Stripe : Type := mkStripe {
  intents : gmap string PaymentIntent;
  api_error : option string;
  locked : gset string
}.

(** [stripe.paymentIntents.retrieve(id)] *)
Definition retrieve (sp : Stripe) (id : Value) : Result PaymentIntent :=
  match api_error sp with
  | Some msg => Throw msg
  | None =>
      match id with
      | VStr s => match intents sp !! s with
                  | Some intent => Ok intent
                  | None => Throw ("No such payment_intent: " +:+ s)
                  end
      | _ => Throw "Invalid payment intent identifier"
      end
  end.

(** [stripe.paymentIntents.update(id, {metadata})]: the given keys are merged
    into the metadata of the intent. *)
Definition update_metadata (sp : Stripe) (id : string) (md : gmap string string)
  : Result unit * Stripe :=
  match api_error sp with
  | Some msg => (Throw msg, sp)
  | None =>
      match intents sp !! id with
      | None => (Throw ("No such payment_intent: " +:+ id), sp)
      | Some intent =>
          if decide (id ∈ locked sp) then (Throw "This PaymentIntent could not be updated", sp)
          else
            let merged := md ∪ default ∅ (pi_metadata intent) in
            (Ok tt,
             {| intents := <[id := {| pi_status := pi_status intent;
                                      pi_amount := pi_amount intent;
                                      pi_currency := pi_currency intent;
                                      pi_metadata := Some merged |}]> (intents sp);
                api_error := api_error sp;
                locked := locked sp |})
      end
  end.

(** The result of [verifyPayment]: [{ valid, reason }]. *)
Record PaymentCheck : Type := mkCheck { valid : bool; reason : Value }.

Definition rejected (why : string) : PaymentCheck := mkCheck false (VStr why).

(** The prior-use marker:
    [intent.metadata && intent.metadata.report_generated === 'true']. *)
Definition report_generated (intent : PaymentIntent) : bool :=
  match pi_metadata intent with
  | Some md => bool_decide (md !! "report_generated" = Some "true")
  | None => false
  end.

(** [Object.assign({}, intent.metadata, { report_generated: 'true' })] *)
Definition mark_generated (intent : PaymentIntent) : gmap string string :=
  <["report_generated" := "true"]> (default ∅ (pi_metadata intent)).

(** ** generate-report-background.js *)
Module GenerateReportBackground.

Definition VALID_CATEGORIES : list string :=
  ["vehicle"; "property"; "electronics"; "other"].

(** [BETA_MODE] is [process.env.BETA_MODE]. *)
Definition verifyPayment (BETA_MODE : Value) (paymentIntentId : Value) (sp : Stripe)
  : PaymentCheck * Stripe :=
  if strict_eq_str BETA_MODE "true" then (mkCheck true VUndefined, sp)
  else if negb (truthy paymentIntentId) then (rejected "No payment intent ID", sp)
  else
    match retrieve sp paymentIntentId with
    | Throw msg => (rejected msg, sp)
    | Ok intent =>
        if negb (String.eqb (pi_status intent) "succeeded") then
          (rejected ("Payment status: " +:+ pi_status intent), sp)
        else if negb (includes_num [200; 500; 1000] (pi_amount intent)) then
          (rejected ("Invalid amount: " +:+ pretty (pi_amount intent)), sp)
        else if negb (String.eqb (pi_currency intent) "aud") then
          (rejected "Wrong currency", sp)
        else if report_generated intent then
          (rejected "Payment already used", sp)
        else
          match update_metadata sp (toString paymentIntentId) (mark_generated intent) with
          | (Throw msg, sp') => (rejected msg, sp')
          | (Ok _, sp') => (mkCheck true VUndefined, sp')
          end
    end.

(** A fetched screenshot: the blob whose base64 encoding is sent to the
    generation service, and the MIME type sent with it. *)
Record Screenshot : Type := mkScreenshot { base64 : Body; mimeType : Value }.

(** A block of [response.content]. *)
Record ContentBlock : Type := mkBlock { block_type : string; text : string }.

(** What one invocation of the worker reads from its surroundings. *)
Record Env : Type := mkEnv {
  BETA_MODE : Value;                       (* process.env.BETA_MODE *)
  readPrompt : string -> option string;    (* loadPrompt(filename); None is null *)
  messages_create :                        (* client.messages.create *)
    string -> list Screenshot -> string -> Result (list ContentBlock);
  random36 : string;                       (* Math.random().toString(36) *)
  today : string;                          (* new Date().toLocaleDateString(...) *)
  runtime : Runtime;
  startedAt_now : Z;                       (* new Date() when the job starts *)
  completedAt_now : Z                      (* new Date() when the report is stored *)
}.

(** A call of [client.messages.create]: the system prompt, the images and
    the instruction sent. *)
Record GenerationRequest : Type := mkRequest {
  system : string;
  images : list Screenshot;
  user_text : string
}.

(** The state the worker acts on: the blob store, the payment provider and
    the requests made to the generation service, oldest first. *)
Record World : Type := mkWorld {
  store : Store;
  stripe : Stripe;
  generation_log : list GenerationRequest
}.

(** [JSON.parse(event.body || '{}')] *)
Record Event : Type := mkEvent { parsed_body : Result Value }.

Definition jobKey (jobId : Value) : string := "job/" +:+ toString jobId.
Definition metaKey (sessionId : Value) : string := toString sessionId +:+ "/meta".
Definition screenshotKey (sessionId : Value) (i : nat) : string :=
  toString sessionId +:+ "/screenshot-" +:+ pretty i.

(** A failing write is logged and otherwise ignored. *)
Definition setJobStatus (st : Store) (jobId : Value) (data : Value) : Store :=
  snd (store_setJSON st (jobKey jobId) data).

Definition job_error (msg : string) : Value :=
  VObj [("status", VStr "error"); ("error", VStr msg)].

(** Number of iterations of [for (let i = 0; i < bound; i++)]. *)
Definition iterations (bound : Value) : nat :=
  match toNumber bound with
  | Some n => Z.to_nat n
  | None => O
  end.

(** One iteration of the retrieval loop: the screenshot pushed, if any. *)
Definition fetchScreenshot (st : Store) (sessionId : Value) (i : nat) : option Screenshot :=
  match store_get_arrayBuffer st (screenshotKey sessionId i) with
  | Throw _ => None
  | Ok blob =>
      match store_getMetadata st (screenshotKey sessionId i) with
      | Throw _ => None
      | Ok blobMeta =>
          match blob with
          | None => None
          | Some b =>
              let m := if truthy blobMeta && truthy (field blobMeta "metadata")
                       then field (field blobMeta "metadata") "mimeType"
                       else VUndefined in
              Some (mkScreenshot b (if truthy m then m else VStr "image/jpeg"))
          end
      end
  end.

Definition fetchScreenshots (st : Store) (sessionId screenshotCount : Value)
  : list Screenshot :=
  omap (fetchScreenshot st sessionId) (seq 0 (iterations screenshotCount)).

Definition prompt_ok (p : option string) : bool :=
  match p with
  | Some s => negb (String.eqb s "")
  | None => false
  end.

(** The category prompt, with the universal prompt as fall-back. *)
Definition selectPrompt (env : Env) (category : Value) : option string :=
  let p0 : option string := None in
  let p1 := if strict_eq_str category "property"
            then readPrompt env "combined-aus-property-v3.1.md" else p0 in
  let p2 := if strict_eq_str category "vehicle"
            then readPrompt env "combined-aus-vehicle-v3.1.md" else p1 in
  let p3 := if strict_eq_str category "electronics"
            then readPrompt env "combined-aus-electronics-v3.1.md" else p2 in
  let p4 := if strict_eq_str category "other"
            then readPrompt env "combined-aus-general-v3.1.md" else p3 in
  if prompt_ok p4 then p4 else readPrompt env "fast-universal-v1.md".

(** ['LL-' + Math.random().toString(36).substring(2, 7).toUpperCase()] *)
Definition reportId (random36 : string) : string :=
  "LL-" +:+ JSString.toUpperCase (JSString.substring random36 2 7).

(** Removal of the markdown fences, then of the surrounding white space. *)
Definition stripFences (reportHtml : string) : string :=
  JSString.trim
    (JSString.replace_fence "```" (JSString.replace_fence "```html" reportHtml)).

Definition docStart (reportHtml : string) : Z :=
  if negb (JSString.indexOf reportHtml "<!DOCTYPE html>" =? -1)
  then JSString.indexOf reportHtml "<!DOCTYPE html>"
  else JSString.indexOf reportHtml "<html".

Definition docEnd (reportHtml : string) : Z :=
  JSString.lastIndexOf reportHtml "</html>".

(** The document cut out of the stripped text. *)
Definition extractDocument (reportHtml : string) : string :=
  if negb (docStart reportHtml =? -1) && negb (docEnd reportHtml =? -1)
  then JSString.substring reportHtml (docStart reportHtml) (docEnd reportHtml + 7)
  else reportHtml.

(** The text stored as [html]: lines 173 to 181 of the worker. *)
Definition normalize (reportHtml : string) : string :=
  extractDocument (stripFences reportHtml).

(** [response.content.filter(b => b.type === 'text').map(b => b.text).join('')] *)
Definition joinText (content : list ContentBlock) : string :=
  String.concat ""
    (map text (filter (fun b => block_type b = "text") content)).

Definition nl : string := String JSString.LF "".

(** The lines appended to the system prompt. *)
Definition promptFooter (reportId today : string) (count : nat) (category : Value) : string :=
  nl +:+ nl +:+ "---" +:+ nl +:+
  "Report ID: " +:+ reportId +:+ nl +:+
  "Date: " +:+ today +:+ nl +:+
  "Screenshots: " +:+ pretty count +:+ nl +:+
  "Category: " +:+ toString category +:+ nl +:+ nl +:+
  "Identify country/jurisdiction from screenshots and adapt all costs, laws, and buyer rights accordingly." +:+
  nl +:+ nl +:+
  "Output ONLY valid HTML starting with <!DOCTYPE html>. No markdown, no code fences.".

Definition instruction (category : Value) : string :=
  "Analyse this " +:+ toString category +:+
  " listing and generate the complete Listing Lens buyer intelligence report as standalone HTML.".

(** The deletes issued after the report is stored; each is attempted
    whatever becomes of the others. *)
Definition cleanup (st : Store) (sessionId screenshotCount : Value) : Store :=
  foldl (fun acc key => snd (store_delete acc key)) st
        (map (screenshotKey sessionId) (seq 0 (iterations screenshotCount))
         ++ [metaKey sessionId]).

(** [exports.handler]. The response is always [{ statusCode: 202 }]. *)
Definition handler (env : Env) (event : Event) (w : World) : Response * World :=
  let accepted := mkResponse 202 None in
  match parsed_body event with
  | Throw _ => (accepted, w)
  | Ok body =>
  match prop body "jobId" with
  | Throw _ => (accepted, w)
  | Ok jobId =>
    let sessionId := field body "sessionId" in
    let paymentId := field body "paymentIntentId" in
    if negb (truthy jobId) || negb (truthy sessionId) then (accepted, w)
    else
      let st1 := setJobStatus (store w) jobId
                   (VObj [("status", VStr "processing");
                          ("startedAt", VStr (toISOString (runtime env) (startedAt_now env)))]) in
      let (payment, sp1) := verifyPayment (BETA_MODE env) paymentId (stripe w) in
      let fail msg :=
        (accepted,
         mkWorld (setJobStatus st1 jobId (job_error msg)) sp1 (generation_log w)) in
      if negb (valid payment) then
        fail ("Payment failed: " +:+ toString (reason payment))
      else
        let meta := match store_get_json st1 (metaKey sessionId) with
                    | Ok v => v
                    | Throw _ => VNull
                    end in
        if negb (truthy meta) then fail "Session expired — please re-upload."
        else
          let category := field meta "category" in
          let screenshotCount := field meta "screenshotCount" in
          if negb (includes_str VALID_CATEGORIES category) then fail "Invalid category"
          else
            let screenshots := fetchScreenshots st1 sessionId screenshotCount in
            if (length screenshots =? 0)%nat then
              fail "Screenshots expired — please re-upload."
            else
              match selectPrompt env category with
              | None => fail "Prompt configuration error"
              | Some systemPrompt =>
                  if String.eqb systemPrompt "" then fail "Prompt configuration error"
                  else
                    let reportId := reportId (random36 env) in
                    let systemPrompt :=
                      systemPrompt +:+
                      promptFooter reportId (today env) (length screenshots) category in
                    let requests :=
                      generation_log w ++
                      [mkRequest systemPrompt screenshots (instruction category)] in
                    match messages_create env systemPrompt screenshots (instruction category) with
                    | Throw msg =>
                        (accepted,
                         mkWorld (setJobStatus st1 jobId
                                    (job_error (if String.eqb msg "" then "Unknown error" else msg)))
                                 sp1 requests)
                    | Ok content =>
                        let reportHtml := normalize (joinText content) in
                        let st2 := setJobStatus st1 jobId
                                     (VObj [("status", VStr "complete");
                                            ("reportId", VStr reportId);
                                            ("html", VStr reportHtml);
                                            ("completedAt",
                                             VStr (toISOString (runtime env) (completedAt_now env)))]) in
                        (accepted, mkWorld (cleanup st2 sessionId screenshotCount) sp1 requests)
                    end
              end
  end end.

End GenerateReportBackground.

(** ** generate-report.js, in-process variant

    The variant of the worker that runs inside the dispatching function
    ([runReportGeneration]). Its retrieval loop, report identifier and output
    normalisation are, token for token, those of the background worker; its
    [verifyPayment] words the reasons differently. *)
Module InProcessWorker.

Definition verifyPayment (BETA_MODE : Value) (paymentIntentId : Value) (sp : Stripe)
  : PaymentCheck * Stripe :=
  if strict_eq_str BETA_MODE "true" then (mkCheck true VUndefined, sp)
  else if negb (truthy paymentIntentId) then (rejected "No payment intent ID", sp)
  else
    match retrieve sp paymentIntentId with
    | Throw msg => (rejected msg, sp)
    | Ok intent =>
        if negb (String.eqb (pi_status intent) "succeeded") then
          (rejected "Payment not succeeded", sp)
        else if negb (includes_num [200; 500; 1000] (pi_amount intent)) then
          (rejected "Invalid amount", sp)
        else if negb (String.eqb (pi_currency intent) "aud") then
          (rejected "Wrong currency", sp)
        else if report_generated intent then
          (rejected "Already used", sp)
        else
          match update_metadata sp (toString paymentIntentId) (mark_generated intent) with
          | (Throw msg, sp') => (rejected msg, sp')
          | (Ok _, sp') => (mkCheck true VUndefined, sp')
          end
    end.

Definition promptFooter (reportId today : string) (count : nat) (category : Value) : string :=
  GenerateReportBackground.nl +:+ GenerateReportBackground.nl +:+ "---" +:+
  GenerateReportBackground.nl +:+
  "Report ID: " +:+ reportId +:+ GenerateReportBackground.nl +:+
  "Date: " +:+ today +:+ GenerateReportBackground.nl +:+
  "Category: " +:+ toString category +:+ GenerateReportBackground.nl +:+
  "Screenshots: " +:+ pretty count +:+ GenerateReportBackground.nl +:+
  GenerateReportBackground.nl +:+
  "Output ONLY valid HTML starting with <!DOCTYPE html>. No markdown, no code fences.".

(** The clean-up after the report is stored. The deletes of the screenshots
    are built with [Array.from({ length: screenshotCount }, ...)], which makes
    as many of them as the loop of the background worker has iterations, but
    throws a [RangeError] for a length above [2^32 - 1]; the [try] block
    around the clean-up swallows it, and no delete is issued then. *)
Definition cleanup (st : Store) (sessionId screenshotCount : Value) : Store :=
  match toNumber screenshotCount with
  | Some n =>
      if 4294967295 <? n then st
      else GenerateReportBackground.cleanup st sessionId screenshotCount
  | None => GenerateReportBackground.cleanup st sessionId screenshotCount
  end.

(** [runReportGeneration(jobId, sessionId, paymentIntentId)]. Unlike the
    background worker, a failing write of the job record is not swallowed
    where it happens: it is caught at the end, where one more write of an
    error record is attempted. *)
Definition runReportGeneration (env : GenerateReportBackground.Env)
           (jobId : string) (sessionId paymentIntentId : Value)
           (w : GenerateReportBackground.World) : GenerateReportBackground.World :=
  let key := "job/" +:+ jobId in
  let caught (msg : string) (st : Store) (sp : Stripe)
             (requests : list GenerateReportBackground.GenerationRequest) :=
    GenerateReportBackground.mkWorld
      (snd (store_setJSON st key
              (GenerateReportBackground.job_error
                 (if String.eqb msg "" then "Unknown error" else msg))))
      sp requests in
  match store_setJSON (GenerateReportBackground.store w) key
          (VObj [("status", VStr "processing");
                 ("startedAt",
                  VStr (toISOString (GenerateReportBackground.runtime env)
                                    (GenerateReportBackground.startedAt_now env)))]) with
  | (Throw msg, st1) =>
      caught msg st1 (GenerateReportBackground.stripe w)
             (GenerateReportBackground.generation_log w)
  | (Ok _, st1) =>
    let (payment, sp1) :=
      verifyPayment (GenerateReportBackground.BETA_MODE env) paymentIntentId
                    (GenerateReportBackground.stripe w) in
    let finish (doc : Value) :=
      match store_setJSON st1 key doc with
      | (Throw msg, st') => caught msg st' sp1 (GenerateReportBackground.generation_log w)
      | (Ok _, st') =>
          GenerateReportBackground.mkWorld st' sp1 (GenerateReportBackground.generation_log w)
      end in
    if negb (valid payment) then
      finish (GenerateReportBackground.job_error
                ("Payment failed: " +:+ toString (reason payment)))
    else
      let meta := match store_get_json st1 (GenerateReportBackground.metaKey sessionId) with
                  | Ok v => v
                  | Throw _ => VNull
                  end in
      if negb (truthy meta) then
        finish (GenerateReportBackground.job_error "Session expired — please re-upload.")
      else
        let category := field meta "category" in
        let screenshotCount := field meta "screenshotCount" in
        if negb (includes_str GenerateReportBackground.VALID_CATEGORIES category) then
          finish (GenerateReportBackground.job_error "Invalid category")
        else
          let screenshots :=
            GenerateReportBackground.fetchScreenshots st1 sessionId screenshotCount in
          if (length screenshots =? 0)%nat then
            finish (GenerateReportBackground.job_error "Screenshots expired — please re-upload.")
          else
            match GenerateReportBackground.selectPrompt env category with
            | None => finish (GenerateReportBackground.job_error "Prompt file missing")
            | Some systemPrompt =>
                if String.eqb systemPrompt "" then
                  finish (GenerateReportBackground.job_error "Prompt file missing")
                else
                  let reportId :=
                    GenerateReportBackground.reportId (GenerateReportBackground.random36 env) in
                  let systemPrompt :=
                    systemPrompt +:+
                    promptFooter reportId (GenerateReportBackground.today env)
                                 (length screenshots) category in
                  let requests :=
                    GenerateReportBackground.generation_log w ++
                    [GenerateReportBackground.mkRequest systemPrompt screenshots
                       (GenerateReportBackground.instruction category)] in
                  match GenerateReportBackground.messages_create env systemPrompt screenshots
                          (GenerateReportBackground.instruction category) with
                  | Throw msg => caught msg st1 sp1 requests
                  | Ok content =>
                      match store_setJSON st1 key
                              (VObj [("status", VStr "complete");
                                     ("reportId", VStr reportId);
                                     ("html",
                                      VStr (GenerateReportBackground.normalize
                                              (GenerateReportBackground.joinText content)));
                                     ("completedAt",
                                      VStr (toISOString
                                              (GenerateReportBackground.runtime env)
                                              (GenerateReportBackground.completedAt_now env)))])
                      with
                      | (Throw msg, st') => caught msg st' sp1 requests
                      | (Ok _, st2) =>
                          GenerateReportBackground.mkWorld
                            (cleanup st2 sessionId screenshotCount)
                            sp1 requests
                      end
                  end
            end
  end.

(** The fields of the event that the handler reads. *)
Record Event : Type := mkEvent {
  httpMethod : string;
  parsed_body : Result Value     (* JSON.parse(event.body || '{}') *)
}.

(** A call of [runReportGeneration] that the handler starts and does not
    wait for. *)
Record Task : Type := mkTask {
  task_jobId : string;
  task_sessionId : Value;
  task_paymentIntentId : Value
}.

(** [exports.handler]; [uuid] is [crypto.randomUUID()]. The handler reads the
    store and leaves it as it is. *)
Definition handler (uuid : string) (event : Event) (st : Store) : Response * list Task :=
  if String.eqb (httpMethod event) "OPTIONS" then (mkResponse 200 None, [])
  else if negb (String.eqb (httpMethod event) "POST") then
    (mkResponse 405 (Some (VObj [("error", VStr "Method not allowed")])), [])
  else
    match parsed_body event with
    | Throw msg => (mkResponse 500 (Some (VObj [("error", VStr msg)])), [])
    | Ok body =>
    match prop body "sessionId" with
    | Throw msg => (mkResponse 500 (Some (VObj [("error", VStr msg)])), [])
    | Ok sessionId =>
      let paymentId := field body "paymentIntentId" in
      if negb (truthy sessionId) then
        (mkResponse 400 (Some (VObj [("error", VStr "sessionId required")])), [])
      else
        let meta := match store_get_json st (GenerateReportBackground.metaKey sessionId) with
                    | Ok v => v
                    | Throw _ => VNull
                    end in
        if negb (truthy meta) then
          (mkResponse 410
             (Some (VObj [("error", VStr "Session expired");
                          ("message", VStr "Please re-upload your screenshots.")])), [])
        else
          let jobId := JSString.substring (JSString.remove_dashes uuid) 0 16 in
          (mkResponse 202 (Some (VObj [("jobId", VStr jobId); ("status", VStr "processing")])),
           [mkTask jobId sessionId paymentId])
    end end.

End InProcessWorker.

(** ** generate-report.js *)
Module GenerateReport.

(** The fields of the event that the handler reads; [parsed_body] is
    [JSON.parse(event.body || '{}')], [forwarded_proto] and [host] are
    [event.headers['x-forwarded-proto']] and [event.headers['host']]. *)
Record Event : Type := mkEvent {
  httpMethod : string;
  parsed_body : Result Value;
  forwarded_proto : Value;
  host : Value
}.

Record Env : Type := mkEnv {
  runtime : Runtime;
  randomUUID : string;     (* crypto.randomUUID() *)
  expiry_now : Z;          (* new Date() of the expiry test *)
  queuedAt_now : Z         (* new Date() of the first job record *)
}.

(** A request started with [fetch] and left running: the handler does not
    wait for its outcome. *)
Record Fetch : Type := mkFetch { url : string; payload : Value }.

(** [crypto.randomUUID().replace(/-/g, '').substring(0, 16)] *)
Definition jobId (uuid : string) : string :=
  JSString.substring (JSString.remove_dashes uuid) 0 16.

Definition sessionExpired (message : string) : Response :=
  mkResponse 410 (Some (VObj [("error", VStr "Session expired"); ("message", VStr message)])).

Definition failed (message : string) : Response :=
  mkResponse 500 (Some (VObj [("error", VStr "Failed to start report generation");
                              ("message", VStr message)])).

Definition handler (env : Env) (event : Event) (st : Store)
  : Response * Store * list Fetch :=
  if String.eqb (httpMethod event) "OPTIONS" then (mkResponse 200 None, st, [])
  else if negb (String.eqb (httpMethod event) "POST") then
    (mkResponse 405 (Some (VObj [("error", VStr "Method not allowed")])), st, [])
  else
    match parsed_body event with
    | Throw msg => (failed msg, st, [])
    | Ok body =>
    match prop body "sessionId" with
    | Throw msg => (failed msg, st, [])
    | Ok sessionId =>
      let paymentIntentId := field body "paymentIntentId" in
      if negb (truthy sessionId) then
        (mkResponse 400 (Some (VObj [("error", VStr "sessionId required")])), st, [])
      else
        let metaKey := toString sessionId +:+ "/meta" in
        let meta := match store_get_json st metaKey with
                    | Ok v => v
                    | Throw _ => VNull
                    end in
        if negb (truthy meta) then
          (sessionExpired
             "Your screenshots have been automatically deleted (15-minute limit). Please upload again.",
           st, [])
        else if match newDate (runtime env) (field meta "expiresAt") with
                | Some expiresAt => expiresAt <? expiry_now env
                | None => false
                end then
          (sessionExpired "Your session has expired. Please upload again.",
           snd (store_delete st metaKey), [])
        else
          let jobId := jobId (randomUUID env) in
          match store_setJSON st ("job/" +:+ jobId)
                  (VObj [("status", VStr "queued");
                         ("queuedAt", VStr (toISOString (runtime env) (queuedAt_now env)))]) with
          | (Throw msg, st') => (failed msg, st', [])
          | (Ok _, st') =>
              let proto := if truthy (forwarded_proto event)
                           then forwarded_proto event else VStr "https" in
              let bgUrl := toString proto +:+ "://" +:+ toString (host event) +:+
                           "/.netlify/functions/generate-report-background" in
              (mkResponse 202 (Some (VObj [("jobId", VStr jobId);
                                           ("status", VStr "processing")])),
               st',
               [mkFetch bgUrl (VObj [("jobId", VStr jobId);
                                     ("sessionId", sessionId);
                                     ("paymentIntentId", paymentIntentId)])])
          end
    end end.

End GenerateReport.

(** ** generate-report.js, awaiting variant

    The variant of the dispatcher that writes no job record of its own and
    waits for the answer of the background function before it answers. *)
Module AwaitingTrigger.

(** [fetch_outcome] is what [await fetch(bgUrl, ...)] yields: the status of
    the answer, or the error thrown. *)
Record Env : Type := mkEnv {
  randomUUID : string;
  fetch_outcome : Result Z
}.

Definition handler (env : Env) (event : GenerateReport.Event) (st : Store)
  : Response * list GenerateReport.Fetch :=
  if String.eqb (GenerateReport.httpMethod event) "OPTIONS" then (mkResponse 200 None, [])
  else if negb (String.eqb (GenerateReport.httpMethod event) "POST") then
    (mkResponse 405 (Some (VObj [("error", VStr "Method not allowed")])), [])
  else
    match GenerateReport.parsed_body event with
    | Throw msg => (mkResponse 500 (Some (VObj [("error", VStr msg)])), [])
    | Ok body =>
    match prop body "sessionId" with
    | Throw msg => (mkResponse 500 (Some (VObj [("error", VStr msg)])), [])
    | Ok sessionId =>
      let paymentId := field body "paymentIntentId" in
      if negb (truthy sessionId) then
        (mkResponse 400 (Some (VObj [("error", VStr "sessionId required")])), [])
      else
        let meta := match store_get_json st (toString sessionId +:+ "/meta") with
                    | Ok v => v
                    | Throw _ => VNull
                    end in
        if negb (truthy meta) then
          (mkResponse 410
             (Some (VObj [("error", VStr "Session expired");
                          ("message", VStr "Please re-upload your screenshots.")])), [])
        else
          let jobId := JSString.substring (JSString.remove_dashes (randomUUID env)) 0 16 in
          let proto := if truthy (GenerateReport.forwarded_proto event)
                       then GenerateReport.forwarded_proto event else VStr "https" in
          let bgUrl := toString proto +:+ "://" +:+ toString (GenerateReport.host event) +:+
                       "/.netlify/functions/generate-report-background" in
          let call := GenerateReport.mkFetch bgUrl
                        (VObj [("jobId", VStr jobId); ("sessionId", sessionId);
                               ("paymentIntentId", paymentId)]) in
          match fetch_outcome env with
          | Throw msg => (mkResponse 500 (Some (VObj [("error", VStr msg)])), [call])
          | Ok _ =>
              (mkResponse 202
                 (Some (VObj [("jobId", VStr jobId); ("status", VStr "processing")])),
               [call])
          end
    end end.

End AwaitingTrigger.

(** ** lib/store.js: the Upstash Redis helper *)
Module UpstashStore.

(** A Redis string is either an integer (what [INCR] writes) or the JSON
    text of a value (what the helper [SET]s). *)
Inductive RedisValue : Type :=
| RInt (n : Z)
| RDoc (doc : Value).

(** A key with its value and the instant, in seconds, at which it expires. *)
Record RedisEntry : Type := mkRedisEntry {
  value : RedisValue;
  expireAt : option Z
}.

Inductive Command : Type :=
| CmdINCR (key : string)
| CmdEXPIRE (key : string) (seconds : Z)
| CmdSET (key : string) (v : RedisValue) (ex : Z).

(** The database, whether the REST endpoint can be used (environment
    variables set, request answered with a 2xx), and the commands served so
    far, oldest first. *)
Record Redis : Type := mkRedis {
  entries : gmap string RedisEntry;
  available : bool;
  commands : list Command
}.

Definition SCREENSHOT_TTL_SECONDS : Z := 15 * 60.
Definition RATE_LIMIT_WINDOW_SECONDS : Z := 60 * 60.
Definition RATE_LIMIT_MAX_REQUESTS : Z := 100.

(** The entry under [key] as a command served at [now] sees it: an entry
    whose deadline has been reached is gone. *)
Definition live (r : Redis) (now : Z) (key : string) : option RedisEntry :=
  match entries r !! key with
  | Some e => match expireAt e with
              | Some deadline => if deadline <=? now then None else Some e
              | None => Some e
              end
  | None => None
  end.

Definition served (r : Redis) (c : Command) (m : gmap string RedisEntry) : Redis :=
  {| entries := m; available := available r; commands := commands r ++ [c] |}.

Definition unavailable : string := "Upstash request failed".

(** [upstash('INCR', key)] *)
Definition INCR (r : Redis) (now : Z) (key : string) : Result Z * Redis :=
  if negb (available r) then (Throw unavailable, r)
  else
    match live r now key with
    | None =>
        (Ok 1, served r (CmdINCR key) (<[key := mkRedisEntry (RInt 1) None]> (entries r)))
    | Some e =>
        match value e with
        | RInt n =>
            if n <? 9223372036854775807 then
              (Ok (n + 1),
               served r (CmdINCR key)
                      (<[key := mkRedisEntry (RInt (n + 1)) (expireAt e)]> (entries r)))
            else (Throw "ERR increment or decrement would overflow", r)
        | RDoc _ => (Throw "ERR value is not an integer or out of range", r)
        end
    end.

(** [upstash('EXPIRE', key, seconds)] *)
Definition EXPIRE (r : Redis) (now : Z) (key : string) (seconds : Z) : Result Z * Redis :=
  if negb (available r) then (Throw unavailable, r)
  else
    match live r now key with
    | None => (Ok 0, served r (CmdEXPIRE key seconds) (entries r))
    | Some e =>
        (Ok 1,
         served r (CmdEXPIRE key seconds)
                (<[key := mkRedisEntry (value e) (Some (now + seconds))]> (entries r)))
    end.

(** [upstash('SET', key, value, 'EX', seconds)] *)
Definition SET_EX (r : Redis) (now : Z) (key : string) (v : RedisValue) (seconds : Z)
  : Result unit * Redis :=
  if negb (available r) then (Throw unavailable, r)
  else (Ok tt,
        served r (CmdSET key v seconds)
               (<[key := mkRedisEntry v (Some (now + seconds))]> (entries r))).

(** [{ allowed, count, remaining }] *)
Record RateLimit : Type := mkRateLimit {
  allowed : bool;
  count : Z;
  remaining : Z
}.

(** Both commands of one call are served at the instant [now]. *)
Definition checkRateLimit (r : Redis) (now : Z) (ip : string) : Result RateLimit * Redis :=
  let key := "ratelimit:" +:+ ip in
  match INCR r now key with
  | (Throw msg, r1) => (Throw msg, r1)
  | (Ok count, r1) =>
      let after_expire :=
        if count =? 1 then EXPIRE r1 now key RATE_LIMIT_WINDOW_SECONDS
        else (Ok 0, r1) in
      match after_expire with
      | (Throw msg, r2) => (Throw msg, r2)
      | (Ok _, r2) =>
          (Ok {| allowed := count <=? RATE_LIMIT_MAX_REQUESTS;
                 count := count;
                 remaining := Z.max 0 (RATE_LIMIT_MAX_REQUESTS - count) |}, r2)
      end
  end.

Definition storeScreenshot (r : Redis) (now : Z) (sessionId : string) (index : nat)
           (mimeType base64 : string) : Result string * Redis :=
  let key := "screenshot:" +:+ sessionId +:+ ":" +:+ pretty index in
  let value := RDoc (VObj [("mimeType", VStr mimeType); ("base64", VStr base64)]) in
  match SET_EX r now key value SCREENSHOT_TTL_SECONDS with
  | (Throw msg, r') => (Throw msg, r')
  | (Ok _, r') => (Ok key, r')
  end.

(** [data] lists the own properties of the object passed in; [createdAt] is
    [new Date().toISOString()]. *)
Definition storeSession (r : Redis) (now : Z) (sessionId : string)
           (data : list (string * Value)) (createdAt : string) : Result unit * Redis :=
  let key := "session:" +:+ sessionId in
  let value :=
    RDoc (VObj (List.filter (fun kv => negb (String.eqb (fst kv) "createdAt")) data
                ++ [("createdAt", VStr createdAt)])) in
  SET_EX r now key value SCREENSHOT_TTL_SECONDS.

(** [JSON.parse(JSON.stringify(v))]: properties whose value is [undefined]
    are left out of the text, at every depth. *)
Fixpoint reparse (v : Value) : Value :=
  match v with
  | VObj fields =>
      VObj ((fix go (l : list (string * Value)) : list (string * Value) :=
               match l with
               | [] => []
               | (k, x) :: l' =>
                   match x with
                   | VUndefined => go l'
                   | _ => (k, reparse x) :: go l'
                   end
               end) fields)
  | _ => v
  end.

(** [JSON.parse(data)] for the string that [GET] returns: an integer reads
    as a number; the text of a value reads as that value; [undefined] has no
    JSON text, and what is stored in its place does not parse. *)
Definition parseStored (v : RedisValue) : Result Value :=
  match v with
  | RInt n => Ok (VNum n)
  | RDoc VUndefined => Throw "Unexpected token u in JSON"
  | RDoc doc => Ok (reparse doc)
  end.

(** [upstash('GET', key)]: the value, or [None] for [null]. The log
    [commands] records the commands of the rate limiter and of the stores
    ([INCR], [EXPIRE], [SET]); [GET], [DEL] and [TTL] are answered without
    being recorded. *)
Definition GET (r : Redis) (now : Z) (key : string) : Result (option RedisValue) :=
  if negb (available r) then Throw unavailable
  else Ok (value <$> live r now key).

(** [upstash('DEL', ...keys)]: the number of keys removed. *)
Definition DEL (r : Redis) (now : Z) (keys : list string) : Result Z * Redis :=
  if negb (available r) then (Throw unavailable, r)
  else (Ok (Z.of_nat (length (List.filter (λ k, bool_decide (is_Some (live r now k))) keys))),
        mkRedis (foldr delete (entries r) keys) (available r) (commands r)).

(** [upstash('TTL', key)]: [-2] for a missing key, [-1] for a key without
    deadline, the seconds left otherwise. *)
Definition TTL (r : Redis) (now : Z) (key : string) : Result Z :=
  if negb (available r) then Throw unavailable
  else Ok (match live r now key with
           | None => -2
           | Some e => match expireAt e with
                       | None => -1
                       | Some deadline => deadline - now
                       end
           end).

(** The [{ mimeType, base64 }] stored, or [null] when expired, missing or
    unreadable. *)
Definition getScreenshot (r : Redis) (now : Z) (sessionId : string) (index : nat)
  : Result Value :=
  let key := "screenshot:" +:+ sessionId +:+ ":" +:+ pretty index in
  match GET r now key with
  | Throw msg => Throw msg
  | Ok None => Ok VNull
  | Ok (Some data) => match parseStored data with
                      | Ok v => Ok v
                      | Throw _ => Ok VNull
                      end
  end.

(** [count] is the loop bound: the number of iterations of
    [for (let i = 0; i < count; i++)]. No command is sent for no key. *)
Definition deleteScreenshots (r : Redis) (now : Z) (sessionId : string) (count : nat)
  : Result unit * Redis :=
  let keys := map (λ i : nat, "screenshot:" +:+ sessionId +:+ ":" +:+ pretty i) (seq 0 count) in
  if (0 <? length keys)%nat then
    match DEL r now keys with
    | (Throw msg, r') => (Throw msg, r')
    | (Ok _, r') => (Ok tt, r')
    end
  else (Ok tt, r).

(** The session metadata, or [null]. *)
Definition getSession (r : Redis) (now : Z) (sessionId : string) : Result Value :=
  let key := "session:" +:+ sessionId in
  match GET r now key with
  | Throw msg => Throw msg
  | Ok None => Ok VNull
  | Ok (Some data) => match parseStored data with
                      | Ok v => Ok v
                      | Throw _ => Ok VNull
                      end
  end.

Definition deleteSession (r : Redis) (now : Z) (sessionId : string) : Result unit * Redis :=
  match DEL r now ["session:" +:+ sessionId] with
  | (Throw msg, r') => (Throw msg, r')
  | (Ok _, r') => (Ok tt, r')
  end.

Definition getSessionTTL (r : Redis) (now : Z) (sessionId : string) : Result Z :=
  TTL r now ("session:" +:+ sessionId).

End UpstashStore.

(** ** upload-screenshots.js *)
Module UploadScreenshots.
Import UpstashStore.

Definition VALID_CATS : list string := ["vehicle"; "property"; "electronics"; "other"].

(** An image accepted by [parseMultipart]. *)
Record File : Type := mkFile { mimeType : string; base64 : string }.

(** The fields of the event that the handler reads; [forwarded_for] is
    [event.headers['x-forwarded-for']] and [multipart] the outcome of
    [parseMultipart(event)]: the form fields and the accepted files. *)
Record Event : Type := mkEvent {
  httpMethod : string;
  forwarded_for : Value;
  multipart : Result (Value * list File)
}.

Record Env : Type := mkEnv {
  randomUUID : string;     (* crypto.randomUUID() *)
  redis_now : Z;           (* the instant, in seconds, at which Redis is reached *)
  createdAt : string       (* new Date().toISOString() *)
}.

(** [s.split(',')[0]] *)
Fixpoint before_comma (s : string) : string :=
  match s with
  | EmptyString => EmptyString
  | String c s' => if Ascii.eqb c "," then EmptyString else String c (before_comma s')
  end.

(** [(event.headers['x-forwarded-for'] || 'unknown').split(',')[0].trim()];
    a header value is a string. *)
Definition clientIp (forwarded_for : Value) : Result string :=
  if negb (truthy forwarded_for) then Ok "unknown"
  else match forwarded_for with
       | VStr s => Ok (JSString.trim (before_comma s))
       | _ => Throw "split is not a function"
       end.

(** [crypto.randomUUID().replace(/-/g, '').substring(0, 16)] *)
Definition sessionId (uuid : string) : string :=
  JSString.substring (JSString.remove_dashes uuid) 0 16.

Definition failed (message : string) : Response :=
  mkResponse 500 (Some (VObj [("error", VStr "Upload failed"); ("message", VStr message)])).

(** [files.map((f, i) => store.storeScreenshot(sessionId, i, ...))], the
    writes taken in index order. *)
Fixpoint storeScreenshots (r : Redis) (now : Z) (sessionId : string)
         (i : nat) (files : list File) : Result unit * Redis :=
  match files with
  | [] => (Ok tt, r)
  | f :: rest =>
      match storeScreenshot r now sessionId i (mimeType f) (base64 f) with
      | (Throw msg, r') => (Throw msg, r')
      | (Ok _, r') => storeScreenshots r' now sessionId (S i) rest
      end
  end.

Definition handler (env : Env) (event : Event) (r : Redis) : Response * Redis :=
  if String.eqb (httpMethod event) "OPTIONS" then (mkResponse 200 None, r)
  else if negb (String.eqb (httpMethod event) "POST") then
    (mkResponse 405 (Some (VObj [("error", VStr "Method not allowed")])), r)
  else
    match clientIp (forwarded_for event) with
    | Throw msg => (failed msg, r)
    | Ok ip =>
    match checkRateLimit r (redis_now env) ip with
    | (Throw msg, r1) => (failed msg, r1)
    | (Ok rate, r1) =>
      if negb (allowed rate) then
        (mkResponse 429
           (Some (VObj [("error",
                         VStr "Too many requests. Please wait an hour before trying again.");
                        ("remaining", VNum 0)])), r1)
      else
        match multipart event with
        | Throw msg => (failed msg, r1)
        | Ok (fields, files) =>
            let category := field fields "category" in
            if negb (truthy category) || negb (includes_str VALID_CATS category) then
              (mkResponse 400 (Some (VObj [("error", VStr "Invalid category")])), r1)
            else if (length files =? 0)%nat then
              (mkResponse 400 (Some (VObj [("error", VStr "No valid images uploaded")])), r1)
            else
              let sessionId := sessionId (randomUUID env) in
              match storeScreenshots r1 (redis_now env) sessionId 0 files with
              | (Throw msg, r2) => (failed msg, r2)
              | (Ok _, r2) =>
                  match storeSession r2 (redis_now env) sessionId
                          [("category", category);
                           ("screenshotCount", VNum (Z.of_nat (length files)))]
                          (createdAt env) with
                  | (Throw msg, r3) => (failed msg, r3)
                  | (Ok _, r3) =>
                      (mkResponse 200
                         (Some (VObj [("sessionId", VStr sessionId);
                                      ("screenshotCount", VNum (Z.of_nat (length files)));
                                      ("category", category);
                                      ("expiresInSeconds", VNum SCREENSHOT_TTL_SECONDS);
                                      ("message",
                                       VStr ("Screenshots stored securely. Session expires in "
                                             +:+ pretty (SCREENSHOT_TTL_SECONDS / 60)
                                             +:+ " minutes."))])),
                       r3)
                  end
              end
        end
    end end.

End UploadScreenshots.

(** ** generate-report.js, synchronous variant on Redis

    The variant that answers with the report itself: it reads the session and
    the screenshots that upload-screenshots.js left in Redis, verifies the
    payment, calls the generation service and deletes the session. *)
Module GenerateReportSync.

Definition VALID_CATEGORIES : list string :=
  ["vehicle"; "property"; "electronics"; "other"].

Definition verifyPayment (BETA_MODE : Value) (paymentIntentId : Value) (sp : Stripe)
  : PaymentCheck * Stripe :=
  if strict_eq_str BETA_MODE "true" then (mkCheck true (VStr "beta"), sp)
  else if negb (truthy paymentIntentId) then (rejected "No payment intent ID", sp)
  else
    match retrieve sp paymentIntentId with
    | Throw msg => (rejected msg, sp)
    | Ok intent =>
        if negb (String.eqb (pi_status intent) "succeeded") then
          (rejected ("Payment status: " +:+ pi_status intent), sp)
        else if negb (includes_num [200; 500; 1000] (pi_amount intent)) then
          (rejected ("Invalid amount: " +:+ pretty (pi_amount intent)), sp)
        else if negb (String.eqb (pi_currency intent) "aud") then
          (rejected ("Wrong currency: " +:+ pi_currency intent), sp)
        else if report_generated intent then
          (rejected "Payment already used", sp)
        else
          match update_metadata sp (toString paymentIntentId) (mark_generated intent) with
          | (Throw msg, sp') => (rejected msg, sp')
          | (Ok _, sp') => (mkCheck true VUndefined, sp')
          end
    end.

(** An image of the message: [media_type] and [data]. *)
Record Image : Type := mkImage { media_type : Value; data : Value }.

(** A call of [client.messages.create]. *)
Record GenerationRequest : Type := mkRequest {
  system : string;
  images : list Image;
  user_text : string
}.

Record ContentBlock : Type := mkBlock { block_type : string; text : string }.

Record Env : Type := mkEnv {
  BETA_MODE : Value;                       (* process.env.BETA_MODE *)
  readPrompt : string -> option string;    (* the first location that can be read *)
  messages_create :                        (* client.messages.create *)
    string -> list Image -> string -> Result (list ContentBlock);
  random36 : string;                       (* Math.random().toString(36) *)
  today : string;                          (* new Date().toLocaleDateString(...) *)
  session_now : Z;       (* the instant, in seconds, at which the session is read *)
  screenshots_now : Z;   (* the instant at which the screenshots are read *)
  cleanup_now : Z        (* the instant at which the session is deleted *)
}.

Record World : Type := mkWorld {
  redis : UpstashStore.Redis;
  stripe : Stripe;
  generation_log : list GenerationRequest
}.

Record Event : Type := mkEvent {
  httpMethod : string;
  parsed_body : Result Value     (* JSON.parse(event.body || '{}') *)
}.

(** [loadPrompt(filename)]: the empty string when no location can be read. *)
Definition loadPrompt (env : Env) (filename : string) : string :=
  default "" (readPrompt env filename).

Definition selectPrompt (env : Env) (category : Value) : string :=
  let systemPrompt :=
    if strict_eq_str category "property" then loadPrompt env "combined-aus-property-v3.1.md"
    else if strict_eq_str category "vehicle" then loadPrompt env "combined-aus-vehicle-v3.1.md"
    else if strict_eq_str category "electronics" then loadPrompt env "combined-aus-electronics-v1.md"
    else loadPrompt env "combined-aus-general-v1.md" in
  if String.eqb systemPrompt "" then loadPrompt env "combined-aus-vehicle-v3.1.md"
  else systemPrompt.

Definition nl : string := String JSString.LF "".

Definition promptFooter (reportId today : string) (count : nat) (category : Value) : string :=
  nl +:+ nl +:+ "---" +:+ nl +:+ nl +:+ "OUTPUT INSTRUCTIONS:" +:+ nl +:+ nl +:+
  "Generate the complete report as a standalone HTML file. Include all CSS in a <style> tag."
  +:+ nl +:+ nl +:+
  "Report ID: " +:+ reportId +:+ nl +:+
  "Date: " +:+ today +:+ nl +:+
  "Screenshots: " +:+ pretty count +:+ nl +:+
  "Category: " +:+ toString category +:+ nl +:+ nl +:+
  "Identify country/jurisdiction from screenshots. Adapt all costs, laws, and buyer rights to local market."
  +:+ nl +:+ nl +:+
  "Output ONLY the HTML. No markdown, no code fences. Start with <!DOCTYPE html>.".

Definition instruction (count : nat) (category : Value) : string :=
  "The customer has uploaded " +:+ pretty count +:+ " screenshot(s) of a " +:+
  toString category +:+
  " listing. Analyse thoroughly and generate the complete Listing Lens buyer intelligence report as standalone HTML.".

(** [Promise.all] over [store.getScreenshot(sessionId, i)] for [i] below the
    bound: the values read, in index order, unless a read throws. *)
Fixpoint getScreenshots (r : UpstashStore.Redis) (now : Z) (sessionId : string)
         (indices : list nat) : Result (list Value) :=
  match indices with
  | [] => Ok []
  | i :: rest =>
      match UpstashStore.getScreenshot r now sessionId i with
      | Throw msg => Throw msg
      | Ok v => match getScreenshots r now sessionId rest with
                | Throw msg => Throw msg
                | Ok vs => Ok (v :: vs)
                end
      end
  end.

(** The image built from a stored screenshot. *)
Definition toImage (s : Value) : Image :=
  mkImage (if truthy (field s "mimeType") then field s "mimeType" else VStr "image/jpeg")
          (field s "base64").

(** The two deletes of the clean-up; a failing one is logged and ignored. *)
Definition cleanup (r : UpstashStore.Redis) (now : Z) (sessionId : string) (count : nat)
  : UpstashStore.Redis :=
  snd (UpstashStore.deleteSession
         (snd (UpstashStore.deleteScreenshots r now sessionId count)) now sessionId).

(** The best-effort clean-up of the [catch] block. *)
Definition cleanupAfterError (env : Env) (sessionId : Value) (r : UpstashStore.Redis)
  : UpstashStore.Redis :=
  if truthy sessionId then
    match UpstashStore.getSession r (cleanup_now env) (toString sessionId) with
    | Throw _ => r
    | Ok session =>
        if truthy session then
          let count := if truthy (field session "screenshotCount")
                       then field session "screenshotCount" else VNum 6 in
          cleanup r (cleanup_now env) (toString sessionId)
                  (GenerateReportBackground.iterations count)
        else r
    end
  else r.

Definition failed (message : string) : Response :=
  mkResponse 500 (Some (VObj [("error", VStr "Failed to generate report");
                              ("message", VStr message)])).

Definition handler (env : Env) (event : Event) (w : World) : Response * World :=
  if String.eqb (httpMethod event) "OPTIONS" then (mkResponse 200 None, w)
  else if negb (String.eqb (httpMethod event) "POST") then
    (mkResponse 405 (Some (VObj [("error", VStr "Method not allowed")])), w)
  else
    match parsed_body event with
    | Throw msg => (failed msg, w)
    | Ok body =>
    match prop body "sessionId" with
    | Throw msg => (failed msg, w)
    | Ok sessionId =>
      let paymentIntentId := field body "paymentIntentId" in
      let caught msg (sp : Stripe) (requests : list GenerationRequest) :=
        (failed msg, mkWorld (cleanupAfterError env sessionId (redis w)) sp requests) in
      if negb (truthy sessionId) then
        (mkResponse 400 (Some (VObj [("error", VStr "sessionId required")])), w)
      else
        match UpstashStore.getSession (redis w) (session_now env) (toString sessionId) with
        | Throw msg => caught msg (stripe w) (generation_log w)
        | Ok session =>
          if negb (truthy session) then
            (mkResponse 410
               (Some (VObj [("error", VStr "Session expired");
                            ("message",
                             VStr "Your screenshots have been automatically deleted (15-minute limit). Please upload again.")])),
             w)
          else
            let category := field session "category" in
            let screenshotCount := field session "screenshotCount" in
            if negb (includes_str VALID_CATEGORIES category) then
              (mkResponse 400 (Some (VObj [("error", VStr "Invalid category in session")])), w)
            else
              let (payment, sp1) := verifyPayment (BETA_MODE env) paymentIntentId (stripe w) in
              if negb (valid payment) then
                (mkResponse 402
                   (Some (VObj [("error", VStr "Payment verification failed");
                                ("reason", reason payment)])),
                 mkWorld (redis w) sp1 (generation_log w))
              else
                match getScreenshots (redis w) (screenshots_now env) (toString sessionId)
                        (seq 0 (GenerateReportBackground.iterations screenshotCount)) with
                | Throw msg => caught msg sp1 (generation_log w)
                | Ok fetched =>
                  let screenshots := List.filter truthy fetched in
                  if (length screenshots =? 0)%nat then
                    (mkResponse 410
                       (Some (VObj [("error", VStr "Screenshots expired");
                                    ("message",
                                     VStr "Your screenshots were automatically deleted before the report could be generated. Please upload again — your payment is still valid.")])),
                     mkWorld (redis w) sp1 (generation_log w))
                  else
                    let systemPrompt := selectPrompt env category in
                    if String.eqb systemPrompt "" then
                      (mkResponse 500 (Some (VObj [("error", VStr "Prompt configuration error")])),
                       mkWorld (redis w) sp1 (generation_log w))
                    else
                      let reportId := GenerateReportBackground.reportId (random36 env) in
                      let systemPrompt :=
                        systemPrompt +:+
                        promptFooter reportId (today env) (length screenshots) category in
                      let request :=
                        mkRequest systemPrompt (map toImage screenshots)
                                  (instruction (length screenshots) category) in
                      let requests := generation_log w ++ [request] in
                      match messages_create env systemPrompt (map toImage screenshots)
                              (instruction (length screenshots) category) with
                      | Throw msg => caught msg sp1 requests
                      | Ok content =>
                        let reportHtml :=
                          GenerateReportBackground.normalize
                            (String.concat ""
                               (map text (List.filter (λ b, String.eqb (block_type b) "text")
                                                      content))) in
                        (mkResponse 200
                           (Some (VObj [("format", VStr "html");
                                        ("reportId", VStr reportId);
                                        ("html", VStr reportHtml)])),
                         mkWorld (cleanup (redis w) (cleanup_now env) (toString sessionId)
                                          (GenerateReportBackground.iterations screenshotCount))
                                 sp1 requests)
                      end
                end
        end
    end end.

End GenerateReportSync.

(** * Vocabulary of the properties *)

Import GenerateReportBackground.
Import UpstashStore.

Definition processing_body : Value := VObj [("status", VStr "processing")].

Abbreviation blobName := BlobKey.blobName.

(** A text that holds no separator, no [?] or [#] and none of the bytes that
    the URL parser drops or trims: as a key, a single segment. *)
Definition is_plain (s : string) : bool :=
  JSString.forallb (λ c, negb (BlobKey.is_c0_or_space c)
                         && negb (BlobKey.is_separator c)
                         && negb (BlobKey.ends_path c)) s.

(** A text that holds neither [?] nor [#]: at the beginning of a key, it
    does not end the path. *)
Definition is_path (s : string) : bool :=
  JSString.forallb (λ c, negb (BlobKey.ends_path c)) s.

(** A segment that is no dot segment. *)
Definition is_regular (seg : string) : bool :=
  negb (BlobKey.double_dot seg) && negb (BlobKey.single_dot seg).

(** The identifiers that the dispatcher and the upload handler mint: sixteen
    lower-case hexadecimal digits. *)
Definition is_minted_id (s : string) : Prop :=
  String.length s = 16%nat ∧ JSString.forallb JSString.is_lower_hex s = true.

(** The store operations open to a worker run for job [jobId] on session
    [sessionId]: writes of its job record, deletes of the session's
    screenshots and metadata. *)
Definition worker_op (jobId sessionId : Value) (op : StoreOp) : Prop :=
  match op with
  | OpSet key _ => key = jobKey jobId
  | OpDelete key => key = metaKey sessionId ∨ ∃ i, key = screenshotKey sessionId i
  end.

(** [st'] results from [st] by operations that all satisfy [P]. *)
Definition log_grows_by (P : StoreOp → Prop) (st st' : Store) : Prop :=
  ∃ ops, log st' = log st ++ ops ∧ Forall P ops.

(** The request body that the dispatcher sends to the worker. *)
Definition workerRequest (jobId sessionId paymentIntentId : Value) : Event :=
  mkEvent (Ok (VObj [("jobId", jobId); ("sessionId", sessionId);
                     ("paymentIntentId", paymentIntentId)])).

(** The store once the worker has marked the job as processing. *)
Definition started (env : Env) (w : World) (jobId : Value) : Store :=
  setJobStatus (store w) jobId
    (VObj [("status", VStr "processing");
           ("startedAt", VStr (toISOString (runtime env) (startedAt_now env)))]).





(** The three checks on the fields of an intent, in the order of the code. *)
Definition intent_in_order (intent : PaymentIntent) : Prop :=
  pi_status intent = "succeeded"
  ∧ pi_amount intent ∈ [200; 500; 1000]
  ∧ pi_currency intent = "aud".

Definition session_gone : string :=
  "Your screenshots have been automatically deleted (15-minute limit). Please upload again.".

Definition session_past_expiry : string :=
  "Your session has expired. Please upload again.".

(** The expiry test of the dispatcher: [new Date(meta.expiresAt) < new Date()]. *)
Definition past_expiry (env : GenerateReport.Env) (meta : Value) : bool :=
  match newDate (GenerateReport.runtime env) (field meta "expiresAt") with
  | Some expiresAt => expiresAt <? GenerateReport.expiry_now env
  | None => false
  end.

(** The record written for a new job. *)
Definition queued_record (env : GenerateReport.Env) : Value :=
  VObj [("status", VStr "queued");
        ("queuedAt", VStr (toISOString (GenerateReport.runtime env)
                                       (GenerateReport.queuedAt_now env)))].

(** The request that starts the worker. *)
Definition worker_call (env : GenerateReport.Env) (event : GenerateReport.Event)
           (sessionId paymentIntentId : Value) : GenerateReport.Fetch :=
  GenerateReport.mkFetch
    (toString (if truthy (GenerateReport.forwarded_proto event)
               then GenerateReport.forwarded_proto event else VStr "https")
     +:+ "://" +:+ toString (GenerateReport.host event)
     +:+ "/.netlify/functions/generate-report-background")
    (VObj [("jobId", VStr (GenerateReport.jobId (GenerateReport.randomUUID env)));
           ("sessionId", sessionId);
           ("paymentIntentId", paymentIntentId)]).

Definition counterKey (ip : string) : string := "ratelimit:" +:+ ip.

(** The value of a counter and its deadline as a command served at [now]
    finds them: zero and no deadline when the key is absent or has expired;
    undefined when the key holds something else than an integer. *)
Definition current (r : Redis) (now : Z) (key : string) : option (Z * option Z) :=
  match live r now key with
  | None => Some (0, None)
  | Some e => match value e with
              | RInt n => Some (n, expireAt e)
              | RDoc _ => None
              end
  end.

(** The answer to the request that brings the counter to [k]. *)
Definition verdict (k : Z) : RateLimit :=
  mkRateLimit (k <=? RATE_LIMIT_MAX_REQUESTS) k (Z.max 0 (RATE_LIMIT_MAX_REQUESTS - k)).

(** The requests of one identity, served at the given instants in turn. *)
Fixpoint serve (r : Redis) (ip : string) (times : list Z) : list (Result RateLimit) :=
  match times with
  | [] => []
  | t :: ts => fst (checkRateLimit r t ip) :: serve (snd (checkRateLimit r t ip)) ip ts
  end.

Definition too_many_requests : Response :=
  mkResponse 429
    (Some (VObj [("error", VStr "Too many requests. Please wait an hour before trying again.");
                 ("remaining", VNum 0)])).

Fixpoint uuid_chars (i : nat) (s : string) : bool :=
  match s with
  | EmptyString => true
  | String c s' =>
      (if (i =? 8)%nat || (i =? 13)%nat || (i =? 18)%nat || (i =? 23)%nat
       then Ascii.eqb c "-" else JSString.is_lower_hex c)
      && uuid_chars (S i) s'
  end.

(** The textual form of a UUID, as [crypto.randomUUID()] returns it: 36
    characters, hyphens at positions 8, 13, 18 and 23, lower-case hexadecimal
    digits elsewhere. *)
Definition is_uuid (u : string) : bool :=
  (String.length u =? 36)%nat && uuid_chars 0 u.

(** The first sixteen hexadecimal digits of a UUID: its first three groups,
    of eight, four and four digits, without the hyphens between them. *)
Definition first_sixteen_digits (u : string) : string :=
  JSString.take 8 u +:+ JSString.take 4 (JSString.drop 9 u)
  +:+ JSString.take 4 (JSString.drop 14 u).

(** A text made of white space and nothing else. *)
Inductive blank : string → Prop :=
| blank_nil : blank ""
| blank_cons (w s : string) :
    w ∈ JSString.white_space → blank s → blank (w +:+ s).

(** [fence_removed fence s out]: [out] is [s] without the occurrences of
    [fence], read from the left, each removed together with the line feed
    that follows it, if any. *)
Inductive fence_removed (fence : string) : string → string → Prop :=
| fence_removed_nil : fence_removed fence "" ""
| fence_removed_with_line_feed (rest out : string) :
    fence_removed fence rest out →
    fence_removed fence (fence +:+ String JSString.LF rest) out
| fence_removed_alone (rest out : string) :
    String.prefix (String JSString.LF "") rest = false →
    fence_removed fence rest out →
    fence_removed fence (fence +:+ rest) out
| fence_removed_kept (c : ascii) (s out : string) :
    String.prefix fence (String c s) = false →
    fence_removed fence s out →
    fence_removed fence (String c s) (String c out).

(** [pat] occurs in [s] at position [i]. *)
Definition occurs_at (pat s : string) (i : nat) : Prop :=
  (i ≤ String.length s)%nat ∧ String.prefix pat (JSString.drop i s) = true.

(** The start marker that [docStart] looks for: the doctype, or the opening
    tag when the text has no doctype. *)
Definition startMarker (t : string) : string :=
  if JSString.indexOf t "<!DOCTYPE html>" =? -1 then "<html" else "<!DOCTYPE html>".

(** The documents written under [key], oldest first. *)
Definition writes_to (key : string) (ops : list StoreOp) : list Value :=
  omap (λ op, match op with
              | OpSet k doc => if decide (k = key) then Some doc else None
              | OpDelete _ => None
              end) ops.

Definition processing_record (env : Env) : Value :=
  VObj [("status", VStr "processing");
        ("startedAt", VStr (toISOString (runtime env) (startedAt_now env)))].

Definition complete_record (env : Env) (html : string) : Value :=
  VObj [("status", VStr "complete");
        ("reportId", VStr (reportId (random36 env)));
        ("html", VStr html);
        ("completedAt", VStr (toISOString (runtime env) (completedAt_now env)))].

(** The instants recorded in a job record, read back with [Date.parse]. *)
Definition timestamps (rt : Runtime) (doc : Value) : list Z :=
  omap (λ k, match field doc k with
             | VStr s => Date_parse rt s
             | _ => None
             end)
       ["queuedAt"; "startedAt"; "completedAt"].

(** The pattern [LL-[A-Z0-9]{5}], anchored at both ends. *)
Definition matches_report_pattern (s : string) : bool :=
  String.prefix "LL-" s
  && (String.length s =? 8)%nat
  && JSString.forallb JSString.is_upper_alnum (JSString.drop 3 s).

(** The texts that [toString(36)] yields for a number in [0, 1): [0], or
    [0.] followed by at least one digit of radix 36. *)
Definition is_radix36_fraction (r : string) : bool :=
  String.eqb r "0"
  || String.prefix "0." r
     && (3 <=? String.length r)%nat
     && JSString.forallb JSString.is_base36 (JSString.drop 2 r).

(** The keys of lib/store.js. *)
Definition redisScreenshotKey (sessionId : string) (index : nat) : string :=
  "screenshot:" +:+ sessionId +:+ ":" +:+ pretty index.

Definition redisSessionKey (sessionId : string) : string := "session:" +:+ sessionId.

(** The object that [storeSession] serialises: [{ ...data, createdAt }]. *)
Definition sessionDoc (data : list (string * Value)) (createdAt : string) : Value :=
  VObj (List.filter (λ kv, negb (String.eqb (fst kv) "createdAt")) data
        ++ [("createdAt", VStr createdAt)]).

(** The object that [storeScreenshot] serialises for an uploaded file. *)
Definition storedFile (f : UploadScreenshots.File) : Value :=
  VObj [("mimeType", VStr (UploadScreenshots.mimeType f));
        ("base64", VStr (UploadScreenshots.base64 f))].

(** The metadata that the upload handler stores for a session. *)
Definition uploadedSession (category : Value) (files : list UploadScreenshots.File)
           (createdAt : string) : Value :=
  VObj [("category", category);
        ("screenshotCount", VNum (Z.of_nat (length files)));
        ("createdAt", VStr createdAt)].

(** The status recorded in the JSON document of the blob [name], if there is
    one. *)
Definition recorded_status (st : Store) (name : string) : option Value :=
  match blobs st !! name with
  | Some e => match body e with
              | Json doc => Some (field doc "status")
              | Raw _ => None
              end
  | None => None
  end.

(** [pat] occurs somewhere in [s]. *)
Definition contains (pat s : string) : Prop := ∃ i, occurs_at pat s i.

(** * Sample data

    A session, a payment provider and an environment on which the properties
    below are run. *)
Module Sample.

(** The four instants used, with their ISO 8601 texts. *)
Definition calendar : list (Z * string) :=
  [(1704067200000, "2024-01-01T00:00:00.000Z");
   (1767225600000, "2026-01-01T00:00:00.000Z");
   (1767225601000, "2026-01-01T00:00:01.000Z");
   (1767225630000, "2026-01-01T00:00:30.000Z")].

Definition rt : Runtime :=
  mkRuntime
    (λ s, fst <$> List.find (λ e, String.eqb (snd e) s) calendar)
    (λ t, default "" (snd <$> List.find (λ e, fst e =? t) calendar)).

Definition uuid : string := "123e4567-e89b-42d3-a456-426614174000".
Definition jobId : string := "123e4567e89b42d3".
Definition sessionId : string := "feedfacefeedface".

Definition usedIntent : PaymentIntent :=
  mkIntent "succeeded" 500 "aud" (Some {["report_generated" := "true"]}).
Definition voidIntent : PaymentIntent :=
  mkIntent "canceled" 500 "aud" (Some {["report_generated" := "true"]}).
Definition paidIntent : PaymentIntent :=
  mkIntent "succeeded" 200 "aud" (Some ∅).

Definition provider : Stripe :=
  mkStripe {["pi_used" := usedIntent; "pi_void" := voidIntent; "pi_paid" := paidIntent]}
           None ∅.

Definition meta (expiresAt : string) : Value :=
  VObj [("category", VStr "vehicle"); ("screenshotCount", VNum 2);
        ("expiresAt", VStr expiresAt)].

(** A session of two screenshots of which the second has expired. *)
Definition sessionStore (expiresAt : string) : Store :=
  mkStore {["feedfacefeedface/meta" := mkEntry (Json (meta expiresAt)) (VObj []);
            "feedfacefeedface/screenshot-0" :=
              mkEntry (Raw "PNG") (VObj [("mimeType", VStr "image/png")])]}
          ∅ [].

Definition generated : string :=
  "Here is your report: <!DOCTYPE html><html>ok</html> Enjoy!".

(** The same text as the generation service may wrap it: in a fence, with a
    blank line and an ideographic space (U+3000) behind. *)
Definition fenced : string :=
  "```html" +:+ nl +:+ generated +:+ nl +:+ "```" +:+ nl +:+ nl
  +:+ JSString.utf8 [227; 128; 128]%nat.

(** A worker environment with payment bypassed, as in the end-to-end
    scenarios. *)
Definition workerEnv : Env :=
  mkEnv (VStr "true")
        (λ f, if String.eqb f "combined-aus-vehicle-v3.1.md"
              then Some "You are a used-car analyst." else None)
        (λ _ _ _, Ok [mkBlock "text" generated])
        "0.4fzyo82mvyr" "1 Jan 2026" rt 1767225601000 1767225630000.

Definition dispatchEnv : GenerateReport.Env :=
  GenerateReport.mkEnv rt uuid 1767225600000 1767225600000.

Definition dispatchEvent : GenerateReport.Event :=
  GenerateReport.mkEvent "POST"
    (Ok (VObj [("sessionId", VStr sessionId); ("paymentIntentId", VStr "pi_paid")]))
    (VStr "https") (VStr "listinglens.app").

Definition completeJob : list (string * Value) :=
  [("status", VStr "complete"); ("reportId", VStr "LL-4FZYO");
   ("html", VStr "<!DOCTYPE html><html>ok</html>");
   ("completedAt", VStr "2026-01-01T00:00:30.000Z")].

Definition jobStore : Store :=
  mkStore {["job/123e4567e89b42d3" := mkEntry (Json (VObj completeJob)) (VObj [])]} ∅ [].

End Sample.

(** A second set of sample data: a paying customer, an unreachable job key,
    and a session staged in Redis. Instants of the Redis clock are seconds. *)
Module Scenario.

Definition world : World :=
  mkWorld (Sample.sessionStore "2026-01-01T00:00:30.000Z") Sample.provider [].

(** A dispatcher whose clock reads 00:00:30 when it writes the queued
    record, ahead of the clock that the worker of [Sample] reads. *)
Definition aheadEnv : GenerateReport.Env :=
  GenerateReport.mkEnv Sample.rt Sample.uuid 1767225600000 1767225630000.

(** No session in the store. *)
Definition emptyWorld : World := mkWorld (mkStore ∅ ∅ []) Sample.provider [].

(** The job key of [Sample.jobId] cannot be reached. *)
Definition brokenWorld : World :=
  mkWorld (mkStore (blobs (Sample.sessionStore "2026-01-01T00:00:30.000Z"))
                   {["job/123e4567e89b42d3"]} [])
          Sample.provider [].

(** The worker environment of [Sample], with payment required. *)
Definition paidEnv : Env :=
  mkEnv VUndefined (readPrompt Sample.workerEnv) (messages_create Sample.workerEnv)
        "0.4fzyo82mvyr" "1 Jan 2026" Sample.rt 1767225601000 1767225630000.

Definition uploadEnv : UploadScreenshots.Env :=
  UploadScreenshots.mkEnv Sample.uuid 1000 "2026-01-01T00:00:00.000Z".

Definition files : list UploadScreenshots.File :=
  [UploadScreenshots.mkFile "image/png" "iVBORw0KGgo=";
   UploadScreenshots.mkFile "" "/9j/4AAQSkZJRg=="].

Definition uploadEvent : UploadScreenshots.Event :=
  UploadScreenshots.mkEvent "POST" (VStr "203.0.113.7, 10.0.0.1")
    (Ok (VObj [("category", VStr "vehicle")], files)).

Definition emptyRedis : Redis := mkRedis ∅ true [].

Definition sessionDocument : Value :=
  VObj [("category", VStr "vehicle"); ("screenshotCount", VNum 2);
        ("createdAt", VStr "2026-01-01T00:00:00.000Z")].

(** A session whose screenshots are gone. *)
Definition sessionOnly : Redis :=
  mkRedis {["session:123e4567e89b42d3" := mkRedisEntry (RDoc sessionDocument) (Some 1900)]}
          true [].

(** A session with its first screenshot, and the counter of another client. *)
Definition staged : Redis :=
  mkRedis {["session:123e4567e89b42d3" := mkRedisEntry (RDoc sessionDocument) (Some 1900);
            "screenshot:123e4567e89b42d3:0" :=
              mkRedisEntry (RDoc (VObj [("mimeType", VStr "image/png");
                                        ("base64", VStr "iVBORw0KGgo=")]))
                           (Some 1900);
            "ratelimit:198.51.100.2" := mkRedisEntry (RInt 7) (Some 4000)]}
          true [].

Definition syncEnv (beta : Value) : GenerateReportSync.Env :=
  GenerateReportSync.mkEnv beta
    (λ f, if String.eqb f "combined-aus-vehicle-v3.1.md"
          then Some "You are a used-car analyst." else None)
    (λ _ _ _, Ok [GenerateReportSync.mkBlock "text" Sample.generated])
    "0.4fzyo82mvyr" "1 Jan 2026" 1100 1100 1200.

Definition syncEvent (paymentIntentId : Value) : GenerateReportSync.Event :=
  GenerateReportSync.mkEvent "POST"
    (Ok (VObj [("sessionId", VStr "123e4567e89b42d3");
               ("paymentIntentId", paymentIntentId)])).

End Scenario.

(** * Properties *)

(** ** Values and keys *)

Lemma truthy_VStr (s : string) : s ≠ "" → truthy (VStr s) = true.
Proof.
  intros Hs. simpl. destruct (String.eqb_spec s ""); [contradiction | reflexivity].
Qed.

Lemma eqb_false_of_ne (a b : string) : a ≠ b → String.eqb a b = false.
Proof. intros H. destruct (String.eqb_spec a b); [contradiction | reflexivity]. Qed.

Lemma store_get_json_absent (st : Store) (key : string) :
  blobs st !! blobName key = None →
  store_get_json st key = Ok VNull ∨ ∃ msg, store_get_json st key = Throw msg.
Proof.
  intros Hnone. unfold store_get_json.
  destruct (decide (key ∈ faulty st)); [right; eauto |].
  rewrite Hnone. by left.
Qed.

Lemma store_get_json_present (st : Store) (key : string) (doc md : Value) :
  key ∉ faulty st →
  blobs st !! blobName key = Some (mkEntry (Json doc) md) →
  store_get_json st key = Ok doc.
Proof.
  intros Hok Hsome. unfold store_get_json.
  destruct (decide (key ∈ faulty st)); [contradiction |].
  by rewrite Hsome.
Qed.

Lemma store_delete_ok (st : Store) (key : string) :
  key ∉ faulty st →
  store_delete st key =
    (Ok tt, mkStore (delete (blobName key) (blobs st)) (faulty st) (log st ++ [OpDelete key])).
Proof.
  intros Hok. unfold store_delete.
  destruct (decide (key ∈ faulty st)); [contradiction | reflexivity].
Qed.

Lemma store_setJSON_ok (st : Store) (key : string) (doc : Value) :
  key ∉ faulty st →
  store_setJSON st key doc =
    (Ok tt, mkStore (<[blobName key := mkEntry (Json doc) (VObj [])]> (blobs st)) (faulty st)
                    (log st ++ [OpSet key doc])).
Proof.
  intros Hok. unfold store_setJSON.
  destruct (decide (key ∈ faulty st)); [contradiction | reflexivity].
Qed.

(** ** The status endpoint *)

(** A poll (any method but the preflight OPTIONS) that names a job whose key
    denotes no blob is answered 200 with the body [{status: 'processing'}],
    and the store is left as it was; this is so whether the read finds
    nothing or fails. *)
Lemma status_of_missing_job (method jobId : string) (st : Store) :
  method ≠ "OPTIONS" →
  jobId ≠ "" →
  blobs st !! blobName ("job/" +:+ jobId) = None →
  ReportStatus.handler (ReportStatus.mkEvent method (VStr jobId)) st
  = (mkResponse 200 (Some processing_body), st).
Proof.
  intros Hm Hj Hnone. unfold ReportStatus.handler. cbn [ReportStatus.httpMethod ReportStatus.jobId].
  rewrite (eqb_false_of_ne _ _ Hm), (truthy_VStr _ Hj). cbn [negb toString].
  destruct (store_get_json_absent st _ Hnone) as [-> | [msg ->]]; reflexivity.
Qed.

(** ** Strings *)

Lemma length_append (s1 s2 : string) :
  String.length (s1 +:+ s2) = (String.length s1 + String.length s2)%nat.
Proof. induction s1 as [| c s1 IH]; simpl; [reflexivity | by rewrite IH]. Qed.

Lemma forallb_get (p : ascii → bool) (s : string) (n : nat) (c : ascii) :
  JSString.forallb p s = true → String.get n s = Some c → p c = true.
Proof.
  revert n. induction s as [| d s IH]; intros n Hall Hget; simpl in *; [discriminate |].
  apply andb_true_iff in Hall as [Hd Hs].
  destruct n as [| n]; [by inversion Hget; subst | eauto].
Qed.

Lemma get_append_right (s1 s2 : string) (n : nat) :
  String.get (String.length s1 + n) (s1 +:+ s2) = String.get n s2.
Proof. rewrite Nat.add_comm. symmetry. apply String.append_correct2. Qed.

(** A character that is no hexadecimal digit cannot sit at position four or
    later of the key of a minted job. *)
Lemma job_key_tail_is_hex (j : string) (n : nat) (c : ascii) :
  is_minted_id j →
  String.get (4 + n) ("job/" +:+ j) = Some c →
  JSString.is_lower_hex c = true.
Proof.
  intros [_ Hhex] Hget.
  change (4 + n)%nat with (String.length "job/" + n)%nat in Hget.
  rewrite get_append_right in Hget. eauto using forallb_get.
Qed.

Lemma job_key_not_meta_key (j x : string) :
  is_minted_id j → "job/" +:+ j ≠ x +:+ "/meta".
Proof.
  intros Hj Heq.
  assert (Hlen : String.length x = 15%nat).
  { apply (f_equal String.length) in Heq. rewrite !length_append in Heq.
    destruct Hj as [Hl _]. rewrite Hl in Heq. simpl in Heq. lia. }
  assert (Hget : String.get (4 + 12) ("job/" +:+ j) = Some "m"%char).
  { rewrite Heq. change (4 + 12)%nat with (15 + 1)%nat. rewrite <- Hlen.
    by rewrite get_append_right. }
  apply (job_key_tail_is_hex _ _ _ Hj) in Hget. discriminate.
Qed.

Lemma job_key_not_screenshot_key (j x y : string) :
  is_minted_id j → "job/" +:+ j ≠ x +:+ "/screenshot-" +:+ y.
Proof.
  intros Hj Heq.
  assert (Hget : String.get (4 + (String.length x + 7)) ("job/" +:+ j) = Some "-"%char).
  { rewrite Heq.
    replace (4 + (String.length x + 7))%nat with (String.length x + 11)%nat by lia.
    by rewrite get_append_right. }
  apply (job_key_tail_is_hex _ _ _ Hj) in Hget. discriminate.
Qed.

(** ** Keys and the names of blobs *)

Lemma append_assoc_string (a b c : string) : (a +:+ b) +:+ c = a +:+ b +:+ c.
Proof.
  induction a as [| x a IH]; [reflexivity |].
  change (String x ((a +:+ b) +:+ c) = String x (a +:+ b +:+ c)). by rewrite IH.
Qed.

Lemma plain_char (c : ascii) :
  negb (BlobKey.is_c0_or_space c) && negb (BlobKey.is_separator c)
  && negb (BlobKey.ends_path c) = true →
  BlobKey.is_c0_or_space c = false
  ∧ BlobKey.is_removed c = false
  ∧ BlobKey.is_separator c = false
  ∧ BlobKey.ends_path c = false.
Proof.
  destruct c as [[] [] [] [] [] [] [] []]; intros H; try discriminate H; by repeat split.
Qed.

Lemma removed_char_in_path (c : ascii) :
  BlobKey.is_removed c = true → BlobKey.ends_path c = false.
Proof. destruct c as [[] [] [] [] [] [] [] []]; intros H; try discriminate H; reflexivity. Qed.

Lemma is_plain_cons (c : ascii) (s : string) :
  is_plain (String c s) = true →
  (BlobKey.is_c0_or_space c = false
   ∧ BlobKey.is_removed c = false
   ∧ BlobKey.is_separator c = false
   ∧ BlobKey.ends_path c = false)
  ∧ is_plain s = true.
Proof.
  unfold is_plain. cbn [JSString.forallb]. intros [Hc Hs]%andb_true_iff.
  split; [by apply plain_char | exact Hs].
Qed.

Lemma trim_end_plain (s : string) : is_plain s = true → BlobKey.trim_end s = s.
Proof.
  induction s as [| c s IH]; [reflexivity |].
  intros [(Hc & _) Hs]%is_plain_cons. cbn [BlobKey.trim_end].
  rewrite (IH Hs), Hc. by destruct s.
Qed.

(** What is written before a text that the parser does not trim is not
    trimmed either. *)
Lemma trim_end_app (x r : string) :
  r ≠ "" → BlobKey.trim_end r = r → BlobKey.trim_end (x +:+ r) = x +:+ r.
Proof.
  intros Hne Hr. induction x as [| c x IH]; [exact Hr |].
  change (String c x +:+ r) with (String c (x +:+ r)). cbn [BlobKey.trim_end].
  rewrite IH. destruct (x +:+ r) eqn:Hxr; [| reflexivity].
  destruct x; [by subst | discriminate].
Qed.

Lemma trim_end_slash (seg : string) :
  BlobKey.trim_end seg = seg → BlobKey.trim_end (String "/" seg) = String "/" seg.
Proof. intros Hseg. cbn [BlobKey.trim_end]. rewrite Hseg. by destruct seg. Qed.

Lemma strip_app (a b : string) :
  BlobKey.strip (a +:+ b) = BlobKey.strip a +:+ BlobKey.strip b.
Proof.
  induction a as [| c a IH]; [reflexivity |].
  change (String c a +:+ b) with (String c (a +:+ b)). cbn [BlobKey.strip].
  destruct (BlobKey.is_removed c); [exact IH |].
  rewrite IH. reflexivity.
Qed.

Lemma strip_plain (s : string) : is_plain s = true → BlobKey.strip s = s.
Proof.
  induction s as [| c s IH]; [reflexivity |].
  intros [(_ & Hc & _) Hs]%is_plain_cons. cbn [BlobKey.strip]. by rewrite Hc, (IH Hs).
Qed.

Lemma is_path_strip (s : string) : is_path (BlobKey.strip s) = is_path s.
Proof.
  induction s as [| c s IH]; [reflexivity |]. unfold is_path in *.
  cbn [BlobKey.strip JSString.forallb].
  destruct (BlobKey.is_removed c) eqn:Hc.
  - by rewrite (removed_char_in_path c Hc), IH.
  - cbn [JSString.forallb]. by rewrite IH.
Qed.

Lemma is_plain_path (s : string) : is_plain s = true → is_path s = true.
Proof.
  induction s as [| c s IH]; [reflexivity |].
  intros [(_ & _ & _ & Hc) Hs]%is_plain_cons. unfold is_path in *.
  cbn [JSString.forallb]. by rewrite Hc, (IH Hs).
Qed.

Lemma path_part_app (a b : string) :
  is_path a = true → BlobKey.path_part (a +:+ b) = a +:+ BlobKey.path_part b.
Proof.
  induction a as [| c a IH]; [reflexivity |]. unfold is_path in *.
  cbn [JSString.forallb]. intros [Hc Ha]%andb_true_iff. apply negb_true_iff in Hc.
  change (String c a +:+ b) with (String c (a +:+ b)). cbn [BlobKey.path_part].
  rewrite Hc, (IH Ha). reflexivity.
Qed.

(** What follows the first [?] or [#] is no part of the path. *)
Lemma path_part_cut (a b : string) :
  is_path a = false → BlobKey.path_part (a +:+ b) = BlobKey.path_part a.
Proof.
  induction a as [| c a IH]; [discriminate |]. unfold is_path in *.
  cbn [JSString.forallb].
  change (String c a +:+ b) with (String c (a +:+ b)). cbn [BlobKey.path_part].
  destruct (BlobKey.ends_path c); [reflexivity |]. cbn [negb andb].
  intros Ha. by rewrite (IH Ha).
Qed.

Lemma path_part_path (s : string) : is_path s = true → BlobKey.path_part s = s.
Proof.
  induction s as [| c s IH]; [reflexivity |]. unfold is_path in *.
  cbn [JSString.forallb BlobKey.path_part]. intros [Hc Hs]%andb_true_iff.
  apply negb_true_iff in Hc. by rewrite Hc, (IH Hs).
Qed.

Lemma split_nonempty (s : string) : BlobKey.split s ≠ [].
Proof.
  destruct s as [| c s]; [discriminate |]. cbn.
  destruct (BlobKey.is_separator c); [discriminate |].
  by destruct (BlobKey.split s).
Qed.

Lemma split_plain (s : string) : is_plain s = true → BlobKey.split s = [s].
Proof.
  induction s as [| c s IH]; [reflexivity |].
  intros [(_ & _ & Hc & _) Hs]%is_plain_cons. cbn [BlobKey.split].
  by rewrite Hc, (IH Hs).
Qed.

(** A slash ends the segment before it. *)
Lemma split_slash (a b : string) :
  BlobKey.split (a +:+ String "/" b) = BlobKey.split a ++ BlobKey.split b.
Proof.
  induction a as [| c a IH]; [reflexivity |].
  change (String c a +:+ String "/" b) with (String c (a +:+ String "/" b)).
  cbn [BlobKey.split].
  destruct (BlobKey.is_separator c); [by rewrite IH |].
  rewrite IH. pose proof (split_nonempty a) as Hne.
  by destruct (BlobKey.split a).
Qed.

Lemma resolve_snoc (segs : list string) (seg : string) :
  is_regular seg = true →
  ∃ path, BlobKey.resolve (segs ++ [seg]) = path ++ [seg].
Proof.
  intros [Hdd Hsd]%andb_true_iff. apply negb_true_iff in Hdd, Hsd.
  unfold BlobKey.resolve, BlobKey.finish.
  rewrite removelast_last, last_last, Hdd, Hsd. cbn [rev]. eauto.
Qed.

Lemma common_le (root path : list string) :
  (BlobKey.common root path ≤ length path)%nat.
Proof.
  revert root. induction path as [| q path IH]; intros [| r root]; cbn; try lia.
  destruct (String.eqb r q); [| lia]. specialize (IH root). lia.
Qed.

Lemma concat_snoc (sep : string) (l : list string) (s : string) :
  String.concat sep (l ++ [s])
  = match l with
    | [] => s
    | _ => String.concat sep l +:+ sep +:+ s
    end.
Proof.
  induction l as [| a l IH]; [reflexivity |].
  destruct l as [| b l]; [reflexivity |].
  change (String.concat sep ((a :: b :: l) ++ [s]))
    with (a +:+ sep +:+ String.concat sep ((b :: l) ++ [s])).
  rewrite IH.
  change (String.concat sep (a :: b :: l)) with (a +:+ sep +:+ String.concat sep (b :: l)).
  by rewrite !append_assoc_string.
Qed.

Lemma climb_ends_with_slash (n : nat) :
  ∃ w, String.concat "" (repeat "../" (S n)) = w +:+ "/".
Proof.
  induction n as [| n [w IH]]; [by exists ".." |].
  exists ("../" +:+ w). cbn [repeat] in *.
  change (String.concat "" ("../" :: "../" :: repeat "../" n))
    with ("../" +:+ "" +:+ String.concat "" ("../" :: repeat "../" n)).
  by rewrite IH.
Qed.

(** The name of a path ends with the last segment of the path. *)
Lemma relative_snoc (path : list string) (seg : string) :
  BlobKey.relative (path ++ [seg]) = seg
  ∨ ∃ w, BlobKey.relative (path ++ [seg]) = w +:+ "/" +:+ seg.
Proof.
  unfold BlobKey.relative. rewrite removelast_last.
  pose proof (common_le BlobKey.ROOT path) as Hle.
  set (k := BlobKey.common BlobKey.ROOT path) in *.
  rewrite drop_app_le by exact Hle. rewrite concat_snoc.
  destruct (drop k path) as [| a rest] eqn:Hrest.
  - destruct (length BlobKey.ROOT - k)%nat as [| n]; [by left |].
    destruct (climb_ends_with_slash n) as [w ->]. right. exists w.
    by rewrite append_assoc_string.
  - right. eexists. by rewrite <- append_assoc_string.
Qed.

(** A key that ends with a slash and a plain, regular segment, with neither
    [?] nor [#] before them, names a blob of that last segment, wherever the
    text before the slash leads. *)
Lemma blobName_last_segment (x seg : string) :
  is_path x = true →
  is_plain seg = true →
  is_regular seg = true →
  blobName (x +:+ String "/" seg) = seg
  ∨ ∃ w, blobName (x +:+ String "/" seg) = w +:+ "/" +:+ seg.
Proof.
  intros Hpath Hplain Hregular. unfold BlobKey.blobName, BlobKey.pathName.
  rewrite trim_end_app; [| discriminate | by apply trim_end_slash, trim_end_plain].
  rewrite strip_app.
  change (BlobKey.strip (String "/" seg)) with (String "/" (BlobKey.strip seg)).
  rewrite (strip_plain seg Hplain).
  rewrite path_part_app by (by rewrite is_path_strip).
  change (BlobKey.path_part (String "/" seg)) with (String "/" (BlobKey.path_part seg)).
  rewrite (path_part_path seg (is_plain_path seg Hplain)).
  rewrite split_slash, (split_plain seg Hplain).
  destruct (resolve_snoc (BlobKey.split (BlobKey.strip x)) seg Hregular) as [path ->].
  by apply relative_snoc.
Qed.

(** Where the text before the last segment holds a [?] or a [#], the key
    names the blob of the path before it, whatever the last segment. *)
Lemma blobName_cut (x rest : string) :
  is_path x = false →
  rest ≠ "" →
  BlobKey.trim_end rest = rest →
  blobName (x +:+ rest) = BlobKey.pathName (BlobKey.path_part (BlobKey.strip x)).
Proof.
  intros Hcut Hne Hrest. unfold BlobKey.blobName.
  rewrite (trim_end_app x rest Hne Hrest), strip_app.
  by rewrite path_part_cut by (by rewrite is_path_strip).
Qed.

Lemma hex_is_plain (c : ascii) :
  JSString.is_lower_hex c = true →
  negb (BlobKey.is_c0_or_space c) && negb (BlobKey.is_separator c)
  && negb (BlobKey.ends_path c) = true.
Proof.
  intros H. destruct c as [[] [] [] [] [] [] [] []]; try discriminate; reflexivity.
Qed.

Lemma hex_string_is_plain (s : string) :
  JSString.forallb JSString.is_lower_hex s = true → is_plain s = true.
Proof.
  induction s as [| c s IH]; [reflexivity |]. unfold is_plain in *.
  cbn [JSString.forallb]. intros [Hc Hs]%andb_true_iff.
  by rewrite (hex_is_plain c Hc), IH.
Qed.

Lemma hex_string_is_regular (s : string) :
  JSString.forallb JSString.is_lower_hex s = true → is_regular s = true.
Proof.
  destruct s as [| c s]; [reflexivity |]. cbn [JSString.forallb].
  intros [Hc _]%andb_true_iff.
  assert (Hdot : Ascii.eqb c "." = false)
    by (destruct (Ascii.eqb_spec c ".") as [-> |]; [discriminate | reflexivity]).
  assert (Hpct : Ascii.eqb c "%" = false)
    by (destruct (Ascii.eqb_spec c "%") as [-> |]; [discriminate | reflexivity]).
  unfold is_regular, BlobKey.double_dot, BlobKey.single_dot.
  cbn [existsb String.eqb]. rewrite Hdot, Hpct. reflexivity.
Qed.

Lemma minted_id_is_path (j : string) : is_minted_id j → is_path j = true.
Proof. intros [_ Hhex]. by apply is_plain_path, hex_string_is_plain. Qed.

(** The key of a minted job is the name of its blob. *)
Lemma blobName_job (j : string) :
  is_minted_id j → blobName ("job/" +:+ j) = "job/" +:+ j.
Proof.
  intros [_ Hhex].
  pose proof (hex_string_is_plain j Hhex) as Hplain.
  pose proof (hex_string_is_regular j Hhex) as [Hdd Hsd]%andb_true_iff.
  apply negb_true_iff in Hdd, Hsd.
  unfold BlobKey.blobName, BlobKey.pathName.
  change ("job/" +:+ j) with ("job" +:+ String "/" j).
  rewrite trim_end_app; [| discriminate | by apply trim_end_slash, trim_end_plain].
  rewrite strip_app.
  change (BlobKey.strip "job") with "job".
  change (BlobKey.strip (String "/" j)) with (String "/" (BlobKey.strip j)).
  rewrite (strip_plain j Hplain).
  rewrite path_part_app by reflexivity.
  change (BlobKey.path_part (String "/" j)) with (String "/" (BlobKey.path_part j)).
  rewrite (path_part_path j (is_plain_path j Hplain)).
  rewrite split_slash, (split_plain j Hplain).
  change (BlobKey.split "job") with ["job"].
  unfold BlobKey.resolve, BlobKey.finish.
  change (List.removelast (["job"] ++ [j])) with ["job"].
  change (List.last (["job"] ++ [j]) "") with j.
  rewrite Hdd, Hsd. reflexivity.
Qed.

Lemma pretty_N_go_digits (x : N) :
  ∀ s, JSString.forallb JSString.is_digit s = true →
       JSString.forallb JSString.is_digit (pretty_N_go x s) = true.
Proof.
  induction (N.lt_wf_0 x) as [x _ IH]; intros s Hs.
  destruct (decide (x = 0)%N) as [-> | Hx]; [by rewrite pretty_N_go_0 |].
  rewrite pretty_N_go_step by lia.
  apply IH; [apply N.div_lt; lia |].
  cbn [JSString.forallb]. rewrite Hs, andb_true_r.
  unfold pretty_N_char. by repeat case_match.
Qed.

Lemma pretty_nat_digits (n : nat) :
  JSString.forallb JSString.is_digit (pretty n) = true.
Proof.
  unfold pretty, pretty_nat, pretty, pretty_N.
  case_decide; [reflexivity |]. by apply pretty_N_go_digits.
Qed.

Lemma digit_is_plain (c : ascii) :
  JSString.is_digit c = true →
  negb (BlobKey.is_c0_or_space c) && negb (BlobKey.is_separator c)
  && negb (BlobKey.ends_path c) = true.
Proof.
  intros H. destruct c as [[] [] [] [] [] [] [] []]; try discriminate; reflexivity.
Qed.

Lemma digits_are_plain (s : string) :
  JSString.forallb JSString.is_digit s = true → is_plain s = true.
Proof.
  induction s as [| c s IH]; [reflexivity |]. unfold is_plain in *.
  cbn [JSString.forallb]. intros [Hc Hs]%andb_true_iff.
  by rewrite (digit_is_plain c Hc), IH.
Qed.

Lemma screenshot_segment_is_plain (i : nat) : is_plain ("screenshot-" +:+ pretty i) = true.
Proof.
  change (is_plain ("screenshot-" +:+ pretty i)) with (is_plain (pretty i)).
  apply digits_are_plain, pretty_nat_digits.
Qed.

(** With neither [?] nor [#] in the session identifier, no key of the
    session names the blob of a minted job. *)
Lemma meta_name_not_job (j x : string) :
  is_minted_id j → is_path x = true → blobName (x +:+ "/meta") ≠ "job/" +:+ j.
Proof.
  intros Hj Hx Heq.
  destruct (blobName_last_segment x "meta" Hx) as [Hname | [w Hname]];
    [reflexivity | reflexivity | |].
  - change (x +:+ String "/" "meta") with (x +:+ "/meta") in Hname.
    rewrite Hname in Heq. discriminate.
  - change (x +:+ String "/" "meta") with (x +:+ "/meta") in Hname.
    rewrite Hname in Heq. by apply (job_key_not_meta_key j w).
Qed.

Lemma screenshot_name_not_job (j x : string) (i : nat) :
  is_minted_id j → is_path x = true →
  blobName (x +:+ "/screenshot-" +:+ pretty i) ≠ "job/" +:+ j.
Proof.
  intros Hj Hx Heq.
  destruct (blobName_last_segment x ("screenshot-" +:+ pretty i) Hx) as [Hname | [w Hname]].
  - apply screenshot_segment_is_plain.
  - reflexivity.
  - change (x +:+ String "/" ("screenshot-" +:+ pretty i))
      with (x +:+ "/screenshot-" +:+ pretty i) in Hname.
    rewrite Hname in Heq. discriminate.
  - change (x +:+ String "/" ("screenshot-" +:+ pretty i))
      with (x +:+ "/screenshot-" +:+ pretty i) in Hname.
    rewrite Hname in Heq.
    change (w +:+ "/" +:+ "screenshot-" +:+ pretty i)
      with (w +:+ "/screenshot-" +:+ pretty i) in Heq.
    by apply (job_key_not_screenshot_key j w (pretty i)).
Qed.

(** A session whose screenshot key names the blob of a minted job has a
    [?] or a [#] in its identifier, and then its metadata key names that
    blob as well. *)
Lemma session_keys_alias (j x : string) (i : nat) :
  is_minted_id j →
  blobName (x +:+ "/screenshot-" +:+ pretty i) = "job/" +:+ j →
  blobName (x +:+ "/meta") = "job/" +:+ j.
Proof.
  intros Hj Heq. destruct (is_path x) eqn:Hx.
  - by apply screenshot_name_not_job in Heq.
  - rewrite <- Heq.
    change (x +:+ "/screenshot-" +:+ pretty i)
      with (x +:+ String "/" ("screenshot-" +:+ pretty i)).
    rewrite (blobName_cut x "/meta" Hx), (blobName_cut x _ Hx);
      [reflexivity | discriminate | | discriminate | reflexivity].
    apply trim_end_slash, trim_end_plain, screenshot_segment_is_plain.
Qed.

(** ** The status endpoint and the keys *)

(** C2. A poll (any method but the preflight OPTIONS) that names a job whose
    key denotes no blob is answered 200 with [{status: 'processing'}] and
    leaves the store as it was; so it is for every minted job identifier
    without a job record. The endpoint does not keep to the job records,
    though. The sample store holds a session and no job record at all. A poll
    with the job identifier [../feedfacefeedface/meta], which no dispatcher
    has minted, reads the key [job/../feedfacefeedface/meta]; that key names
    the blob [feedfacefeedface/meta], and the poll is answered 200 with the
    metadata of the session, which has no [status], where
    [{status: 'processing'}] was to be returned. *)
Theorem status_of_a_crafted_job_identifier :
  (∀ (method jobId : string) (st : Store),
     method ≠ "OPTIONS" → jobId ≠ "" →
     blobs st !! blobName ("job/" +:+ jobId) = None →
     ReportStatus.handler (ReportStatus.mkEvent method (VStr jobId)) st
     = (mkResponse 200 (Some processing_body), st))
  ∧ (∀ (method jobId : string) (st : Store),
       method ≠ "OPTIONS" → is_minted_id jobId →
       blobs st !! ("job/" +:+ jobId) = None →
       ReportStatus.handler (ReportStatus.mkEvent method (VStr jobId)) st
       = (mkResponse 200 (Some processing_body), st))
  ∧ let st := Sample.sessionStore "2026-01-01T00:00:30.000Z" in
    let jobId := "../feedfacefeedface/meta" in
    (∀ name, is_Some (blobs st !! name) → String.prefix "job/" name = false)
    ∧ blobName ("job/" +:+ jobId) = "feedfacefeedface/meta"
    ∧ ReportStatus.handler (ReportStatus.mkEvent "GET" (VStr jobId)) st
      = (mkResponse 200 (Some (Sample.meta "2026-01-01T00:00:30.000Z")), st)
    ∧ field (Sample.meta "2026-01-01T00:00:30.000Z") "status" = VUndefined
    ∧ Sample.meta "2026-01-01T00:00:30.000Z" ≠ processing_body.
Proof.
  split; [exact status_of_missing_job |]. split.
  { intros method jobId st Hm Hminted Hnone. apply status_of_missing_job; [exact Hm | |].
    - intros ->. destruct Hminted as [Hlen _]. discriminate.
    - by rewrite (blobName_job jobId Hminted). }
  cbv zeta. split; [| split; [reflexivity | split; [reflexivity | split; [reflexivity | discriminate]]]].
  intros name Hsome. unfold Sample.sessionStore in Hsome. cbn [blobs] in Hsome.
  apply lookup_insert_is_Some in Hsome as [<- | [_ Hsome]]; [reflexivity |].
  destruct Hsome as [e He]. apply lookup_singleton_Some in He as [<- _]. reflexivity.
Qed.

(** ** What the worker writes and deletes *)

Lemma log_grows_refl (P : StoreOp → Prop) (st : Store) : log_grows_by P st st.
Proof. exists []. by rewrite app_nil_r. Qed.

Lemma log_grows_trans (P : StoreOp → Prop) (st1 st2 st3 : Store) :
  log_grows_by P st1 st2 → log_grows_by P st2 st3 → log_grows_by P st1 st3.
Proof.
  intros (ops1 & H1 & F1) (ops2 & H2 & F2). exists (ops1 ++ ops2). split.
  - by rewrite H2, H1, app_assoc.
  - by apply Forall_app.
Qed.

Lemma log_grows_setJSON (P : StoreOp → Prop) (st : Store) (key : string) (doc : Value) :
  P (OpSet key doc) → log_grows_by P st (snd (store_setJSON st key doc)).
Proof.
  intros HP. unfold store_setJSON. case_decide; simpl.
  - apply log_grows_refl.
  - exists [OpSet key doc]. split; [reflexivity | by constructor].
Qed.

Lemma log_grows_delete (P : StoreOp → Prop) (st : Store) (key : string) :
  P (OpDelete key) → log_grows_by P st (snd (store_delete st key)).
Proof.
  intros HP. unfold store_delete. case_decide; simpl.
  - apply log_grows_refl.
  - exists [OpDelete key]. split; [reflexivity | by constructor].
Qed.

Lemma log_grows_setJobStatus (jobId sessionId : Value) (st : Store) (data : Value) :
  log_grows_by (worker_op jobId sessionId) st (setJobStatus st jobId data).
Proof. apply log_grows_setJSON. reflexivity. Qed.

Lemma log_grows_deletes (P : StoreOp → Prop) (keys : list string) (st : Store) :
  Forall (λ key, P (OpDelete key)) keys →
  log_grows_by P st (foldl (λ acc key, snd (store_delete acc key)) st keys).
Proof.
  revert st. induction keys as [| key keys IH]; intros st Hall; simpl.
  - apply log_grows_refl.
  - inversion Hall; subst.
    eapply log_grows_trans; [by apply log_grows_delete | by apply IH].
Qed.

Lemma log_grows_cleanup (jobId sessionId count : Value) (st : Store) :
  log_grows_by (worker_op jobId sessionId) st (cleanup st sessionId count).
Proof.
  apply log_grows_deletes. apply Forall_app. split.
  - apply Forall_forall. intros key Hin. apply list_elem_of_fmap in Hin as (i & -> & _).
    right. by exists i.
  - repeat constructor.
Qed.

(** Peels the writes and deletes off a store expression, outermost first. *)
Ltac footprint :=
  first
    [ apply log_grows_refl
    | apply log_grows_setJobStatus
    | apply log_grows_cleanup
    | eapply log_grows_trans;
      [| first [ apply log_grows_setJobStatus | apply log_grows_cleanup ] ];
      footprint ].

(** Every store operation of a worker run is a write of the job record named
    in the request or a delete of a key of the session named in it. *)
Lemma worker_store_footprint (env : Env) (body : Value) (w : World) :
  log_grows_by (worker_op (field body "jobId") (field body "sessionId"))
               (store w)
               (store (snd (handler env (mkEvent (Ok body)) w))).
Proof.
  unfold handler. cbn [parsed_body].
  destruct (prop body "jobId") as [jobId |] eqn:Hprop; [| apply log_grows_refl].
  assert (jobId = field body "jobId") as ->.
  { destruct body; simpl in Hprop; try discriminate; by inversion Hprop. }
  set (P := worker_op _ _).
  destruct (verifyPayment _ _ _) as [payment sp1].
  repeat (case_match; cbn [snd store]); footprint.
Qed.

Lemma status_of_existing_job
      (method jobId : string) (st : Store) (fields : list (string * Value)) (md : Value) :
  method ≠ "OPTIONS" →
  jobId ≠ "" →
  "job/" +:+ jobId ∉ faulty st →
  blobs st !! blobName ("job/" +:+ jobId) = Some (mkEntry (Json (VObj fields)) md) →
  ReportStatus.handler (ReportStatus.mkEvent method (VStr jobId)) st
  = (mkResponse 200 (Some (VObj fields)),
     if strict_eq_str (lookup_field "status" fields) "complete"
        || strict_eq_str (lookup_field "status" fields) "error"
     then mkStore (delete (blobName ("job/" +:+ jobId)) (blobs st)) (faulty st)
                  (log st ++ [OpDelete ("job/" +:+ jobId)])
     else st).
Proof.
  intros Hm Hj Hok Hsome. unfold ReportStatus.handler.
  cbn [ReportStatus.httpMethod ReportStatus.jobId].
  rewrite (eqb_false_of_ne _ _ Hm), (truthy_VStr _ Hj). cbn [negb toString].
  rewrite (store_get_json_present _ _ _ _ Hok Hsome). cbn [truthy negb field].
  rewrite (store_delete_ok _ _ Hok). reflexivity.
Qed.

(** C3. A poll of a job whose record exists (the blob that the job key
    names) returns that record. When the record's status is 'complete' or
    'error' the poll deletes the job key, and with it that blob; when it is
    'queued' or 'processing' the store is left as it was. A worker run writes
    nothing but its job record and deletes nothing but the screenshots and the
    metadata of its session; for a job identifier minted by the dispatcher
    none of those deletes is of the job key, and, when the session
    identifier of the request holds neither [?] nor [#], none of the keys
    deleted names the job record. *)
Theorem terminal_records_are_deleted_by_the_status_endpoint
        (method jobId : string) (st : Store) (fields : list (string * Value)) (md : Value)
        (env : Env) (body : Value) (w : World) :
  method ≠ "OPTIONS" →
  jobId ≠ "" →
  "job/" +:+ jobId ∉ faulty st →
  blobs st !! blobName ("job/" +:+ jobId) = Some (mkEntry (Json (VObj fields)) md) →
  field body "jobId" = VStr jobId →
  let polled := ReportStatus.handler (ReportStatus.mkEvent method (VStr jobId)) st in
  let status := lookup_field "status" fields in
  fst polled = mkResponse 200 (Some (VObj fields))
  ∧ (status = VStr "complete" ∨ status = VStr "error" →
     blobs (snd polled) = delete (blobName ("job/" +:+ jobId)) (blobs st)
     ∧ blobs (snd polled) !! blobName ("job/" +:+ jobId) = None
     ∧ log (snd polled) = log st ++ [OpDelete ("job/" +:+ jobId)])
  ∧ (status = VStr "queued" ∨ status = VStr "processing" → snd polled = st)
  ∧ ∃ ops,
      log (store (snd (handler env (mkEvent (Ok body)) w))) = log (store w) ++ ops
      ∧ Forall (worker_op (VStr jobId) (field body "sessionId")) ops
      ∧ (is_minted_id jobId →
         (OpDelete ("job/" +:+ jobId) ∉ ops)
         ∧ (is_path (toString (field body "sessionId")) = true →
            ∀ key, OpDelete key ∈ ops → blobName key ≠ blobName ("job/" +:+ jobId))).
Proof.
  intros Hm Hj Hok Hsome Hbody polled status. subst polled.
  rewrite (status_of_existing_job _ _ _ _ _ Hm Hj Hok Hsome). fold status.
  split; [reflexivity |]. split; [| split].
  - intros [-> | ->]; simpl; rewrite lookup_delete_eq; done.
  - intros [-> | ->]; reflexivity.
  - destruct (worker_store_footprint env body w) as (ops & Hlog & Hops).
    rewrite Hbody in Hops. exists ops. split; [done |]. split; [done |].
    intros Hminted. rewrite Forall_forall in Hops. split.
    + intros Hin. destruct (Hops _ Hin) as [Hmeta | [i Hshot]].
      * by apply (job_key_not_meta_key jobId (toString (field body "sessionId"))).
      * by apply (job_key_not_screenshot_key jobId (toString (field body "sessionId"))
                                             (pretty i)).
    + intros Hpath key Hin. rewrite (blobName_job jobId Hminted).
      destruct (Hops _ Hin) as [-> | [i ->]].
      * by apply meta_name_not_job.
      * by apply screenshot_name_not_job.
Qed.

(** The identifiers have to be minted ones for the last point: with
    identifiers that no dispatcher mints, a screenshot key of the session and
    the key of the job can be one and the same. *)
Remark unminted_identifiers_can_share_a_key :
  jobKey (VStr "screenshot-0") = screenshotKey (VStr "job") 0.
Proof. reflexivity. Qed.

(** ** Retrieval of the screenshots *)





Lemma iterations_VNum (n : nat) : iterations (VNum (Z.of_nat n)) = n.
Proof. unfold iterations. simpl. apply Nat2Z.id. Qed.



Lemma setJobStatus_faulty (st : Store) (jobId data : Value) :
  faulty (setJobStatus st jobId data) = faulty st.
Proof. unfold setJobStatus, store_setJSON. by case_decide. Qed.

Lemma setJobStatus_lookup (st : Store) (jobId data : Value) :
  jobKey jobId ∉ faulty st →
  blobs (setJobStatus st jobId data) !! blobName (jobKey jobId)
  = Some (mkEntry (Json data) (VObj [])).
Proof.
  intros Hok. unfold setJobStatus. rewrite (store_setJSON_ok _ _ _ Hok). simpl.
  apply lookup_insert_eq.
Qed.


(** ** Payment verification *)

Lemma includes_num_spec (l : list Z) (n : Z) : includes_num l n = true ↔ n ∈ l.
Proof.
  unfold includes_num. rewrite existsb_exists. split.
  - intros (x & Hin & Heq). apply Z.eqb_eq in Heq. subst. by apply list_elem_of_In.
  - intros Hin. exists n. split; [by apply list_elem_of_In | apply Z.eqb_refl].
Qed.

Lemma intent_in_order_checks (intent : PaymentIntent) :
  intent_in_order intent →
  String.eqb (pi_status intent) "succeeded" = true
  ∧ includes_num [200; 500; 1000] (pi_amount intent) = true
  ∧ String.eqb (pi_currency intent) "aud" = true.
Proof.
  intros (Hs & Ha & Hc). rewrite Hs, Hc. repeat split; try reflexivity.
  by apply includes_num_spec.
Qed.

(** With the bypass off, a marked reference is refused and the provider is
    left as it was; the reason is 'Payment already used' as soon as the
    reference is non-empty and its status, amount and currency are in order. *)
Lemma verifyPayment_marked (beta id : Value) (sp : Stripe) (intent : PaymentIntent) :
  strict_eq_str beta "true" = false →
  retrieve sp id = Ok intent →
  report_generated intent = true →
  valid (fst (verifyPayment beta id sp)) = false
  ∧ snd (verifyPayment beta id sp) = sp
  ∧ (truthy id = true → intent_in_order intent →
     fst (verifyPayment beta id sp) = rejected "Payment already used").
Proof.
  intros Hbeta Hret Hmark. unfold verifyPayment. rewrite Hbeta.
  destruct (truthy id) eqn:Hid; cbn [negb].
  - rewrite Hret, Hmark. repeat split.
    + repeat case_match; reflexivity.
    + repeat case_match; reflexivity.
    + intros _ (Hs & Ha & Hc)%intent_in_order_checks. by rewrite Hs, Ha, Hc.
  - repeat split; [discriminate].
Qed.

Lemma retrieve_Ok (sp : Stripe) (id : Value) (intent : PaymentIntent) :
  retrieve sp id = Ok intent →
  ∃ s, id = VStr s ∧ api_error sp = None ∧ intents sp !! s = Some intent.
Proof.
  unfold retrieve. destruct (api_error sp); [discriminate |].
  destruct id; try discriminate.
  destruct (intents sp !! s) eqn:Hs; [| discriminate].
  intros [= ->]. eauto.
Qed.

(** With the bypass off, a reference is accepted only after the four checks,
    and acceptance leaves it marked, so that verifying it again is refused
    with 'Payment already used'. *)
Lemma verifyPayment_accepted (beta id : Value) (sp : Stripe) :
  strict_eq_str beta "true" = false →
  valid (fst (verifyPayment beta id sp)) = true →
  ∃ intent intent',
    retrieve sp id = Ok intent
    ∧ intent_in_order intent
    ∧ report_generated intent = false
    ∧ retrieve (snd (verifyPayment beta id sp)) id = Ok intent'
    ∧ report_generated intent' = true
    ∧ verifyPayment beta id (snd (verifyPayment beta id sp))
      = (rejected "Payment already used", snd (verifyPayment beta id sp)).
Proof.
  intros Hbeta. unfold verifyPayment at 1. rewrite Hbeta.
  destruct (truthy id) eqn:Hid; cbn [negb]; [| discriminate].
  destruct (retrieve sp id) as [intent |] eqn:Hret; [| discriminate].
  destruct (String.eqb_spec (pi_status intent) "succeeded") as [Hs |]; [| discriminate].
  destruct (includes_num _ (pi_amount intent)) eqn:Ha; [| discriminate].
  destruct (String.eqb_spec (pi_currency intent) "aud") as [Hc |]; [| discriminate].
  destruct (report_generated intent) eqn:Hmark; [discriminate |]. cbn [negb].
  destruct (retrieve_Ok _ _ _ Hret) as (s & -> & Hapi & Hs').
  cbn [toString]. unfold update_metadata. rewrite Hapi, Hs'.
  destruct (decide (s ∈ locked sp)); [discriminate |]. intros _.
  set (intent' := {| pi_status := pi_status intent; pi_amount := pi_amount intent;
                     pi_currency := pi_currency intent;
                     pi_metadata := Some (mark_generated intent ∪ default ∅ (pi_metadata intent)) |}).
  set (sp' := {| intents := <[s := intent']> (intents sp);
                 api_error := api_error sp; locked := locked sp |}).
  assert (Hmark' : report_generated intent' = true).
  { unfold report_generated, intent'. cbn [pi_metadata]. apply bool_decide_eq_true.
    apply lookup_union_Some_l. unfold mark_generated. apply lookup_insert_eq. }
  assert (Hret' : retrieve sp' (VStr s) = Ok intent').
  { unfold retrieve, sp'. cbn [api_error intents]. by rewrite Hapi, lookup_insert_eq. }
  assert (Hout : snd (verifyPayment beta (VStr s) sp) = sp').
  { unfold verifyPayment. rewrite Hbeta, Hid, Hret. cbn [negb].
    rewrite Hs, Ha, Hc, Hmark. cbn [negb String.eqb Ascii.eqb Bool.eqb toString].
    unfold update_metadata. rewrite Hapi, Hs'.
    destruct (decide (s ∈ locked sp)); [contradiction |].
    cbn [snd]. unfold sp'. by rewrite Hapi. }
  rewrite Hout. exists intent, intent'.
  split; [reflexivity |].
  split; [split; [exact Hs | split; [by apply includes_num_spec | exact Hc]] |].
  split; [exact Hmark |]. split; [exact Hret' |]. split; [exact Hmark' |].
  unfold verifyPayment. rewrite Hbeta, Hid, Hret'. cbn [negb].
  assert (Horder : intent_in_order intent').
  { split; [exact Hs | split; [by apply includes_num_spec | exact Hc]]. }
  apply intent_in_order_checks in Horder as (E1 & E2 & E3).
  by rewrite E1, E2, E3, Hmark'.
Qed.

(** The in-process variant accepts and refuses the same references and
    leaves the provider in the same state; only the wording differs. *)
Lemma verifyPayment_variants (beta id : Value) (sp : Stripe) :
  valid (fst (InProcessWorker.verifyPayment beta id sp)) = valid (fst (verifyPayment beta id sp))
  ∧ snd (InProcessWorker.verifyPayment beta id sp) = snd (verifyPayment beta id sp).
Proof.
  unfold InProcessWorker.verifyPayment, verifyPayment.
  repeat case_match; simplify_eq; done.
Qed.

Lemma in_process_marked (beta id : Value) (sp : Stripe) (intent : PaymentIntent) :
  strict_eq_str beta "true" = false →
  truthy id = true →
  retrieve sp id = Ok intent →
  intent_in_order intent →
  report_generated intent = true →
  fst (InProcessWorker.verifyPayment beta id sp) = rejected "Already used".
Proof.
  intros Hbeta Hid Hret (Hs & Ha & Hc)%intent_in_order_checks Hmark.
  unfold InProcessWorker.verifyPayment.
  by rewrite Hbeta, Hid, Hret, Hs, Ha, Hc, Hmark.
Qed.

(** A refused payment ends the job: the worker writes the error record and
    goes no further. *)
Lemma worker_refused_payment (env : Env) (w : World) (jobId sessionId paymentId : Value) :
  truthy jobId = true →
  truthy sessionId = true →
  valid (fst (verifyPayment (BETA_MODE env) paymentId (stripe w))) = false →
  snd (handler env (workerRequest jobId sessionId paymentId) w)
  = mkWorld
      (setJobStatus (started env w jobId) jobId
         (job_error ("Payment failed: " +:+
                     toString (reason (fst (verifyPayment (BETA_MODE env) paymentId (stripe w)))))))
      (snd (verifyPayment (BETA_MODE env) paymentId (stripe w)))
      (generation_log w).
Proof.
  intros Hjob Hsess Hvalid. unfold handler, workerRequest.
  cbn [parsed_body prop field lookup_field String.eqb Ascii.eqb Bool.eqb].
  rewrite Hjob, Hsess. cbn [negb orb].
  destruct (verifyPayment _ _ _) as [payment sp1]. cbn [fst snd] in *.
  by rewrite Hvalid.
Qed.

(** C1, as the code has it. With the bypass flag off: a reference whose
    prior-use marker is set is refused and the provider is left unchanged,
    with the reason 'Payment already used' ('Already used' in the in-process
    variant) when the reference is non-empty and its status, amount and
    currency are in order; a reference is accepted only if its status is
    'succeeded', its amount is 200, 500 or 1000, its currency is 'aud' and
    its marker is unset, and acceptance sets the marker, so that a second
    verification is refused with 'Payment already used'; a refused payment
    leaves the job with the terminal record [{status: 'error', error:
    'Payment failed: ' + reason}]. *)
Theorem payment_reference_is_used_at_most_once (beta id : Value) (sp : Stripe) :
  strict_eq_str beta "true" = false →
  let checked := verifyPayment beta id sp in
  (∀ intent, retrieve sp id = Ok intent → report_generated intent = true →
     valid (fst checked) = false
     ∧ snd checked = sp
     ∧ (truthy id = true → intent_in_order intent →
        fst checked = rejected "Payment already used"
        ∧ fst (InProcessWorker.verifyPayment beta id sp) = rejected "Already used"))
  ∧ (valid (fst checked) = true →
     ∃ intent intent',
       retrieve sp id = Ok intent
       ∧ intent_in_order intent
       ∧ report_generated intent = false
       ∧ retrieve (snd checked) id = Ok intent'
       ∧ report_generated intent' = true
       ∧ verifyPayment beta id (snd checked) = (rejected "Payment already used", snd checked))
  ∧ (valid (fst checked) = false →
     ∀ (env : Env) (w : World) (jobId sessionId : Value),
       BETA_MODE env = beta → stripe w = sp →
       truthy jobId = true → truthy sessionId = true →
       jobKey jobId ∉ faulty (store w) →
       blobs (store (snd (handler env (workerRequest jobId sessionId id) w)))
         !! blobName (jobKey jobId)
       = Some (mkEntry (Json (job_error ("Payment failed: " +:+ toString (reason (fst checked)))))
                       (VObj [])))
  ∧ valid (fst (InProcessWorker.verifyPayment beta id sp)) = valid (fst checked)
  ∧ snd (InProcessWorker.verifyPayment beta id sp) = snd checked.
Proof.
  intros Hbeta checked. subst checked. split; [| split; [| split]].
  - intros intent Hret Hmark.
    destruct (verifyPayment_marked _ _ _ _ Hbeta Hret Hmark) as (Hv & Hsp & Hwhy).
    split; [exact Hv |]. split; [exact Hsp |]. intros Hid Horder.
    split; [by apply Hwhy | by apply (in_process_marked _ _ _ intent)].
  - by apply verifyPayment_accepted.
  - intros Hvalid env w jobId sessionId <- <- Hjob Hsess Hok.
    rewrite (worker_refused_payment _ _ _ _ _ Hjob Hsess Hvalid). cbn [store].
    apply setJobStatus_lookup. unfold started. by rewrite setJobStatus_faulty.
  - apply verifyPayment_variants.
Qed.

(** ** The dispatcher *)

(** A POST for a session whose metadata is there and not past its expiry
    writes the queued record, starts the worker and answers 202. *)
Lemma dispatch_accepts
      (env : GenerateReport.Env) (event : GenerateReport.Event) (st : Store)
      (body sessionId meta : Value) :
  GenerateReport.httpMethod event = "POST" →
  GenerateReport.parsed_body event = Ok body →
  prop body "sessionId" = Ok sessionId →
  truthy sessionId = true →
  store_get_json st (toString sessionId +:+ "/meta") = Ok meta →
  truthy meta = true →
  past_expiry env meta = false →
  "job/" +:+ GenerateReport.jobId (GenerateReport.randomUUID env) ∉ faulty st →
  GenerateReport.handler env event st
  = (mkResponse 202
       (Some (VObj [("jobId", VStr (GenerateReport.jobId (GenerateReport.randomUUID env)));
                    ("status", VStr "processing")])),
     mkStore (<[blobName ("job/" +:+ GenerateReport.jobId (GenerateReport.randomUUID env))
                := mkEntry (Json (queued_record env)) (VObj [])]> (blobs st))
             (faulty st)
             (log st ++ [OpSet ("job/" +:+ GenerateReport.jobId (GenerateReport.randomUUID env))
                               (queued_record env)]),
     [worker_call env event sessionId (field body "paymentIntentId")]).
Proof.
  intros Hpost Hbody Hsid Htruthy Hmeta Hmt Hexp Hok.
  unfold GenerateReport.handler. rewrite Hpost, Hbody, Hsid, Htruthy.
  cbn [String.eqb Ascii.eqb Bool.eqb negb]. rewrite Hmeta, Hmt. cbn [negb].
  fold (past_expiry env meta). rewrite Hexp, (store_setJSON_ok _ _ _ Hok). reflexivity.
Qed.

(** C5, as the code has it. A POST that names a session:
    - when the store holds no metadata for the session (the metadata key
      names no blob), is answered 410 'Session expired', the store is left as
      it was and no worker is started;
    - when the metadata exists but its [expiresAt] lies before the current
      instant, is answered 410 as well: the metadata is deleted, no job record
      is written and no worker is started;
    - when the metadata exists and is not past its expiry, writes the job
      record [{status: 'queued', queuedAt}] under a fresh job identifier,
      starts the worker with one request that it does not wait for (the store
      returned holds the queued record, nothing of the worker's), and is
      answered 202 with [{jobId, status: 'processing'}]. *)
Theorem dispatch_requires_a_live_session
        (env : GenerateReport.Env) (event : GenerateReport.Event) (st : Store)
        (body sessionId : Value) :
  GenerateReport.httpMethod event = "POST" →
  GenerateReport.parsed_body event = Ok body →
  prop body "sessionId" = Ok sessionId →
  truthy sessionId = true →
  let metaKey := toString sessionId +:+ "/meta" in
  let jobKey := "job/" +:+ GenerateReport.jobId (GenerateReport.randomUUID env) in
  let out := GenerateReport.handler env event st in
  (blobs st !! blobName metaKey = None →
   out = (GenerateReport.sessionExpired session_gone, st, []))
  ∧ (∀ meta, store_get_json st metaKey = Ok meta → truthy meta = true →
       (past_expiry env meta = true →
        out = (GenerateReport.sessionExpired session_past_expiry,
               snd (store_delete st metaKey), []))
       ∧ (past_expiry env meta = false → jobKey ∉ faulty st →
          out = (mkResponse 202
                   (Some (VObj [("jobId", VStr (GenerateReport.jobId (GenerateReport.randomUUID env)));
                                ("status", VStr "processing")])),
                 mkStore (<[blobName jobKey := mkEntry (Json (queued_record env)) (VObj [])]>
                            (blobs st))
                         (faulty st)
                         (log st ++ [OpSet jobKey (queued_record env)]),
                 [worker_call env event sessionId (field body "paymentIntentId")]))).
Proof.
  intros Hpost Hbody Hsid Htruthy metaKey jobKey out. subst out. split.
  - intros Hnone. unfold GenerateReport.handler. rewrite Hpost, Hbody, Hsid, Htruthy.
    cbn [String.eqb Ascii.eqb Bool.eqb negb]. fold metaKey.
    destruct (store_get_json_absent st _ Hnone) as [-> | [msg ->]]; reflexivity.
  - intros meta Hget Hmeta. split.
    + intros Hpast. unfold GenerateReport.handler. rewrite Hpost, Hbody, Hsid, Htruthy.
      cbn [String.eqb Ascii.eqb Bool.eqb negb]. fold metaKey. rewrite Hget, Hmeta.
      cbn [negb]. fold (past_expiry env meta). by rewrite Hpast.
    + intros Hlive Hok.
      exact (dispatch_accepts env event st body sessionId meta
                              Hpost Hbody Hsid Htruthy Hget Hmeta Hlive Hok).
Qed.

(** ** The rate limiter *)

Section RateLimiter.

Lemma live_insert (r : Redis) (c : Command) (now : Z) (key : string) (e : RedisEntry) :
  (∀ d, expireAt e = Some d → now < d) →
  live (served r c (<[key := e]> (entries r))) now key = Some e.
Proof.
  intros Hd. unfold live, served. cbn [entries]. rewrite lookup_insert_eq.
  destruct (expireAt e) as [d |] eqn:He; [| reflexivity].
  specialize (Hd d eq_refl). destruct (Z.leb_spec d now); [lia | reflexivity].
Qed.

Lemma live_deadline (r : Redis) (now : Z) (key : string) (e : RedisEntry) (d : Z) :
  live r now key = Some e → expireAt e = Some d → now < d.
Proof.
  unfold live. destruct (entries r !! key) as [e' |]; [| discriminate].
  destruct (expireAt e') as [d' |] eqn:He'.
  - destruct (Z.leb_spec d' now); [discriminate |]. intros [= <-]. rewrite He'.
    intros [= <-]. lia.
  - intros [= <-]. rewrite He'. discriminate.
Qed.

Lemma current_deadline (r : Redis) (now : Z) (key : string) (c d : Z) :
  current r now key = Some (c, Some d) → now < d.
Proof.
  unfold current. destruct (live r now key) as [e |] eqn:Hlive; [| discriminate].
  destruct (value e); [| discriminate]. intros [= _ He]. eauto using live_deadline.
Qed.

Lemma checkRateLimit_step (r : Redis) (now : Z) (ip : string) (c : Z) (exp : option Z) :
  available r = true →
  current r now (counterKey ip) = Some (c, exp) →
  c < 9223372036854775807 →
  checkRateLimit r now ip
  = (Ok (verdict (c + 1)),
     mkRedis
       (<[counterKey ip :=
            mkRedisEntry (RInt (c + 1))
              (if c + 1 =? 1 then Some (now + RATE_LIMIT_WINDOW_SECONDS) else exp)]>
          (entries r))
       true
       (commands r ++
        CmdINCR (counterKey ip) ::
        (if c + 1 =? 1 then [CmdEXPIRE (counterKey ip) RATE_LIMIT_WINDOW_SECONDS] else []))).
Proof.
  intros Hav Hcur Hmax. unfold checkRateLimit. fold (counterKey ip).
  set (key := counterKey ip) in *.
  assert (Hincr : INCR r now key
                  = (Ok (c + 1),
                     served r (CmdINCR key)
                            (<[key := mkRedisEntry (RInt (c + 1)) exp]> (entries r)))).
  { unfold INCR. rewrite Hav. cbn [negb]. unfold current in Hcur.
    destruct (live r now key) as [e |].
    - destruct (value e) as [n |]; [| discriminate]. inversion Hcur; subst.
      destruct (Z.ltb_spec c 9223372036854775807); [reflexivity | lia].
    - by inversion Hcur; subst. }
  rewrite Hincr. destruct (Z.eqb_spec (c + 1) 1) as [Hone | Hmore].
  - unfold EXPIRE. cbn [available served negb]. rewrite Hav. cbn [negb].
    rewrite live_insert.
    + unfold served. cbn [entries commands available value].
      rewrite Hav, insert_insert_eq, <- app_assoc. reflexivity.
    + cbn [expireAt]. intros d ->. exact (current_deadline _ _ _ _ _ Hcur).
  - unfold served. by rewrite Hav.
Qed.

Lemma current_of_entry (r : Redis) (now : Z) (key : string) (c d : Z) :
  entries r !! key = Some (mkRedisEntry (RInt c) (Some d)) →
  now < d →
  current r now key = Some (c, Some d).
Proof.
  intros He Hd. unfold current, live. rewrite He. cbn [expireAt value].
  destruct (Z.leb_spec d now); [lia | reflexivity].
Qed.

(** While the deadline of a counter lies ahead, successive requests count
    up from its value, one by one. *)
Lemma serve_in_window (ip : string) (d : Z) (times : list Z) :
  ∀ (r : Redis) (c : Z),
    available r = true →
    entries r !! counterKey ip = Some (mkRedisEntry (RInt c) (Some d)) →
    1 ≤ c →
    c + Z.of_nat (length times) < 9223372036854775807 →
    Forall (λ t, t < d) times →
    serve r ip times
    = map (λ i, Ok (verdict (c + 1 + Z.of_nat i))) (seq 0 (length times)).
Proof.
  induction times as [| t ts IH]; intros r c Hav He Hc Hmax Hts; [reflexivity |].
  inversion Hts as [| ? ? Ht Hts']; subst.
  cbn [length] in Hmax. cbn [serve length seq map].
  rewrite (checkRateLimit_step r t ip c (Some d) Hav (current_of_entry _ _ _ _ _ He Ht))
    by lia.
  cbn [fst snd]. rewrite Z.add_0_r. f_equal.
  destruct (Z.eqb_spec (c + 1) 1); [lia |].
  rewrite (IH _ (c + 1)); [| reflexivity | apply lookup_insert_eq | lia | lia | exact Hts'].
  rewrite <- seq_shift, map_map. apply map_ext. intros i. do 2 f_equal. lia.
Qed.

(** A window opens with the first request that finds no counter; from then
    on, and before the window closes, the k-th request is answered with
    count k. *)
Lemma serve_window (r : Redis) (ip : string) (t0 : Z) (ts : list Z) :
  available r = true →
  live r t0 (counterKey ip) = None →
  Z.of_nat (length ts) < 9223372036854775805 →
  Forall (λ t, t < t0 + RATE_LIMIT_WINDOW_SECONDS) ts →
  serve r ip (t0 :: ts)
  = map (λ i, Ok (verdict (1 + Z.of_nat i))) (seq 0 (S (length ts))).
Proof.
  intros Hav Hlive Hlen Hts.
  assert (Hcur : current r t0 (counterKey ip) = Some (0, None)).
  { unfold current. by rewrite Hlive. }
  cbn [serve length seq map].
  rewrite (checkRateLimit_step r t0 ip 0 None Hav Hcur) by lia.
  cbn [fst snd]. f_equal.
  rewrite (serve_in_window ip (t0 + RATE_LIMIT_WINDOW_SECONDS) ts _ 1);
    [| reflexivity | apply lookup_insert_eq | lia | lia | exact Hts].
  rewrite <- seq_shift, map_map. apply map_ext. intros i. do 2 f_equal. lia.
Qed.

(** The upload endpoint turns a request away as soon as the counter of its
    sender has reached the ceiling. *)
Lemma upload_over_the_limit
      (env : UploadScreenshots.Env) (event : UploadScreenshots.Event) (r : Redis)
      (ip : string) (c : Z) (exp : option Z) :
  UploadScreenshots.httpMethod event = "POST" →
  UploadScreenshots.clientIp (UploadScreenshots.forwarded_for event) = Ok ip →
  available r = true →
  current r (UploadScreenshots.redis_now env) (counterKey ip) = Some (c, exp) →
  RATE_LIMIT_MAX_REQUESTS ≤ c < 9223372036854775807 →
  fst (UploadScreenshots.handler env event r) = too_many_requests.
Proof.
  intros Hpost Hip Hav Hcur [Hc Hmax]. unfold UploadScreenshots.handler.
  rewrite Hpost, Hip. cbn [String.eqb Ascii.eqb Bool.eqb negb].
  rewrite (checkRateLimit_step _ _ _ _ _ Hav Hcur Hmax).
  unfold verdict. cbn [allowed].
  unfold RATE_LIMIT_MAX_REQUESTS in *.
  destruct (Z.leb_spec (c + 1) 100); [lia | reflexivity].
Qed.

End RateLimiter.

(** C7. One call of [checkRateLimit] for an identity whose counter stands at
    [c] (zero when the key is absent or expired) serves one INCR, which brings
    the counter to [c + 1], and answers [allowed = (c + 1 ≤ 100)],
    [remaining = max(0, 100 - (c + 1))]. EXPIRE is served exactly when the
    count returned is 1, and sets the deadline one window (3600 s) ahead;
    otherwise the deadline is left as it is. Hence, in a window opened by a
    request at [now], the k-th request is answered with count k: the first
    hundred are allowed, the hundred-and-first is refused, and the upload
    endpoint answers it with 429. *)
Theorem rate_limit_counts_every_request
        (r : UpstashStore.Redis) (now : Z) (ip : string) (c : Z) (exp : option Z) :
  UpstashStore.available r = true →
  current r now (counterKey ip) = Some (c, exp) →
  c < 9223372036854775807 →
  UpstashStore.checkRateLimit r now ip
  = (Ok (UpstashStore.mkRateLimit (c + 1 <=? 100) (c + 1) (Z.max 0 (100 - (c + 1)))),
     UpstashStore.mkRedis
       (<[counterKey ip :=
            UpstashStore.mkRedisEntry (UpstashStore.RInt (c + 1))
              (if c + 1 =? 1 then Some (now + 3600) else exp)]> (UpstashStore.entries r))
       true
       (UpstashStore.commands r ++
        UpstashStore.CmdINCR (counterKey ip) ::
        (if c + 1 =? 1 then [UpstashStore.CmdEXPIRE (counterKey ip) 3600] else [])))
  ∧ (∀ ts : list Z,
       UpstashStore.live r now (counterKey ip) = None →
       Z.of_nat (length ts) < 9223372036854775805 →
       Forall (λ t, t < now + 3600) ts →
       serve r ip (now :: ts)
       = map (λ i, Ok (verdict (1 + Z.of_nat i))) (seq 0 (S (length ts)))
       ∧ (∀ i, (i < 100)%nat → (i ≤ length ts)%nat →
            serve r ip (now :: ts) !! i
            = Some (Ok (UpstashStore.mkRateLimit true (1 + Z.of_nat i) (99 - Z.of_nat i))))
       ∧ ((100 ≤ length ts)%nat →
          serve r ip (now :: ts) !! 100%nat
          = Some (Ok (UpstashStore.mkRateLimit false 101 0))))
  ∧ (∀ (env : UploadScreenshots.Env) (event : UploadScreenshots.Event),
       UploadScreenshots.httpMethod event = "POST" →
       UploadScreenshots.clientIp (UploadScreenshots.forwarded_for event) = Ok ip →
       UploadScreenshots.redis_now env = now →
       100 ≤ c →
       fst (UploadScreenshots.handler env event r) = too_many_requests).
Proof.
  intros Hav Hcur Hmax. split; [| split].
  - exact (checkRateLimit_step r now ip c exp Hav Hcur Hmax).
  - intros ts Hlive Hlen Hts.
    pose proof (serve_window r ip now ts Hav Hlive Hlen Hts) as Hserve.
    split; [exact Hserve |]. rewrite Hserve. split.
    + intros i Hi Hle. rewrite list_lookup_fmap, lookup_seq_lt by lia.
      cbn [fmap option_fmap option_map plus]. unfold verdict, UpstashStore.RATE_LIMIT_MAX_REQUESTS.
      destruct (Z.leb_spec (1 + Z.of_nat i) 100); [| lia].
      replace (Z.max 0 (100 - (1 + Z.of_nat i))) with (99 - Z.of_nat i) by lia.
      reflexivity.
    + intros Hle. rewrite list_lookup_fmap, lookup_seq_lt by lia. reflexivity.
  - intros env event Hpost Hip <- Hc.
    apply (upload_over_the_limit env event r ip c exp); auto.
Qed.

(** ** Minted identifiers *)

Lemma hex_not_dash (c : ascii) :
  JSString.is_lower_hex c = true → Ascii.eqb c "-" = false.
Proof.
  intros H. destruct (Ascii.eqb_spec c "-") as [-> |]; [discriminate | reflexivity].
Qed.

Lemma remove_dashes_hex (c : ascii) (s : string) :
  JSString.is_lower_hex c = true →
  JSString.remove_dashes (String c s) = String c (JSString.remove_dashes s).
Proof. intros H. simpl. by rewrite (hex_not_dash c H). Qed.

Lemma remove_dashes_dash (s : string) :
  JSString.remove_dashes (String "-" s) = JSString.remove_dashes s.
Proof. reflexivity. Qed.

(** The first sixteen characters of a UUID stripped of its hyphens are
    sixteen hexadecimal digits. *)
Lemma uuid_prefix (u : string) :
  is_uuid u = true →
  is_minted_id (JSString.substring (JSString.remove_dashes u) 0 16).
Proof.
  intros [Hlen Hchars]%andb_true_iff.
  do 36 (destruct u as [| ? u]; [simpl in Hlen; discriminate |]).
  destruct u; [| simpl in Hlen; discriminate]. clear Hlen.
  cbv beta iota zeta delta [uuid_chars Nat.eqb orb] in Hchars.
  repeat match goal with
         | H : _ && _ = true |- _ => apply andb_true_iff in H as [? H]
         end.
  repeat match goal with
         | H : Ascii.eqb _ "-" = true |- _ => apply Ascii.eqb_eq in H; subst
         end.
  repeat first [ rewrite remove_dashes_dash | rewrite remove_dashes_hex by assumption ].
  split; [reflexivity |].
  cbv beta iota zeta delta [JSString.substring JSString.take JSString.drop String.length
                            Z.of_nat Pos.of_succ_nat Pos.succ Z.max Z.min Z.compare
                            Pos.compare Pos.compare_cont Z.sub Z.add Z.opp Z.pos_sub
                            Z.to_nat Pos.to_nat Pos.iter_op Nat.add Z.succ_double
                            Z.pred_double Z.double Pos.pred_double JSString.remove_dashes
                            JSString.forallb].
  repeat match goal with
         | H : JSString.is_lower_hex ?c = true |- _ => rewrite H; clear H
         end.
  reflexivity.
Qed.

(** The identifier cut from a UUID is made of its first sixteen digits. *)
Lemma uuid_first_sixteen (u : string) :
  is_uuid u = true →
  JSString.substring (JSString.remove_dashes u) 0 16 = first_sixteen_digits u.
Proof.
  intros [Hlen Hchars]%andb_true_iff.
  do 36 (destruct u as [| ? u]; [simpl in Hlen; discriminate |]).
  destruct u; [| simpl in Hlen; discriminate]. clear Hlen.
  cbv beta iota zeta delta [uuid_chars Nat.eqb orb] in Hchars.
  repeat match goal with
         | H : _ && _ = true |- _ => apply andb_true_iff in H as [? H]
         end.
  repeat match goal with
         | H : Ascii.eqb _ "-" = true |- _ => apply Ascii.eqb_eq in H; subst
         end.
  repeat first [ rewrite remove_dashes_dash | rewrite remove_dashes_hex by assumption ].
  reflexivity.
Qed.

(** The only answer of the dispatcher with status 202 carries the job
    identifier cut from the UUID drawn for the request. *)
Lemma dispatch_returns_minted_job
      (env : GenerateReport.Env) (event : GenerateReport.Event) (st : Store) (answer : Value) :
  fst (fst (GenerateReport.handler env event st)) = mkResponse 202 (Some answer) →
  field answer "jobId" = VStr (GenerateReport.jobId (GenerateReport.randomUUID env)).
Proof.
  unfold GenerateReport.handler.
  repeat case_match; cbn [fst]; intros [= <-]; reflexivity.
Qed.

(** The only answer of the upload endpoint with status 200 carries the
    session identifier cut from the UUID drawn for the request. *)
Lemma upload_returns_minted_session
      (env : UploadScreenshots.Env) (event : UploadScreenshots.Event)
      (r : UpstashStore.Redis) (answer : Value) :
  fst (UploadScreenshots.handler env event r) = mkResponse 200 (Some answer) →
  field answer "sessionId"
  = VStr (UploadScreenshots.sessionId (UploadScreenshots.randomUUID env)).
Proof.
  unfold UploadScreenshots.handler.
  repeat case_match; cbn [fst]; intros [= <-]; reflexivity.
Qed.

(** C10. Whatever UUIDs are drawn, the session identifier minted by the
    upload handler and the job identifier minted by the dispatcher are the
    first sixteen hexadecimal digits of the UUID drawn (the UUID without its
    hyphens, cut after sixteen characters): sixteen characters long, all of
    them lower-case hexadecimal digits; the upload endpoint returns exactly
    that session identifier and the dispatcher exactly that job identifier;
    and the key of the job differs from every key of the session, in the blob
    store ([<sessionId>/meta], [<sessionId>/screenshot-<i>]), where it names
    another blob as well, and in Redis ([session:<sessionId>],
    [screenshot:<sessionId>:<i>]). *)
Theorem minted_identifiers_are_sixteen_hex_digits (uuid_s uuid_j : string) :
  is_uuid uuid_s = true →
  is_uuid uuid_j = true →
  let sessionId := UploadScreenshots.sessionId uuid_s in
  let jobId := GenerateReport.jobId uuid_j in
  (String.length sessionId = 16%nat
   ∧ JSString.forallb JSString.is_lower_hex sessionId = true)
  ∧ (String.length jobId = 16%nat
     ∧ JSString.forallb JSString.is_lower_hex jobId = true)
  ∧ (∀ (env : UploadScreenshots.Env) (event : UploadScreenshots.Event)
       (r : UpstashStore.Redis) (answer : Value),
       UploadScreenshots.randomUUID env = uuid_s →
       fst (UploadScreenshots.handler env event r) = mkResponse 200 (Some answer) →
       field answer "sessionId" = VStr sessionId)
  ∧ "job/" +:+ jobId ≠ sessionId +:+ "/meta"
  ∧ (∀ i : nat, "job/" +:+ jobId ≠ sessionId +:+ "/screenshot-" +:+ pretty i)
  ∧ "job/" +:+ jobId ≠ "session:" +:+ sessionId
  ∧ (∀ i : nat, "job/" +:+ jobId ≠ "screenshot:" +:+ sessionId +:+ ":" +:+ pretty i)
  ∧ sessionId = first_sixteen_digits uuid_s
  ∧ jobId = first_sixteen_digits uuid_j
  ∧ (∀ (env : GenerateReport.Env) (event : GenerateReport.Event) (st : Store)
       (answer : Value),
       GenerateReport.randomUUID env = uuid_j →
       fst (fst (GenerateReport.handler env event st)) = mkResponse 202 (Some answer) →
       field answer "jobId" = VStr jobId)
  ∧ blobName ("job/" +:+ jobId) ≠ blobName (sessionId +:+ "/meta")
  ∧ (∀ i : nat,
       blobName ("job/" +:+ jobId) ≠ blobName (sessionId +:+ "/screenshot-" +:+ pretty i)).
Proof.
  intros Hs Hj sessionId jobId.
  pose proof (uuid_prefix uuid_s Hs) as Hsid.
  pose proof (uuid_prefix uuid_j Hj) as Hjid.
  fold (UploadScreenshots.sessionId uuid_s) in Hsid.
  fold (GenerateReport.jobId uuid_j) in Hjid. fold sessionId in Hsid. fold jobId in Hjid.
  split; [exact Hsid |]. split; [exact Hjid |].
  split; [| split; [| split; [| split; [| split; [| split; [| split; [| split; [| split]]]]]]]].
  - intros env event r answer <-. apply upload_returns_minted_session.
  - by apply job_key_not_meta_key.
  - intros i. by apply job_key_not_screenshot_key.
  - discriminate.
  - intros i. discriminate.
  - by apply uuid_first_sixteen.
  - by apply uuid_first_sixteen.
  - intros env event st answer <-. apply dispatch_returns_minted_job.
  - rewrite (blobName_job jobId Hjid). intros Heq. symmetry in Heq.
    revert Heq. apply (meta_name_not_job jobId sessionId Hjid).
    by apply minted_id_is_path.
  - intros i. rewrite (blobName_job jobId Hjid). intros Heq. symmetry in Heq.
    revert Heq. apply (screenshot_name_not_job jobId sessionId i Hjid).
    by apply minted_id_is_path.
Qed.

(** ** Positions in strings *)

Lemma append_cons (c : ascii) (a b : string) : String c a +:+ b = String c (a +:+ b).
Proof. reflexivity. Qed.

Lemma take_drop (n : nat) (s : string) : JSString.take n s +:+ JSString.drop n s = s.
Proof.
  revert s. induction n as [| n IH]; intros [| c s]; try reflexivity.
  cbn [JSString.take JSString.drop]. rewrite append_cons. f_equal. apply IH.
Qed.

Lemma length_drop (n : nat) (s : string) :
  String.length (JSString.drop n s) = (String.length s - n)%nat.
Proof. revert s. induction n as [| n IH]; intros [| c s]; simpl; auto with lia. Qed.

Lemma length_take (n : nat) (s : string) :
  String.length (JSString.take n s) = Nat.min n (String.length s).
Proof.
  revert s. induction n as [| n IH]; intros [| c s]; simpl; try reflexivity.
  by rewrite IH.
Qed.

Lemma drop_drop (a b : nat) (s : string) :
  JSString.drop b (JSString.drop a s) = JSString.drop (a + b) s.
Proof.
  revert s. induction a as [| a IH]; intros s; [reflexivity |].
  destruct s as [| c s]; simpl; [by destruct b | apply IH].
Qed.

Lemma take_all (n : nat) (s : string) :
  (String.length s ≤ n)%nat → JSString.take n s = s.
Proof.
  revert s. induction n as [| n IH]; intros [| c s] H; simpl in *; try reflexivity; [lia |].
  f_equal. apply IH. lia.
Qed.

Lemma drop_all (n : nat) (s : string) :
  (String.length s ≤ n)%nat → JSString.drop n s = "".
Proof.
  revert s. induction n as [| n IH]; intros [| c s] H; simpl in *; try reflexivity; [lia |].
  apply IH. lia.
Qed.

(** [substring] between two ordered, non-negative positions, whatever the
    length of the string. *)
Lemma substring_take_drop (s : string) (a b : nat) :
  (a ≤ b)%nat →
  JSString.substring s (Z.of_nat a) (Z.of_nat b) = JSString.take (b - a) (JSString.drop a s).
Proof.
  intros Hab. unfold JSString.substring.
  set (len := String.length s).
  destruct (le_lt_dec b len) as [Hb | Hb].
  - replace (Z.min (Z.max (Z.of_nat a) 0) (Z.of_nat len)) with (Z.of_nat a) by lia.
    replace (Z.min (Z.max (Z.of_nat b) 0) (Z.of_nat len)) with (Z.of_nat b) by lia.
    replace (Z.min (Z.of_nat a) (Z.of_nat b)) with (Z.of_nat a) by lia.
    replace (Z.max (Z.of_nat a) (Z.of_nat b)) with (Z.of_nat b) by lia.
    rewrite Nat2Z.id. f_equal. lia.
  - destruct (le_lt_dec a len) as [Ha | Ha].
    + replace (Z.min (Z.max (Z.of_nat a) 0) (Z.of_nat len)) with (Z.of_nat a) by lia.
      replace (Z.min (Z.max (Z.of_nat b) 0) (Z.of_nat len)) with (Z.of_nat len) by lia.
      replace (Z.min (Z.of_nat a) (Z.of_nat len)) with (Z.of_nat a) by lia.
      replace (Z.max (Z.of_nat a) (Z.of_nat len)) with (Z.of_nat len) by lia.
      rewrite Nat2Z.id.
      rewrite !take_all; [reflexivity | rewrite length_drop; fold len; lia
                          | rewrite length_drop; fold len; lia].
    + replace (Z.min (Z.max (Z.of_nat a) 0) (Z.of_nat len)) with (Z.of_nat len) by lia.
      replace (Z.min (Z.max (Z.of_nat b) 0) (Z.of_nat len)) with (Z.of_nat len) by lia.
      rewrite Z.min_id, Z.max_id, Z.sub_diag, Nat2Z.id.
      rewrite (drop_all a s) by (fold len; lia). by destruct (b - a)%nat.
Qed.

Lemma prefix_length (pat s : string) :
  String.prefix pat s = true → (String.length pat ≤ String.length s)%nat.
Proof.
  revert s. induction pat as [| c pat IH]; intros s H; simpl; [lia |].
  destruct s as [| d s]; simpl in H; [discriminate |].
  destruct (ascii_dec c d); [| discriminate]. specialize (IH _ H). simpl. lia.
Qed.

Lemma occurs_at_bound (pat s : string) (i : nat) :
  occurs_at pat s i → (i + String.length pat ≤ String.length s)%nat.
Proof.
  intros [Hi Hp]. apply prefix_length in Hp. rewrite length_drop in Hp. lia.
Qed.

Lemma prefix_empty_r (pat : string) :
  String.prefix pat "" = true → pat = "".
Proof. destruct pat; [reflexivity | discriminate]. Qed.

(** [indexOf] returns the first position at which the pattern occurs, and
    [-1] when it occurs nowhere. *)
Lemma indexOf_from_spec (pat s : string) (i0 : Z) :
  (JSString.indexOf_from s pat i0 = -1 ∧ 0 <= i0 → ∀ j, ¬ occurs_at pat s j)
  ∧ (JSString.indexOf_from s pat i0 = -1
     ∨ ∃ k, JSString.indexOf_from s pat i0 = i0 + Z.of_nat k
            ∧ occurs_at pat s k
            ∧ ∀ j, (j < k)%nat → ¬ occurs_at pat s j).
Proof.
  revert i0. induction s as [| c s IH]; intros i0.
  - cbn [JSString.indexOf_from]. destruct (String.prefix pat "") eqn:Hp.
    + split; [lia |]. right. exists O. rewrite Z.add_0_r.
      split; [reflexivity |]. split; [split; [simpl; lia | exact Hp] | lia].
    + split; [| by left]. intros _ j [Hj Hocc]. simpl in Hj.
      assert (j = O) as -> by lia. cbn [JSString.drop] in Hocc. congruence.
  - cbn [JSString.indexOf_from]. destruct (String.prefix pat (String c s)) eqn:Hp.
    + split; [lia |]. right. exists O. rewrite Z.add_0_r.
      split; [reflexivity |]. split; [split; [simpl; lia | exact Hp] | lia].
    + destruct (IH (i0 + 1)) as [IHnone IHsome]. split.
      * intros [Hr H0] j [Hj Hocc]. destruct j as [| j]; [cbn [JSString.drop] in Hocc; congruence |].
        apply (IHnone ltac:(lia) j). split; [simpl in Hj; lia | exact Hocc].
      * destruct IHsome as [-> | (k & -> & [Hk Hocc] & Hfirst)]; [by left |].
        right. exists (S k). split; [lia |]. split; [split; [simpl; lia | exact Hocc] |].
        intros j Hj [Hj' Hocc']. destruct j as [| j]; [cbn [JSString.drop] in Hocc'; congruence |].
        apply (Hfirst j ltac:(lia)). split; [simpl in Hj'; lia | exact Hocc'].
Qed.

Lemma indexOf_spec (pat s : string) :
  (JSString.indexOf s pat = -1 ∧ ∀ j, ¬ occurs_at pat s j)
  ∨ ∃ k, JSString.indexOf s pat = Z.of_nat k
         ∧ occurs_at pat s k
         ∧ ∀ j, (j < k)%nat → ¬ occurs_at pat s j.
Proof.
  unfold JSString.indexOf. destruct (indexOf_from_spec pat s 0) as [Hnone Hsome].
  destruct Hsome as [Hr | (k & Hr & Hocc & Hfirst)].
  - left. split; [exact Hr |]. apply Hnone. split; [exact Hr | lia].
  - right. exists k. rewrite Hr. auto.
Qed.

Lemma occurs_at_cons (pat : string) (c : ascii) (s : string) (j : nat) :
  occurs_at pat (String c s) (S j) ↔ occurs_at pat s j.
Proof. unfold occurs_at. cbn [JSString.drop String.length]. split; intros [? ?]; split; auto with lia. Qed.

(** [lastIndexOf] returns the last position at which the pattern occurs, and
    [-1] when it occurs nowhere. *)
Lemma lastIndexOf_spec (pat s : string) :
  (JSString.lastIndexOf s pat = -1 ∧ ∀ j, ¬ occurs_at pat s j)
  ∨ ∃ k, JSString.lastIndexOf s pat = Z.of_nat k
         ∧ occurs_at pat s k
         ∧ ∀ j, (k < j)%nat → ¬ occurs_at pat s j.
Proof.
  induction s as [| c s IH]; cbn [JSString.lastIndexOf].
  - destruct (String.prefix pat "") eqn:Hp.
    + right. exists O. split; [reflexivity |]. split; [split; [simpl; lia | exact Hp] |].
      intros j Hj [Hj' _]. simpl in Hj'. lia.
    + left. split; [reflexivity |]. intros j [Hj Hocc]. simpl in Hj.
      assert (j = O) as -> by lia. cbn [JSString.drop] in Hocc. congruence.
  - destruct IH as [[-> Hnone] | (k & -> & Hocc & Hlast)].
    + cbn [Z.leb Z.compare]. destruct (String.prefix pat (String c s)) eqn:Hp.
      * right. exists O. split; [reflexivity |].
        split; [split; [simpl; lia | exact Hp] |].
        intros [| j] Hj; [lia |]. rewrite occurs_at_cons. apply Hnone.
      * left. split; [reflexivity |]. intros [| j].
        -- intros [_ Hocc]. cbn [JSString.drop] in Hocc. congruence.
        -- rewrite occurs_at_cons. apply Hnone.
    + destruct (Z.leb_spec 0 (Z.of_nat k)); [| lia].
      right. exists (S k). split; [lia |]. split; [by apply occurs_at_cons |].
      intros [| j] Hj; [lia |]. rewrite occurs_at_cons. apply Hlast. lia.
Qed.

Lemma prefix_take (pat s : string) :
  String.prefix pat s = true → JSString.take (String.length pat) s = pat.
Proof.
  revert s. induction pat as [| c pat IH]; intros s H; [reflexivity |].
  destruct s as [| d s]; simpl in H; [discriminate |].
  destruct (ascii_dec c d) as [<- |]; [| discriminate].
  cbn [String.length JSString.take]. f_equal. by apply IH.
Qed.

Lemma take_prefix (pat s : string) (n : nat) :
  String.prefix pat s = true → (String.length pat ≤ n)%nat →
  String.prefix pat (JSString.take n s) = true.
Proof.
  revert s n. induction pat as [| c pat IH]; intros s n H Hn.
  - by destruct (JSString.take n s).
  - destruct s as [| d s]; simpl in H; [discriminate |].
    destruct (ascii_dec c d) as [<- |]; [| discriminate].
    destruct n as [| n]; [simpl in Hn; lia |].
    cbn [JSString.take String.prefix]. destruct (ascii_dec c c); [| contradiction].
    apply IH; [exact H | simpl in Hn; lia].
Qed.

Lemma drop_take (a b : nat) (s : string) :
  JSString.drop a (JSString.take (a + b) s) = JSString.take b (JSString.drop a s).
Proof.
  revert s. induction a as [| a IH]; intros s; [reflexivity |].
  destruct s as [| c s]; [by destruct b |]. apply IH.
Qed.

Lemma prefix_get (pat s : string) (i k : nat) (c : ascii) :
  String.prefix pat (JSString.drop i s) = true →
  String.get k pat = Some c →
  String.get (i + k) s = Some c.
Proof.
  revert s. induction i as [| i IH]; intros s Hp Hk.
  - cbn [JSString.drop] in Hp. cbn [plus]. revert s k Hp Hk.
    induction pat as [| d pat IH]; intros s k Hp Hk; [by destruct k |].
    destruct s as [| e s]; simpl in Hp; [discriminate |].
    destruct (ascii_dec d e) as [<- |]; [| discriminate].
    destruct k as [| k]; [exact Hk |]. simpl in *. by apply IH.
  - destruct s as [| e s]; cbn [JSString.drop] in Hp.
    + apply prefix_empty_r in Hp. subst. by destruct k.
    + simpl. by apply IH.
Qed.

(** The end marker cannot begin inside a start marker: an end marker at or
    after a start marker lies wholly behind it. *)
Lemma end_marker_after_start_marker (m t : string) (p q : nat) :
  m = "<!DOCTYPE html>" ∨ m = "<html" →
  occurs_at m t p →
  occurs_at "</html>" t q →
  (p ≤ q)%nat →
  (p + String.length m ≤ q)%nat.
Proof.
  intros Hm [_ Hstart] [_ Hend] Hle.
  destruct (le_lt_dec (p + String.length m) q) as [| Hlt]; [assumption | exfalso].
  assert (Hd : ∃ d, q = (p + d)%nat ∧ (d < String.length m)%nat)
    by (exists (q - p)%nat; lia).
  destruct Hd as (d & -> & Hd).
  pose proof (prefix_get "</html>" t (p + d) 0 "<" Hend eq_refl) as H0.
  pose proof (prefix_get "</html>" t (p + d) 1 "/" Hend eq_refl) as H1.
  rewrite Nat.add_0_r in H0.
  destruct Hm as [-> | ->]; simpl in Hd;
    do 15 (try (destruct d as [| d];
                [ first
                    [ pose proof (prefix_get _ t p 1 _ Hstart eq_refl) as G;
                      rewrite Nat.add_0_r in H1; rewrite G in H1; discriminate
                    | match type of H0 with
                      | String.get (p + ?k) t = _ =>
                          pose proof (prefix_get _ t p k _ Hstart eq_refl) as G;
                          rewrite G in H0; discriminate
                      end ]
                |]));
    lia.
Qed.

(** ** Removal of the fences *)

Lemma prefix_append (f s : string) : String.prefix f (f +:+ s) = true.
Proof.
  induction f as [| c f IH]; [by destruct s |].
  rewrite append_cons. cbn [String.prefix]. by destruct (ascii_dec c c).
Qed.

Lemma drop_append (f s : string) : JSString.drop (String.length f) (f +:+ s) = s.
Proof. induction f as [| c f IH]; [reflexivity | exact IH]. Qed.

Lemma replace_fence_go_skip (fence u s : string) (k : nat) :
  JSString.replace_fence_go fence (u +:+ s) (String.length u + k)
  = JSString.replace_fence_go fence s k.
Proof. induction u as [| c u IH]; [reflexivity | exact IH]. Qed.

(** Where the fence does not begin, the scan keeps the character and moves
    on. *)
Lemma replace_fence_miss (fence : string) (c : ascii) (s : string) :
  String.prefix fence (String c s) = false →
  JSString.replace_fence fence (String c s) = String c (JSString.replace_fence fence s).
Proof.
  intros H. unfold JSString.replace_fence. cbn [JSString.replace_fence_go]. by rewrite H.
Qed.

(** Where the fence begins, the scan drops it, together with the line feed
    that follows it, and resumes behind. *)
Lemma replace_fence_hit (fence s : string) :
  fence ≠ "" →
  JSString.replace_fence fence (fence +:+ s)
  = JSString.replace_fence fence
      (match s with
       | String d s' => if Ascii.eqb d JSString.LF then s' else s
       | EmptyString => s
       end).
Proof.
  intros Hne. destruct fence as [| c fence]; [contradiction |].
  unfold JSString.replace_fence. rewrite append_cons.
  cbn [JSString.replace_fence_go]. rewrite <- append_cons.
  rewrite prefix_append, drop_append. cbn [String.length].
  replace (S (String.length fence) + _ - 1)%nat
    with (String.length fence
          + match s with
            | String d _ => if Ascii.eqb d JSString.LF then 1 else 0
            | EmptyString => 0
            end)%nat by lia.
  rewrite replace_fence_go_skip.
  destruct s as [| d s']; [reflexivity |]. by destruct (Ascii.eqb d JSString.LF).
Qed.

(** The relation [fence_removed] describes what the scan does. *)
Lemma prefix_split (pat s : string) :
  String.prefix pat s = true → s = pat +:+ JSString.drop (String.length pat) s.
Proof.
  intros Hpre. pose proof (take_drop (String.length pat) s) as Hsplit.
  rewrite (prefix_take pat s Hpre) in Hsplit. by symmetry.
Qed.

Lemma replace_fence_removed (fence : string) :
  fence ≠ "" → ∀ s, fence_removed fence s (JSString.replace_fence fence s).
Proof.
  intros Hne s. remember (String.length s) as n eqn:Hn. revert s Hn.
  induction n as [n IH] using lt_wf_ind. intros s Hn.
  destruct s as [| c s]; [constructor |].
  destruct (String.prefix fence (String c s)) eqn:Hpre.
  - pose proof (prefix_length _ _ Hpre) as Hlen.
    rewrite (prefix_split _ _ Hpre) in *.
    set (rest := JSString.drop (String.length fence) (String c s)) in *.
    assert (Hshorter : (String.length rest < n)%nat).
    { rewrite Hn, length_append. destruct fence; [contradiction | cbn [String.length]; lia]. }
    rewrite (replace_fence_hit fence rest Hne).
    destruct rest as [| d rest'] eqn:Hrest.
    + apply fence_removed_alone; [reflexivity |]. by apply (IH _ Hshorter).
    + destruct (Ascii.eqb_spec d JSString.LF) as [-> | Hd].
      * apply fence_removed_with_line_feed.
        apply (IH (String.length rest')); [cbn [String.length] in Hshorter; lia | reflexivity].
      * apply fence_removed_alone; [| by apply (IH _ Hshorter)].
        cbn [String.prefix]. destruct (ascii_dec JSString.LF d); [by subst | reflexivity].
  - rewrite (replace_fence_miss _ _ _ Hpre). apply fence_removed_kept; [exact Hpre |].
    apply (IH (String.length s)); [subst n; cbn [String.length]; lia | reflexivity].
Qed.

(** ** Removal of the white space *)

Lemma append_nil_r (s : string) : s +:+ "" = s.
Proof. induction s as [| c s IH]; [reflexivity |]. by rewrite append_cons, IH. Qed.

Lemma prefix_app_l (pat a b : string) :
  String.prefix pat a = true → String.prefix pat (a +:+ b) = true.
Proof.
  revert a. induction pat as [| c pat IH]; intros a Hpre; [by destruct (a +:+ b) |].
  destruct a as [| d a]; [discriminate |]. rewrite append_cons.
  cbn [String.prefix] in *. destruct (ascii_dec c d); [by apply IH | discriminate].
Qed.

Lemma white_space_nonempty (w : string) :
  w ∈ JSString.white_space → ∃ c w', w = String c w'.
Proof.
  intros Hin%list_elem_of_In.
  assert (Hall : forallb (λ w, match w with
                               | String _ _ => true
                               | EmptyString => false
                               end) JSString.white_space = true) by reflexivity.
  rewrite forallb_forall in Hall. specialize (Hall w Hin).
  destruct w as [| c w']; [discriminate | eauto].
Qed.

(** No white space is the beginning of another: a text that begins with
    white space begins with one white space only. *)
Lemma white_space_width_append (w s : string) :
  w ∈ JSString.white_space → JSString.white_space_width (w +:+ s) = String.length w.
Proof.
  intros Hin. unfold JSString.white_space in Hin. cbn [map] in Hin.
  repeat (apply elem_of_cons in Hin as [-> | Hin];
          [destruct s; vm_compute; reflexivity |]).
  by apply elem_of_nil in Hin.
Qed.

Lemma white_space_width_found (s : string) (k : nat) :
  JSString.white_space_width s = S k →
  ∃ w rest, w ∈ JSString.white_space ∧ s = w +:+ rest.
Proof.
  unfold JSString.white_space_width.
  destruct (List.find _ _) as [w |] eqn:Hfind; [| discriminate]. intros _.
  apply List.find_some in Hfind as [Hin Hpre].
  exists w, (JSString.drop (String.length w) s).
  split; [by apply list_elem_of_In | by apply prefix_split].
Qed.

Lemma white_space_width_none (s : string) :
  JSString.white_space_width s = 0%nat →
  ∀ w, w ∈ JSString.white_space → String.prefix w s = false.
Proof.
  unfold JSString.white_space_width.
  destruct (List.find _ _) as [w |] eqn:Hfind.
  - intros Hlen. apply List.find_some in Hfind as [Hin%list_elem_of_In _].
    destruct (white_space_nonempty w Hin) as (c & w' & ->). discriminate.
  - intros _ w Hin%list_elem_of_In. exact (List.find_none _ _ Hfind w Hin).
Qed.

Lemma trimStart_go_skip (u s : string) (k : nat) :
  JSString.trimStart_go (u +:+ s) (String.length u + k) = JSString.trimStart_go s k.
Proof. induction u as [| c u IH]; [reflexivity | exact IH]. Qed.

(** Leading white space is dropped, and the scan resumes behind it. *)
Lemma trimStart_white (w s : string) :
  w ∈ JSString.white_space → JSString.trimStart (w +:+ s) = JSString.trimStart s.
Proof.
  intros Hin. pose proof (white_space_width_append w s Hin) as Hwidth.
  destruct (white_space_nonempty w Hin) as (c & w' & ->).
  unfold JSString.trimStart. rewrite append_cons. cbn [JSString.trimStart_go].
  rewrite <- append_cons, Hwidth. cbn [String.length].
  replace (String.length w') with (String.length w' + 0)%nat by lia.
  apply trimStart_go_skip.
Qed.

Lemma trimStart_none (s : string) :
  JSString.white_space_width s = 0%nat → JSString.trimStart s = s.
Proof.
  intros Hwidth. unfold JSString.trimStart. destruct s as [| c s]; [reflexivity |].
  cbn [JSString.trimStart_go]. by rewrite Hwidth.
Qed.

Lemma trimStart_blank (l s : string) :
  blank l → JSString.trimStart (l +:+ s) = JSString.trimStart s.
Proof.
  induction 1 as [| w l Hin _ IH]; [reflexivity |].
  by rewrite append_assoc_string, (trimStart_white _ _ Hin).
Qed.

(** What [trimStart] drops is white space, and what it leaves does not
    begin with white space. *)
Lemma trimStart_spec (s : string) :
  ∃ l, blank l
       ∧ s = l +:+ JSString.trimStart s
       ∧ ∀ w, w ∈ JSString.white_space → String.prefix w (JSString.trimStart s) = false.
Proof.
  remember (String.length s) as n eqn:Hn. revert s Hn.
  induction n as [n IH] using lt_wf_ind. intros s Hn.
  destruct (JSString.white_space_width s) as [| k] eqn:Hwidth.
  - exists "". rewrite (trimStart_none s Hwidth).
    split; [constructor |]. split; [reflexivity |]. by apply white_space_width_none.
  - destruct (white_space_width_found s k Hwidth) as (w & rest & Hin & ->).
    rewrite (trimStart_white w rest Hin).
    destruct (IH (String.length rest)) with (s := rest) as (l & Hl & Heq & Hfree).
    + rewrite Hn, length_append.
      destruct (white_space_nonempty w Hin) as (c & w' & ->). cbn [String.length]. lia.
    + reflexivity.
    + exists (w +:+ l). split; [by constructor |]. split; [| exact Hfree].
      rewrite append_assoc_string. by rewrite <- Heq.
Qed.

(** What [trimEnd] drops is white space. *)
Lemma trimEnd_split (s : string) : ∃ r, blank r ∧ s = JSString.trimEnd s +:+ r.
Proof.
  induction s as [| c s (r & Hr & Heq)]; [exists ""; split; [constructor | reflexivity] |].
  cbn [JSString.trimEnd].
  destruct (String.eqb_spec (JSString.trimStart (String c s)) "") as [Hblank | _].
  - exists (String c s). split; [| reflexivity].
    destruct (trimStart_spec (String c s)) as (l & Hl & Hs & _).
    rewrite Hblank, append_nil_r in Hs. by rewrite Hs.
  - exists r. split; [exact Hr |]. rewrite append_cons. by rewrite <- Heq.
Qed.

(** What [trimEnd] leaves does not end with white space. *)
Lemma trimEnd_free (s w x : string) :
  w ∈ JSString.white_space → JSString.trimEnd s ≠ x +:+ w.
Proof.
  intros Hin. destruct (white_space_nonempty w Hin) as (d & w' & Hw).
  assert (Hnil : "" ≠ x +:+ w) by (subst w; by destruct x).
  revert x Hnil. induction s as [| c s IH]; intros x Hnil; [exact Hnil |].
  cbn [JSString.trimEnd].
  destruct (String.eqb_spec (JSString.trimStart (String c s)) "") as [_ | Hkept];
    [exact Hnil |].
  intros Heq. destruct x as [| e x].
  - apply Hkept. destruct (trimEnd_split s) as (r & Hr & Hs).
    assert (Hall : String c s = w +:+ r).
    { change ("" +:+ w) with w in Heq. rewrite <- Heq, append_cons. by rewrite <- Hs. }
    rewrite Hall, (trimStart_white _ _ Hin).
    rewrite <- (append_nil_r r). rewrite (trimStart_blank r "" Hr). reflexivity.
  - rewrite append_cons in Heq. injection Heq as _ Heq.
    apply (IH x); [subst w; by destruct x | exact Heq].
Qed.

(** [trim] removes white space from both ends, and nothing else, until
    neither end is white space. *)
Lemma trim_spec (s : string) :
  ∃ l r, s = l +:+ JSString.trim s +:+ r
         ∧ blank l ∧ blank r
         ∧ ∀ w, w ∈ JSString.white_space →
                String.prefix w (JSString.trim s) = false
                ∧ ∀ x, JSString.trim s ≠ x +:+ w.
Proof.
  unfold JSString.trim.
  destruct (trimStart_spec s) as (l & Hl & Hs & Hfree).
  destruct (trimEnd_split (JSString.trimStart s)) as (r & Hr & Hu).
  exists l, r. split; [by rewrite <- Hu |]. split; [exact Hl |]. split; [exact Hr |].
  intros w Hin. split; [| intros x; by apply trimEnd_free].
  destruct (String.prefix w (JSString.trimEnd (JSString.trimStart s))) eqn:Hpre;
    [| reflexivity].
  apply (prefix_app_l _ _ r) in Hpre. rewrite <- Hu in Hpre.
  by rewrite (Hfree w Hin) in Hpre.
Qed.

Lemma trimStart_drop (s : string) : ∃ k, JSString.trimStart s = JSString.drop k s.
Proof.
  destruct (trimStart_spec s) as (l & _ & Hs & _). exists (String.length l).
  rewrite Hs at 2. by rewrite drop_append.
Qed.

Lemma trimEnd_take (s : string) : ∃ k, JSString.trimEnd s = JSString.take k s.
Proof.
  induction s as [| c s [k IH]]; [by exists 0%nat |].
  cbn [JSString.trimEnd]. destruct (String.eqb _ _); [by exists 0%nat |].
  exists (S k). cbn [JSString.take]. by rewrite <- IH.
Qed.

(** ** Normalisation of the generated text *)

Lemma startMarker_cases (t : string) :
  startMarker t = "<!DOCTYPE html>" ∨ startMarker t = "<html".
Proof. unfold startMarker. destruct (_ =? _); auto. Qed.

Lemma docStart_marker (t : string) : docStart t = JSString.indexOf t (startMarker t).
Proof. unfold docStart, startMarker. by destruct (_ =? _). Qed.

Lemma docStart_found (t : string) (p : nat) :
  docStart t = Z.of_nat p →
  occurs_at (startMarker t) t p ∧ ∀ j, (j < p)%nat → ¬ occurs_at (startMarker t) t j.
Proof.
  rewrite docStart_marker. intros Hp.
  destruct (indexOf_spec (startMarker t) t) as [[Hnone _] | (k & Hk & Hocc & Hfirst)]; [lia |].
  assert (k = p) as -> by lia. auto.
Qed.

Lemma docEnd_found (t : string) (q : nat) :
  docEnd t = Z.of_nat q →
  occurs_at "</html>" t q ∧ ∀ j, (q < j)%nat → ¬ occurs_at "</html>" t j.
Proof.
  unfold docEnd. intros Hq.
  destruct (lastIndexOf_spec "</html>" t) as [[Hnone _] | (k & Hk & Hocc & Hlast)]; [lia |].
  assert (k = q) as -> by lia. auto.
Qed.

(** C6, as the code has it. Let [t] be the generated text with its fences
    removed and then trimmed: the occurrences of the fence with the language
    tag are removed from the text, each with the line feed behind it, then
    the occurrences of the bare fence from what is left, in the same way;
    [t] is what remains between the white space at the beginning and the
    white space at the end, and neither begins nor ends with white space. If
    the start marker or the end marker is absent, [t] is stored unchanged. If
    the first start marker lies at [p], the last end marker at [q], and
    [p ≤ q], the stored body is exactly the part of [t] from position [p] up
    to position [q + 7]: it begins with the start marker, ends with the end
    marker, and [t] is that body between the [p] characters before it and
    the characters from [q + 7] on. *)
Theorem normalize_extracts_the_document (raw : string) :
  let t := stripFences raw in
  (∃ u v l r,
     fence_removed "```html" raw u
     ∧ fence_removed "```" u v
     ∧ v = l +:+ t +:+ r
     ∧ blank l
     ∧ blank r
     ∧ ∀ w, w ∈ JSString.white_space →
            String.prefix w t = false ∧ ∀ x, t ≠ x +:+ w)
  ∧ (docStart t = -1 ∨ docEnd t = -1 → normalize raw = t)
  ∧ (∀ p q : nat,
       docStart t = Z.of_nat p → docEnd t = Z.of_nat q → (p ≤ q)%nat →
       occurs_at (startMarker t) t p
       ∧ (∀ j, (j < p)%nat → ¬ occurs_at (startMarker t) t j)
       ∧ occurs_at "</html>" t q
       ∧ (∀ j, (q < j)%nat → ¬ occurs_at "</html>" t j)
       ∧ normalize raw = JSString.take (q + 7 - p) (JSString.drop p t)
       ∧ t = JSString.take p t +:+ normalize raw +:+ JSString.drop (q + 7) t
       ∧ String.length (JSString.take p t) = p
       ∧ String.length (normalize raw) = (q + 7 - p)%nat
       ∧ String.prefix (startMarker t) (normalize raw) = true
       ∧ JSString.drop (q - p) (normalize raw) = "</html>").
Proof.
  intros t. unfold normalize. fold t. split; [| split].
  - exists (JSString.replace_fence "```html" raw),
      (JSString.replace_fence "```" (JSString.replace_fence "```html" raw)).
    destruct (trim_spec (JSString.replace_fence "```"
                           (JSString.replace_fence "```html" raw)))
      as (l & r & Hsplit & Hl & Hr & Hends).
    exists l, r. split; [by apply replace_fence_removed |].
    split; [by apply replace_fence_removed |].
    split; [exact Hsplit |]. split; [exact Hl |]. split; [exact Hr | exact Hends].
  - unfold extractDocument. intros [-> | ->]; [reflexivity |].
    by rewrite andb_false_r.
  - intros p q Hp Hq Hle.
    destruct (docStart_found t p Hp) as [Hstart Hfirst].
    destruct (docEnd_found t q Hq) as [Hend Hlast].
    pose proof (occurs_at_bound _ _ _ Hend) as Hbound. cbn [String.length] in Hbound.
    pose proof (end_marker_after_start_marker _ t p q (startMarker_cases t) Hstart Hend Hle)
      as Hbehind.
    assert (Hbody : extractDocument t = JSString.take (q + 7 - p) (JSString.drop p t)).
    { unfold extractDocument. rewrite Hp, Hq.
      destruct (Z.eqb_spec (Z.of_nat p) (-1)); [lia |].
      destruct (Z.eqb_spec (Z.of_nat q) (-1)); [lia |]. cbn [negb andb].
      replace (Z.of_nat q + 7) with (Z.of_nat (q + 7)) by lia.
      apply substring_take_drop. lia. }
    rewrite Hbody.
    split; [exact Hstart |]. split; [exact Hfirst |].
    split; [exact Hend |]. split; [exact Hlast |].
    split; [reflexivity |]. repeat split.
    + replace (JSString.drop (q + 7) t)
        with (JSString.drop (q + 7 - p) (JSString.drop p t))
        by (rewrite drop_drop; f_equal; lia).
      by rewrite !take_drop.
    + rewrite length_take. destruct Hstart. lia.
    + rewrite length_take, length_drop. lia.
    + destruct Hstart as [_ Hpre]. apply take_prefix; [exact Hpre | lia].
    + replace (q + 7 - p)%nat with ((q - p) + 7)%nat by lia.
      rewrite drop_take, drop_drop. replace (p + (q - p))%nat with q by lia.
      destruct Hend as [_ Hpre]. exact (prefix_take "</html>" _ Hpre).
Qed.

(** ** The records of a job *)

Lemma writes_to_app (key : string) (ops1 ops2 : list StoreOp) :
  writes_to key (ops1 ++ ops2) = writes_to key ops1 ++ writes_to key ops2.
Proof. apply omap_app. Qed.

Lemma writes_setJobStatus (st : Store) (jobId data : Value) :
  jobKey jobId ∉ faulty st →
  writes_to (jobKey jobId) (log (setJobStatus st jobId data))
  = writes_to (jobKey jobId) (log st) ++ [data].
Proof.
  intros Hok. unfold setJobStatus. rewrite (store_setJSON_ok _ _ _ Hok). cbn [snd log].
  rewrite writes_to_app. f_equal. unfold writes_to. cbn [omap list_omap].
  destruct (decide _); [reflexivity | contradiction].
Qed.

Lemma deletes_keep_writes (key : string) (keys : list string) (st : Store) :
  let st' := foldl (λ acc k, snd (store_delete acc k)) st keys in
  writes_to key (log st') = writes_to key (log st) ∧ faulty st' = faulty st.
Proof.
  revert st. induction keys as [| k keys IH]; intros st; [by split |].
  cbn [foldl]. destruct (IH (snd (store_delete st k))) as [Hw Hf].
  cbv zeta. rewrite Hw, Hf. unfold store_delete. case_decide; [by split |].
  cbn [snd log faulty]. rewrite writes_to_app. cbn. by rewrite app_nil_r.
Qed.

Lemma writes_cleanup (key : string) (st : Store) (sessionId count : Value) :
  writes_to key (log (cleanup st sessionId count)) = writes_to key (log st).
Proof. apply deletes_keep_writes. Qed.

(** A worker run that gets as far as naming its job writes two records under
    the job key: the processing record, then a terminal one, which is either
    the complete record or an error record. *)
Lemma worker_writes (env : Env) (w : World) (jobId sessionId paymentId : Value) :
  truthy jobId = true →
  truthy sessionId = true →
  jobKey jobId ∉ faulty (store w) →
  ∃ terminal,
    writes_to (jobKey jobId)
              (log (store (snd (handler env (workerRequest jobId sessionId paymentId) w))))
    = writes_to (jobKey jobId) (log (store w)) ++ [processing_record env; terminal]
    ∧ ((∃ html, terminal = complete_record env html) ∨ (∃ msg, terminal = job_error msg)).
Proof.
  intros Hjob Hsess Hok. unfold handler, workerRequest.
  cbn [parsed_body prop field lookup_field String.eqb Ascii.eqb Bool.eqb].
  rewrite Hjob, Hsess. cbn [negb orb].
  fold (processing_record env).
  assert (Hok1 : jobKey jobId ∉ faulty (setJobStatus (store w) jobId (processing_record env)))
    by (by rewrite setJobStatus_faulty).
  destruct (verifyPayment _ _ _) as [payment sp1].
  repeat case_match; try (cbn [truthy negb] in *; discriminate); cbn [snd store];
    rewrite ?writes_cleanup, (writes_setJobStatus _ _ _ Hok1), (writes_setJobStatus _ _ _ Hok),
      <- app_assoc;
    eexists; (split; [reflexivity |]);
    first [ right; eexists; reflexivity | left; eexists; reflexivity ].
Qed.

Lemma is_minted_id_nonempty (s : string) : is_minted_id s → s ≠ "".
Proof. intros [Hlen _] ->. discriminate. Qed.

(** C8, as the code has it. Follow one job from the dispatcher, which
    accepts it, through the worker that the dispatcher starts. The records
    written under the job key are, in this order: the queued record with
    [queuedAt], the processing record with [startedAt], and a terminal
    record, which carries [completedAt] when it is the complete record and no
    timestamp when it is an error record. Each timestamp is the reading of
    the clock at its transition, as [Date.parse] reads it back from the text
    stored. Nothing in the code orders those readings: the timestamps
    recorded along the job are non-decreasing exactly when the readings of
    the clock are. *)
Theorem job_timestamps_are_the_clock_readings
        (rt : Runtime) (denv : GenerateReport.Env) (event : GenerateReport.Event)
        (st : Store) (body sessionId meta : Value)
        (env : Env) (sp : Stripe) (requests : list GenerationRequest) :
  GenerateReport.httpMethod event = "POST" →
  GenerateReport.parsed_body event = Ok body →
  prop body "sessionId" = Ok sessionId →
  truthy sessionId = true →
  store_get_json st (toString sessionId +:+ "/meta") = Ok meta →
  truthy meta = true →
  past_expiry denv meta = false →
  is_uuid (GenerateReport.randomUUID denv) = true →
  "job/" +:+ GenerateReport.jobId (GenerateReport.randomUUID denv) ∉ faulty st →
  GenerateReport.runtime denv = rt →
  runtime env = rt →
  Forall (λ t, Date_parse rt (toISOString rt t) = Some t)
         [GenerateReport.queuedAt_now denv; startedAt_now env; completedAt_now env] →
  let key := "job/" +:+ GenerateReport.jobId (GenerateReport.randomUUID denv) in
  let dispatched := GenerateReport.handler denv event st in
  ∃ call terminal,
    snd dispatched = [call]
    ∧ let out := snd (handler env (mkEvent (Ok (GenerateReport.payload call)))
                              (mkWorld (snd (fst dispatched)) sp requests)) in
      writes_to key (log (store out))
      = writes_to key (log st) ++ [queued_record denv; processing_record env; terminal]
      ∧ timestamps rt (queued_record denv) = [GenerateReport.queuedAt_now denv]
      ∧ timestamps rt (processing_record env) = [startedAt_now env]
      ∧ ((∃ html, terminal = complete_record env html
                   ∧ timestamps rt terminal = [completedAt_now env])
         ∨ (∃ msg, terminal = job_error msg ∧ timestamps rt terminal = []))
      ∧ (Sorted Z.le (concat (map (timestamps rt)
                                  [queued_record denv; processing_record env; terminal]))
         ↔ GenerateReport.queuedAt_now denv ≤ startedAt_now env
           ∧ ((∃ html, terminal = complete_record env html) →
              startedAt_now env ≤ completedAt_now env)).
Proof.
  intros Hpost Hbody Hsid Htruthy Hmeta Hmt Hexp Huuid Hok Hrt1 Hrt2 Hparse key dispatched.
  apply Forall_cons in Hparse as [Hparse0 Hparse].
  apply Forall_cons in Hparse as [Hparse1 Hparse].
  apply Forall_cons in Hparse as [Hparse2 _].
  pose proof (dispatch_accepts denv event st body sessionId meta
                Hpost Hbody Hsid Htruthy Hmeta Hmt Hexp Hok) as Haccept.
  subst dispatched. rewrite Haccept. cbn [fst snd].
  set (jobId := GenerateReport.jobId (GenerateReport.randomUUID denv)) in *.
  assert (Hjob : truthy (VStr jobId) = true).
  { apply truthy_VStr, is_minted_id_nonempty. apply (uuid_prefix _ Huuid). }
  set (st1 := mkStore _ _ _).
  destruct (worker_writes env (mkWorld st1 sp requests) (VStr jobId) sessionId
              (field body "paymentIntentId") Hjob Htruthy Hok)
    as (terminal & Hwrites & Hterminal).
  exists (worker_call denv event sessionId (field body "paymentIntentId")), terminal.
  split; [reflexivity |].
  assert (Hq : timestamps rt (queued_record denv) = [GenerateReport.queuedAt_now denv]).
  { unfold timestamps, queued_record. cbn. by rewrite Hrt1, Hparse0. }
  assert (Hp : timestamps rt (processing_record env) = [startedAt_now env]).
  { unfold timestamps, processing_record. cbn. by rewrite Hrt2, Hparse1. }
  assert (Ht : (∃ html, terminal = complete_record env html
                         ∧ timestamps rt terminal = [completedAt_now env])
               ∨ (∃ msg, terminal = job_error msg ∧ timestamps rt terminal = [])).
  { destruct Hterminal as [[html ->] | [msg ->]]; [left | right]; eexists; (split; [reflexivity |]).
    - unfold timestamps, complete_record. cbn. by rewrite Hrt2, Hparse2.
    - reflexivity. }
  split; [| split; [exact Hq | split; [exact Hp | split; [exact Ht |]]]].
  - subst key. change ("job/" +:+ jobId) with (jobKey (VStr jobId)).
    unfold worker_call. cbn [GenerateReport.payload]. fold jobId.
    fold (workerRequest (VStr jobId) sessionId (field body "paymentIntentId")).
    rewrite Hwrites. subst st1. cbn [store log].
    rewrite writes_to_app, <- app_assoc. f_equal.
    unfold writes_to. cbn [omap list_omap].
    destruct (decide _) as [_ | Hne]; [reflexivity | by destruct Hne].
  - cbn [map concat]. rewrite Hq, Hp.
    destruct Ht as [(html & Hcomplete & ->) | (msg & Herror & ->)]; cbn [app].
    + split.
      * intros Hsorted. inversion Hsorted as [| ? ? Hrest Hhead]; subst.
        inversion Hhead; subst.
        inversion Hrest as [| ? ? _ Hhead']; subst. inversion Hhead'; subst.
        split; [done |]. by intros _.
      * intros [H01 H12].
        apply Sorted_cons; [| constructor; exact H01].
        apply Sorted_cons; [| constructor; apply H12; by exists html].
        repeat constructor.
    + split.
      * intros Hsorted. inversion Hsorted as [| ? ? _ Hhead]; subst.
        inversion Hhead; subst. split; [done |].
        intros [html Hcomplete]. unfold job_error, complete_record in Hcomplete.
        discriminate.
      * intros [H01 _]. apply Sorted_cons; [| constructor; exact H01].
        repeat constructor.
Qed.

(** ** The report identifier *)

Lemma upper_base36 (c : ascii) :
  JSString.is_base36 c = true → JSString.is_upper_alnum (JSString.upper c) = true.
Proof.
  destruct c as [[] [] [] [] [] [] [] []]; intros H; try discriminate H; reflexivity.
Qed.

Lemma toUpperCase_base36 (s : string) :
  JSString.forallb JSString.is_base36 s = true →
  JSString.forallb JSString.is_upper_alnum (JSString.toUpperCase s) = true.
Proof.
  induction s as [| c s IH]; [reflexivity |]. cbn [JSString.forallb JSString.toUpperCase].
  intros [Hc Hs]%andb_true_iff. by rewrite (upper_base36 c Hc), IH.
Qed.

Lemma length_toUpperCase (s : string) :
  String.length (JSString.toUpperCase s) = String.length s.
Proof. induction s as [| c s IH]; [reflexivity |]. simpl. by rewrite IH. Qed.

Lemma forallb_take (p : ascii → bool) (n : nat) (s : string) :
  JSString.forallb p s = true → JSString.forallb p (JSString.take n s) = true.
Proof.
  revert s. induction n as [| n IH]; intros [| c s]; try reflexivity.
  cbn [JSString.forallb JSString.take]. intros [Hc Hs]%andb_true_iff.
  by rewrite Hc, IH.
Qed.

(** X26. The identifier is [LL-] followed by as many characters as the draw
    has digits after the radix point, five at most, each an upper-case letter
    or a digit; it matches the pattern when the draw has five digits or more. *)
Lemma reportId_of_fraction (r : string) :
  is_radix36_fraction r = true →
  ∃ tail,
    reportId r = "LL-" +:+ tail
    ∧ String.length tail = Nat.min 5 (String.length r - 2)
    ∧ JSString.forallb JSString.is_upper_alnum tail = true
    ∧ ((7 ≤ String.length r)%nat → matches_report_pattern (reportId r) = true).
Proof.
  intros Hr. unfold reportId.
  change 2 with (Z.of_nat 2). change 7 with (Z.of_nat 7).
  rewrite substring_take_drop by lia. cbn [Nat.sub].
  set (tail := JSString.toUpperCase (JSString.take 5 (JSString.drop 2 r))).
  assert (Hlen : String.length tail = Nat.min 5 (String.length r - 2)).
  { unfold tail. by rewrite length_toUpperCase, length_take, length_drop. }
  assert (Hall : JSString.forallb JSString.is_upper_alnum tail = true).
  { unfold tail. apply toUpperCase_base36, forallb_take.
    unfold is_radix36_fraction in Hr. apply orb_true_iff in Hr as [Hzero | Hfrac].
    - apply String.eqb_eq in Hzero. by subst.
    - by apply andb_true_iff in Hfrac as [_ Hfrac]. }
  exists tail. split; [reflexivity |]. split; [exact Hlen |]. split; [exact Hall |].
  intros Hlong. unfold matches_report_pattern.
  change (JSString.drop 3 ("LL-" +:+ tail)) with tail. rewrite Hall.
  change (String.length ("LL-" +:+ tail)) with (3 + String.length tail)%nat.
  rewrite Hlen. replace (3 + Nat.min 5 (String.length r - 2))%nat with 8%nat by lia.
  change ("LL-" +:+ tail) with (String "L" (String "L" (String "-" tail))).
  cbn [String.prefix]. repeat (destruct (ascii_dec _ _); [| contradiction]).
  by destruct tail.
Qed.

(** C9 on the draw 0.5. Its text in radix 36 is [0.i], so the worker mints
    [LL-I]: one character after the prefix where the pattern asks for
    five. The draw 0, whose text is [0], gives the bare prefix. *)
Theorem reportId_of_a_short_draw :
  is_radix36_fraction "0.i" = true
  ∧ reportId "0.i" = "LL-I"
  ∧ matches_report_pattern (reportId "0.i") = false
  ∧ reportId "0" = "LL-"
  ∧ matches_report_pattern (reportId "0") = false.
Proof. repeat split. Qed.

(** * The properties on the sample data *)

Lemma status_of_terminal_job_witness :
  fst (ReportStatus.handler (ReportStatus.mkEvent "GET" (VStr Sample.jobId)) Sample.jobStore)
  = mkResponse 200 (Some (VObj Sample.completeJob))
  ∧ blobs (snd (ReportStatus.handler (ReportStatus.mkEvent "GET" (VStr Sample.jobId))
                                     Sample.jobStore))
    !! "job/123e4567e89b42d3" = None.
Proof.
  destruct (terminal_records_are_deleted_by_the_status_endpoint
              "GET" Sample.jobId Sample.jobStore Sample.completeJob (VObj [])
              Sample.workerEnv
              (VObj [("jobId", VStr Sample.jobId); ("sessionId", VStr Sample.sessionId)])
              (mkWorld (Sample.sessionStore "2026-01-01T00:00:30.000Z") Sample.provider []))
    as (Hresp & Hterminal & _ & _).
  - discriminate.
  - discriminate.
  - apply not_elem_of_empty.
  - reflexivity.
  - reflexivity.
  - split; [exact Hresp |]. destruct Hterminal as (_ & Hgone & _); [by left | exact Hgone].
Defined.

(** C1 as stated fails. With the bypass flag on, a reference whose marker is
    set is accepted, nothing about it is checked and nothing is marked, so it
    is accepted again. With the flag off, a marked reference whose status is
    not 'succeeded' is refused for its status, not as 'already used'. *)
Lemma bypass_accepts_a_used_reference :
  retrieve Sample.provider (VStr "pi_used") = Ok Sample.usedIntent
  ∧ report_generated Sample.usedIntent = true
  ∧ verifyPayment (VStr "true") (VStr "pi_used") Sample.provider
    = (mkCheck true VUndefined, Sample.provider)
  ∧ retrieve Sample.provider (VStr "pi_void") = Ok Sample.voidIntent
  ∧ report_generated Sample.voidIntent = true
  ∧ verifyPayment VUndefined (VStr "pi_void") Sample.provider
    = (rejected "Payment status: canceled", Sample.provider)
  ∧ rejected "Payment status: canceled" ≠ rejected "Payment already used".
Proof. repeat split. discriminate. Qed.

Lemma payment_reference_witness :
  strict_eq_str VUndefined "true" = false
  ∧ valid (fst (verifyPayment VUndefined (VStr "pi_paid") Sample.provider)) = true
  ∧ fst (verifyPayment VUndefined (VStr "pi_paid")
                       (snd (verifyPayment VUndefined (VStr "pi_paid") Sample.provider)))
    = rejected "Payment already used"
  ∧ fst (verifyPayment VUndefined (VStr "pi_used") Sample.provider)
    = rejected "Payment already used".
Proof.
  split; [reflexivity |].
  destruct (payment_reference_is_used_at_most_once VUndefined (VStr "pi_paid") Sample.provider
              eq_refl) as (_ & Haccepted & _).
  destruct (payment_reference_is_used_at_most_once VUndefined (VStr "pi_used") Sample.provider
              eq_refl) as (Hmarked & _).
  assert (Hvalid : valid (fst (verifyPayment VUndefined (VStr "pi_paid") Sample.provider)) = true)
    by reflexivity.
  split; [exact Hvalid |]. split.
  - destruct (Haccepted Hvalid) as (intent & intent' & _ & _ & _ & _ & _ & Hsecond).
    rewrite Hsecond. reflexivity.
  - destruct (Hmarked Sample.usedIntent eq_refl eq_refl) as (_ & _ & Hwhy).
    apply Hwhy; [reflexivity |].
    split; [reflexivity |]. split; [| reflexivity].
    apply list_elem_of_In. simpl. tauto.
Defined.


(** C5 as stated fails. The session metadata exists, but its [expiresAt]
    (1 January 2024) lies before the instant of the request (1 January 2026):
    the answer is 410, the metadata is deleted, no job record is written and
    no worker is started. *)
Lemma dispatch_refuses_a_session_past_expiry :
  let st := Sample.sessionStore "2024-01-01T00:00:00.000Z" in
  store_get_json st "feedfacefeedface/meta" = Ok (Sample.meta "2024-01-01T00:00:00.000Z")
  ∧ GenerateReport.handler Sample.dispatchEnv Sample.dispatchEvent st
    = (GenerateReport.sessionExpired session_past_expiry,
       mkStore (delete "feedfacefeedface/meta" (blobs st)) ∅
               [OpDelete "feedfacefeedface/meta"],
       [])
  ∧ statusCode (fst (fst (GenerateReport.handler Sample.dispatchEnv Sample.dispatchEvent st)))
    = 410
  ∧ blobs (snd (fst (GenerateReport.handler Sample.dispatchEnv Sample.dispatchEvent st)))
    !! "job/123e4567e89b42d3" = None.
Proof. repeat split. Qed.

Lemma dispatch_witness :
  let st := Sample.sessionStore "2026-01-01T00:00:30.000Z" in
  let out := GenerateReport.handler Sample.dispatchEnv Sample.dispatchEvent st in
  statusCode (fst (fst out)) = 202
  ∧ blobs (snd (fst out)) !! "job/123e4567e89b42d3"
    = Some (mkEntry (Json (VObj [("status", VStr "queued");
                                 ("queuedAt", VStr "2026-01-01T00:00:00.000Z")]))
                    (VObj []))
  ∧ GenerateReport.payload <$> snd out
    = [VObj [("jobId", VStr "123e4567e89b42d3");
             ("sessionId", VStr "feedfacefeedface");
             ("paymentIntentId", VStr "pi_paid")]].
Proof.
  intros st out.
  destruct (dispatch_requires_a_live_session
              Sample.dispatchEnv Sample.dispatchEvent st
              (VObj [("sessionId", VStr Sample.sessionId); ("paymentIntentId", VStr "pi_paid")])
              (VStr Sample.sessionId) eq_refl eq_refl eq_refl eq_refl)
    as [_ Hlive].
  destruct (Hlive (Sample.meta "2026-01-01T00:00:30.000Z") eq_refl eq_refl) as [_ Haccept].
  subst out. rewrite (Haccept eq_refl ltac:(apply not_elem_of_empty)).
  repeat split.
Defined.

(** C6 as stated fails. The text [</html>xx<html] has its first start marker
    at position 9 and its last end marker at position 0; the worker stores
    [xx], the text between the two, which is not the part of the text from
    position 9 up to position 7 (there is none), and neither begins with the
    start marker nor ends with the end marker. *)
Lemma normalize_with_markers_out_of_order :
  let raw := "</html>xx<html" in
  stripFences raw = raw
  ∧ docStart raw = 9
  ∧ docEnd raw = 0
  ∧ normalize raw = "xx"
  ∧ String.prefix "<html" (normalize raw) = false
  ∧ ¬ ∃ before after,
        raw = before +:+ normalize raw +:+ after
        ∧ Z.of_nat (String.length before) = docStart raw
        ∧ Z.of_nat (String.length (before +:+ normalize raw)) = docEnd raw + 7.
Proof.
  cbv zeta. repeat split; try reflexivity.
  intros (before & after & _ & Hbefore & Hend).
  rewrite length_append in Hend.
  change (docStart "</html>xx<html") with 9 in Hbefore.
  change (docEnd "</html>xx<html") with 0 in Hend.
  change (String.length (normalize "</html>xx<html")) with 2%nat in Hend. lia.
Qed.

Lemma normalize_witness :
  stripFences Sample.fenced = Sample.generated
  ∧ normalize Sample.fenced = "<!DOCTYPE html><html>ok</html>"
  ∧ stripFences Sample.fenced
    = "Here is your report: " +:+ normalize Sample.fenced +:+ " Enjoy!"
  ∧ ∃ u v l r,
      fence_removed "```html" Sample.fenced u
      ∧ fence_removed "```" u v
      ∧ v = l +:+ Sample.generated +:+ r
      ∧ blank l
      ∧ blank r.
Proof.
  destruct (normalize_extracts_the_document Sample.fenced) as (Hstripped & _ & Hfound).
  destruct (Hfound 21%nat 44%nat eq_refl eq_refl ltac:(lia))
    as (_ & _ & _ & _ & Hbody & Hsplit & _).
  split; [reflexivity |]. split; [rewrite Hbody; reflexivity |].
  split; [rewrite Hsplit at 1; reflexivity |].
  destruct Hstripped as (u & v & l & r & Hu & Hv & Heq & Hl & Hr & _).
  exists u, v, l, r. by repeat split.
Defined.

Lemma rate_limit_witness :
  let fresh := mkRedis ∅ true [] in
  fst (checkRateLimit fresh 1000 "203.0.113.7") = Ok (mkRateLimit true 1 99)
  ∧ commands (snd (checkRateLimit fresh 1000 "203.0.113.7"))
    = [CmdINCR "ratelimit:203.0.113.7"; CmdEXPIRE "ratelimit:203.0.113.7" 3600]
  ∧ serve fresh "203.0.113.7" (1000 :: repeat 2000 100) !! 100%nat
    = Some (Ok (mkRateLimit false 101 0)).
Proof.
  intros fresh.
  destruct (rate_limit_counts_every_request fresh 1000 "203.0.113.7" 0 None
              eq_refl eq_refl eq_refl) as (Hstep & Hwindow & _).
  rewrite Hstep. split; [reflexivity |]. split; [reflexivity |].
  destruct (Hwindow (repeat 2000 100) eq_refl eq_refl) as (_ & _ & Hover).
  - apply Forall_forall. intros t Ht%list_elem_of_In%repeat_spec. subst. reflexivity.
  - apply Hover. vm_compute. lia.
Defined.

(** C8 as stated fails. The dispatcher and the worker each read the clock
    when they write: here the dispatcher reads 00:00:30 for [queuedAt], the
    worker 00:00:01 for [startedAt] and 00:00:30 for [completedAt]. The three
    records are written with those readings, and [startedAt] lies before
    [queuedAt]. *)
Lemma job_timestamps_follow_a_clock_that_steps_back :
  let st := Sample.sessionStore "2026-01-01T00:00:30.000Z" in
  let dispatched := GenerateReport.handler Scenario.aheadEnv Sample.dispatchEvent st in
  let call := worker_call Scenario.aheadEnv Sample.dispatchEvent
                          (VStr Sample.sessionId) (VStr "pi_paid") in
  let out := snd (handler Sample.workerEnv
                          (mkEvent (Ok (GenerateReport.payload call)))
                          (mkWorld (snd (fst dispatched)) Sample.provider [])) in
  let records := writes_to "job/123e4567e89b42d3" (log (store out)) in
  snd dispatched = [call]
  ∧ records
    = [VObj [("status", VStr "queued"); ("queuedAt", VStr "2026-01-01T00:00:30.000Z")];
       VObj [("status", VStr "processing"); ("startedAt", VStr "2026-01-01T00:00:01.000Z")];
       VObj Sample.completeJob]
  ∧ concat (map (timestamps Sample.rt) records)
    = [1767225630000; 1767225601000; 1767225630000]
  ∧ ¬ Sorted Z.le (concat (map (timestamps Sample.rt) records)).
Proof.
  cbv zeta. split; [reflexivity |]. split; [reflexivity |]. split; [reflexivity |].
  intros Hsorted.
  change (Sorted Z.le [1767225630000; 1767225601000; 1767225630000]) in Hsorted.
  inversion Hsorted as [| ? ? _ Hhead]; subst. inversion Hhead; subst. lia.
Qed.

Lemma job_timestamps_witness :
  let st := Sample.sessionStore "2026-01-01T00:00:30.000Z" in
  let dispatched := GenerateReport.handler Sample.dispatchEnv Sample.dispatchEvent st in
  ∃ call terminal,
    snd dispatched = [call]
    ∧ writes_to "job/123e4567e89b42d3"
        (log (store (snd (handler Sample.workerEnv
                                  (mkEvent (Ok (GenerateReport.payload call)))
                                  (mkWorld (snd (fst dispatched)) Sample.provider [])))))
      = [VObj [("status", VStr "queued"); ("queuedAt", VStr "2026-01-01T00:00:00.000Z")];
         VObj [("status", VStr "processing"); ("startedAt", VStr "2026-01-01T00:00:01.000Z")];
         terminal]
    ∧ Sorted Z.le (concat (map (timestamps Sample.rt)
                               [queued_record Sample.dispatchEnv;
                                processing_record Sample.workerEnv; terminal])).
Proof.
  intros st dispatched.
  destruct (job_timestamps_are_the_clock_readings
              Sample.rt Sample.dispatchEnv Sample.dispatchEvent st
              (VObj [("sessionId", VStr Sample.sessionId); ("paymentIntentId", VStr "pi_paid")])
              (VStr Sample.sessionId) (Sample.meta "2026-01-01T00:00:30.000Z")
              Sample.workerEnv Sample.provider [])
    as (call & terminal & Hcall & Hwrites & _ & _ & _ & Hsorted);
    try reflexivity.
  - apply not_elem_of_empty.
  - repeat constructor.
  - exists call, terminal. split; [exact Hcall |]. split; [exact Hwrites |].
    apply Hsorted. split; [discriminate |]. intros _. discriminate.
Defined.

Lemma minted_identifiers_witness :
  is_uuid Sample.uuid = true
  ∧ UploadScreenshots.sessionId Sample.uuid = "123e4567e89b42d3"
  ∧ GenerateReport.jobId Sample.uuid = Sample.jobId
  ∧ String.length (GenerateReport.jobId Sample.uuid) = 16%nat
  ∧ "job/" +:+ GenerateReport.jobId Sample.uuid
    ≠ UploadScreenshots.sessionId Sample.uuid +:+ "/meta"
  ∧ GenerateReport.jobId Sample.uuid = "123e4567" +:+ "e89b" +:+ "42d3".
Proof.
  destruct (minted_identifiers_are_sixteen_hex_digits Sample.uuid Sample.uuid eq_refl eq_refl)
    as (_ & [Hlen _] & _ & Hmeta & _ & _ & _ & _ & Hdigits & _).
  split; [reflexivity |]. split; [reflexivity |]. split; [reflexivity |].
  split; [exact Hlen |]. split; [exact Hmeta |]. rewrite Hdigits. reflexivity.
Defined.

(** * Further properties of the handlers *)

(** ** The status endpoint *)

Lemma strict_eq_str_true (v : Value) (lit : string) :
  strict_eq_str v lit = true → v = VStr lit.
Proof.
  destruct v; try discriminate. simpl. by intros ->%String.eqb_eq.
Qed.

(** X1. A terminal record is delivered once: the poll that returns a
    'complete' or 'error' record (the blob that the job key names) removes
    it, and the next poll of the same job is answered with
    [{status: 'processing'}], the store staying as the first poll left it. *)
Theorem terminal_record_is_delivered_once
        (method jobId : string) (st : Store) (fields : list (string * Value)) (md : Value) :
  method ≠ "OPTIONS" →
  jobId ≠ "" →
  "job/" +:+ jobId ∉ faulty st →
  blobs st !! blobName ("job/" +:+ jobId) = Some (mkEntry (Json (VObj fields)) md) →
  lookup_field "status" fields = VStr "complete"
  ∨ lookup_field "status" fields = VStr "error" →
  let poll := ReportStatus.handler (ReportStatus.mkEvent method (VStr jobId)) in
  fst (poll st) = mkResponse 200 (Some (VObj fields))
  ∧ poll (snd (poll st)) = (mkResponse 200 (Some processing_body), snd (poll st)).
Proof.
  intros Hm Hj Hok Hsome Hstatus poll. subst poll.
  rewrite (status_of_existing_job _ _ _ _ _ Hm Hj Hok Hsome).
  assert (Hterminal : strict_eq_str (lookup_field "status" fields) "complete"
                      || strict_eq_str (lookup_field "status" fields) "error" = true)
    by (destruct Hstatus as [-> | ->]; reflexivity).
  rewrite Hterminal. cbn [fst snd]. split; [reflexivity |].
  unfold ReportStatus.handler. cbn [ReportStatus.httpMethod ReportStatus.jobId].
  rewrite (eqb_false_of_ne _ _ Hm), (truthy_VStr _ Hj). cbn [negb toString].
  unfold store_get_json. cbn [faulty blobs].
  destruct (decide _) as [| _]; [contradiction |].
  by rewrite lookup_delete_eq.
Qed.

(** X2. The status endpoint never writes. It leaves the store as it is,
    except when it answers 200 with a record whose status is 'complete' or
    'error': then the one change is the removal of the key of the job that
    was polled, and with it of the blob that the key names. *)
Theorem status_endpoint_only_removes_the_polled_job
        (event : ReportStatus.Event) (st : Store) :
  let out := ReportStatus.handler event st in
  let key := "job/" +:+ toString (ReportStatus.jobId event) in
  snd out = st
  ∨ ∃ job,
      fst out = mkResponse 200 (Some job)
      ∧ (field job "status" = VStr "complete" ∨ field job "status" = VStr "error")
      ∧ store_get_json st key = Ok job
      ∧ snd out = mkStore (delete (blobName key) (blobs st)) (faulty st)
                          (log st ++ [OpDelete key]).
Proof.
  intros out key. subst out. unfold ReportStatus.handler.
  destruct (String.eqb _ "OPTIONS"); [by left |].
  destruct (truthy (ReportStatus.jobId event)); [| by left]. cbn [negb]. fold key.
  destruct (store_get_json st key) as [job |] eqn:Hget; [| by left].
  destruct (truthy job); [| by left]. cbn [negb snd fst].
  destruct (strict_eq_str (field job "status") "complete") eqn:Hc;
    [| destruct (strict_eq_str (field job "status") "error") eqn:He; [| by left]];
    cbn [orb].
  all: unfold store_delete; destruct (decide (key ∈ faulty st)); [by left |].
  all: right; exists job; cbn [snd].
  - apply strict_eq_str_true in Hc. auto.
  - apply strict_eq_str_true in He. auto.
Qed.

(** ** The outcomes of a worker run *)

Lemma deletes_faulty (keys : list string) (st : Store) :
  faulty (foldl (λ acc k, snd (store_delete acc k)) st keys) = faulty st.
Proof. apply (deletes_keep_writes "" keys st). Qed.

Lemma deletes_lookup_other (keys : list string) (st : Store) (name : string) :
  (∀ key, key ∈ keys → blobName key ≠ name) →
  blobs (foldl (λ acc k, snd (store_delete acc k)) st keys) !! name = blobs st !! name.
Proof.
  revert st. induction keys as [| k keys IH]; intros st Hnot; [reflexivity |].
  cbn [foldl]. rewrite IH by (intros key Hin; apply Hnot; by right).
  unfold store_delete. case_decide; [reflexivity |].
  cbn [snd blobs]. rewrite lookup_delete_ne; [reflexivity |]. apply Hnot. by left.
Qed.

Lemma deletes_lookup_absent (keys : list string) (st : Store) (name : string) :
  blobs st !! name = None →
  blobs (foldl (λ acc k, snd (store_delete acc k)) st keys) !! name = None.
Proof.
  revert st. induction keys as [| k keys IH]; intros st Hnone; [exact Hnone |].
  cbn [foldl]. apply IH. unfold store_delete. case_decide; [exact Hnone |].
  cbn [snd blobs]. destruct (decide (name = blobName k)) as [-> | Hne].
  - apply lookup_delete_eq.
  - by rewrite lookup_delete_ne.
Qed.

Lemma deletes_lookup_deleted (keys : list string) (st : Store) (key : string) :
  key ∈ keys →
  key ∉ faulty st →
  blobs (foldl (λ acc k, snd (store_delete acc k)) st keys) !! blobName key = None.
Proof.
  revert st. induction keys as [| k keys IH]; intros st Hin Hok; [by apply elem_of_nil in Hin |].
  cbn [foldl]. apply elem_of_cons in Hin as [<- | Hin].
  - apply deletes_lookup_absent. rewrite (store_delete_ok _ _ Hok).
    cbn [snd blobs]. apply lookup_delete_eq.
  - apply IH; [done |]. unfold store_delete. by case_decide.
Qed.

(** The clean-up of a session whose metadata key does not name the record
    of the job leaves that record. *)
Lemma cleanup_keeps_the_job (j : string) (st : Store) (sessionId count : Value) :
  is_minted_id j →
  blobName (metaKey sessionId) ≠ jobKey (VStr j) →
  blobs (cleanup st sessionId count) !! jobKey (VStr j) = blobs st !! jobKey (VStr j).
Proof.
  intros Hminted Hne. apply deletes_lookup_other. intros key Hin.
  apply elem_of_app in Hin as [Hin | Hin].
  - apply list_elem_of_fmap in Hin as (i & -> & _).
    intros Heq. apply Hne. by apply (session_keys_alias j (toString sessionId) i).
  - by apply list_elem_of_singleton in Hin as ->.
Qed.

Lemma setJobStatus_lookup_other (st : Store) (jobId data : Value) (name : string) :
  name ≠ blobName (jobKey jobId) →
  blobs (setJobStatus st jobId data) !! name = blobs st !! name.
Proof.
  intros Hne. unfold setJobStatus, store_setJSON. case_decide; [reflexivity |].
  cbn [snd blobs]. by rewrite lookup_insert_ne.
Qed.

(** For a minted job identifier the job key is the name of the record. *)
Lemma setJobStatus_lookup_minted (st : Store) (j : string) (data : Value) :
  is_minted_id j →
  jobKey (VStr j) ∉ faulty st →
  blobs (setJobStatus st (VStr j) data) !! jobKey (VStr j)
  = Some (mkEntry (Json data) (VObj [])).
Proof.
  intros Hminted Hok.
  assert (Hname : blobName (jobKey (VStr j)) = jobKey (VStr j))
    by apply (blobName_job j Hminted).
  rewrite <- Hname. by apply setJobStatus_lookup.
Qed.

Lemma setJobStatus_lookup_other_minted (st : Store) (j : string) (data : Value) (name : string) :
  is_minted_id j →
  name ≠ jobKey (VStr j) →
  blobs (setJobStatus st (VStr j) data) !! name = blobs st !! name.
Proof.
  intros Hminted Hne. apply setJobStatus_lookup_other.
  assert (Hname : blobName (jobKey (VStr j)) = jobKey (VStr j))
    by apply (blobName_job j Hminted).
  by rewrite Hname.
Qed.

(** A run that was given both identifiers ends in one of two ways: an error
    record is written over the processing record, or the complete record is
    written and the session is cleaned up. *)
Lemma worker_outcome (env : Env) (w : World) (jobId sessionId paymentId : Value) :
  truthy jobId = true →
  truthy sessionId = true →
  let out := snd (handler env (workerRequest jobId sessionId paymentId) w) in
  let payment := verifyPayment (BETA_MODE env) paymentId (stripe w) in
  stripe out = snd payment
  ∧ ((∃ msg, store out = setJobStatus (started env w jobId) jobId (job_error msg))
     ∨ (∃ html meta,
          valid (fst payment) = true
          ∧ store_get_json (started env w jobId) (metaKey sessionId) = Ok meta
          ∧ includes_str VALID_CATEGORIES (field meta "category") = true
          ∧ store out
            = cleanup (setJobStatus (started env w jobId) jobId (complete_record env html))
                      sessionId (field meta "screenshotCount"))).
Proof.
  intros Hj Hs out payment. subst out payment.
  unfold handler, workerRequest. cbn [parsed_body prop field lookup_field String.eqb Ascii.eqb Bool.eqb].
  rewrite Hj, Hs. cbn [negb orb]. fold (started env w jobId).
  destruct (verifyPayment _ _ _) as [payment sp1]. cbn [fst snd].
  destruct (valid payment) eqn:Hvalid; cbn [negb];
    [| split; [reflexivity | left; eexists; reflexivity]].
  destruct (store_get_json (started env w jobId) (metaKey sessionId)) as [meta |] eqn:Hmeta;
    [| split; [reflexivity | left; eexists; reflexivity]].
  destruct (truthy meta); cbn [negb];
    [| split; [reflexivity | left; eexists; reflexivity]].
  destruct (includes_str VALID_CATEGORIES (field meta "category")) eqn:Hcat; cbn [negb];
    [| split; [reflexivity | left; eexists; reflexivity]].
  repeat (case_match; cbn [snd stripe store]);
    try (split; [reflexivity | left; eexists; reflexivity]).
  split; [reflexivity |]. right. eexists _, meta. split; [reflexivity |].
  split; [reflexivity |]. split; [exact Hcat | reflexivity].
Qed.

(** The metadata of a session with a valid category is not read from the
    record of the job: that record, once the run has begun, is the
    processing record, which has no category. *)
Lemma session_read_is_not_the_job
      (env : Env) (w : World) (j : string) (sessionId meta : Value) :
  is_minted_id j →
  jobKey (VStr j) ∉ faulty (store w) →
  store_get_json (started env w (VStr j)) (metaKey sessionId) = Ok meta →
  includes_str VALID_CATEGORIES (field meta "category") = true →
  blobName (metaKey sessionId) ≠ jobKey (VStr j).
Proof.
  intros Hminted Hok Hread Hcat Heq.
  unfold store_get_json in Hread. destruct (decide _) as [| _]; [discriminate |].
  unfold started in Hread.
  rewrite Heq, (setJobStatus_lookup_minted _ _ _ Hminted Hok) in Hread.
  cbn [body] in Hread. injection Hread as <-. discriminate Hcat.
Qed.

(** X3. A run for a minted job identifier whose job key can be written never
    leaves the job in 'processing': when the handler returns, the store holds
    under the job key a record whose status is 'complete' or 'error'. *)
Theorem worker_run_ends_in_a_terminal_record
        (env : Env) (w : World) (j : string) (sessionId paymentId : Value) :
  is_minted_id j →
  truthy sessionId = true →
  jobKey (VStr j) ∉ faulty (store w) →
  ∃ terminal,
    blobs (store (snd (handler env (workerRequest (VStr j) sessionId paymentId) w)))
      !! jobKey (VStr j)
    = Some (mkEntry (Json terminal) (VObj []))
    ∧ (field terminal "status" = VStr "complete" ∨ field terminal "status" = VStr "error").
Proof.
  intros Hminted Hs Hok.
  assert (Hj : truthy (VStr j) = true) by (apply truthy_VStr, is_minted_id_nonempty, Hminted).
  assert (Hok1 : jobKey (VStr j) ∉ faulty (started env w (VStr j)))
    by (unfold started; by rewrite setJobStatus_faulty).
  destruct (worker_outcome env w (VStr j) sessionId paymentId Hj Hs)
    as (_ & [(msg & ->) | (html & meta & _ & Hread & Hcat & ->)]).
  - exists (job_error msg). split; [by apply setJobStatus_lookup_minted | by right].
  - exists (complete_record env html).
    rewrite (cleanup_keeps_the_job _ _ _ _ Hminted
               (session_read_is_not_the_job _ _ _ _ _ Hminted Hok Hread Hcat)).
    split; [by apply setJobStatus_lookup_minted | by left].
Qed.

(** X4. The session is cleaned up only after a report was stored. When a run
    for a minted job identifier ends with an error record, every blob of the
    store other than the job record holds what it held before the run: the
    screenshots and the session metadata are left in place. *)
Theorem failed_run_leaves_the_session
        (env : Env) (w : World) (j : string) (sessionId paymentId : Value)
        (terminal md : Value) :
  is_minted_id j →
  truthy sessionId = true →
  jobKey (VStr j) ∉ faulty (store w) →
  let out := snd (handler env (workerRequest (VStr j) sessionId paymentId) w) in
  blobs (store out) !! jobKey (VStr j) = Some (mkEntry (Json terminal) md) →
  field terminal "status" = VStr "error" →
  ∀ name, name ≠ jobKey (VStr j) → blobs (store out) !! name = blobs (store w) !! name.
Proof.
  intros Hminted Hs Hok out Hrec Hstatus name Hname. subst out.
  assert (Hj : truthy (VStr j) = true) by (apply truthy_VStr, is_minted_id_nonempty, Hminted).
  assert (Hok1 : jobKey (VStr j) ∉ faulty (started env w (VStr j)))
    by (unfold started; by rewrite setJobStatus_faulty).
  destruct (worker_outcome env w (VStr j) sessionId paymentId Hj Hs)
    as (_ & [(msg & Hout) | (html & meta & _ & Hread & Hcat & Hout)]); rewrite Hout in *.
  - unfold started. by rewrite !setJobStatus_lookup_other_minted.
  - rewrite (cleanup_keeps_the_job _ _ _ _ Hminted
               (session_read_is_not_the_job _ _ _ _ _ Hminted Hok Hread Hcat)),
      (setJobStatus_lookup_minted _ _ _ Hminted Hok1) in Hrec.
    inversion Hrec; subst terminal. discriminate.
Qed.

(** X5. A completed run removes the session. When the store answers on every
    key and a run for a minted job identifier ends with a complete record,
    the store no longer holds the session metadata nor any of the screenshots
    numbered below the count that the metadata gave: the keys of the session
    name no blob. *)
Theorem completed_run_removes_the_session
        (env : Env) (w : World) (j : string) (sessionId paymentId : Value)
        (meta md terminal md' : Value) :
  is_minted_id j →
  truthy sessionId = true →
  faulty (store w) = ∅ →
  blobs (store w) !! blobName (metaKey sessionId) = Some (mkEntry (Json meta) md) →
  let out := snd (handler env (workerRequest (VStr j) sessionId paymentId) w) in
  blobs (store out) !! jobKey (VStr j) = Some (mkEntry (Json terminal) md') →
  field terminal "status" = VStr "complete" →
  blobs (store out) !! blobName (metaKey sessionId) = None
  ∧ ∀ i, (i < iterations (field meta "screenshotCount"))%nat →
         blobs (store out) !! blobName (screenshotKey sessionId i) = None.
Proof.
  intros Hminted Hs Hfaulty Hmeta out Hrec Hstatus. subst out.
  assert (Hj : truthy (VStr j) = true) by (apply truthy_VStr, is_minted_id_nonempty, Hminted).
  assert (Hf1 : faulty (started env w (VStr j)) = ∅)
    by (unfold started; by rewrite setJobStatus_faulty).
  assert (Hok1 : jobKey (VStr j) ∉ faulty (started env w (VStr j)))
    by (rewrite Hf1; set_solver).
  assert (Hok : jobKey (VStr j) ∉ faulty (store w)) by (rewrite Hfaulty; set_solver).
  destruct (worker_outcome env w (VStr j) sessionId paymentId Hj Hs)
    as (_ & [(msg & Hout) | (html & meta' & _ & Hread & Hcat & Hout)]); rewrite Hout in *.
  - rewrite (setJobStatus_lookup_minted _ _ _ Hminted Hok1) in Hrec.
    inversion Hrec; subst terminal. discriminate.
  - pose proof (session_read_is_not_the_job _ _ _ _ _ Hminted Hok Hread Hcat) as Hne.
    assert (meta' = meta) as ->.
    { unfold store_get_json in Hread. rewrite Hf1 in Hread.
      destruct (decide _) as [Hin | _]; [set_solver |].
      unfold started in Hread.
      rewrite (setJobStatus_lookup_other_minted _ _ _ _ Hminted Hne), Hmeta in Hread.
      by inversion Hread. }
    assert (Hreach : ∀ key, key ∉ faulty (setJobStatus (started env w (VStr j)) (VStr j)
                                                        (complete_record env html))).
    { intros key. rewrite setJobStatus_faulty, Hf1. set_solver. }
    split.
    + apply deletes_lookup_deleted; [| apply Hreach].
      apply elem_of_app. right. by apply list_elem_of_singleton.
    + intros i Hi. apply deletes_lookup_deleted; [| apply Hreach].
      apply elem_of_app. left. apply list_elem_of_fmap. exists i. split; [reflexivity |].
      apply elem_of_seq. lia.
Qed.

(** X6. The payment is spent before the session is looked at. When payment is
    not bypassed and the reference is accepted, but the session metadata is
    no longer in the store (the metadata key names no blob), the job ends
    with an error and the reference carries the marker: offered again, it is
    refused as already used. The error is 'Session expired', unless the
    metadata key names the record of the job and answers: then the worker
    reads the processing record that it has written as the metadata, and
    the error is 'Invalid category'. *)
Theorem payment_is_spent_on_an_expired_session
        (env : Env) (w : World) (j : string) (sessionId paymentId : Value) :
  strict_eq_str (BETA_MODE env) "true" = false →
  is_minted_id j →
  truthy sessionId = true →
  jobKey (VStr j) ∉ faulty (store w) →
  valid (fst (verifyPayment (BETA_MODE env) paymentId (stripe w))) = true →
  blobs (store w) !! blobName (metaKey sessionId) = None →
  let out := snd (handler env (workerRequest (VStr j) sessionId paymentId) w) in
  let reads_the_job := blobName (metaKey sessionId) = jobKey (VStr j)
                       ∧ metaKey sessionId ∉ faulty (store w) in
  (¬ reads_the_job →
   blobs (store out) !! jobKey (VStr j)
   = Some (mkEntry (Json (job_error "Session expired — please re-upload.")) (VObj [])))
  ∧ (reads_the_job →
     blobs (store out) !! jobKey (VStr j)
     = Some (mkEntry (Json (job_error "Invalid category")) (VObj [])))
  ∧ fst (verifyPayment (BETA_MODE env) paymentId (stripe out)) = rejected "Payment already used".
Proof.
  intros Hbeta Hminted Hs Hok Hvalid Hnone out reads_the_job. subst out reads_the_job.
  assert (Hj : truthy (VStr j) = true) by (apply truthy_VStr, is_minted_id_nonempty, Hminted).
  assert (Hok1 : jobKey (VStr j) ∉ faulty (started env w (VStr j)))
    by (unfold started; by rewrite setJobStatus_faulty).
  destruct (verifyPayment_accepted _ _ _ Hbeta Hvalid) as (intent & intent' & _ & _ & _ & _ & _ & Hagain).
  unfold handler, workerRequest.
  cbn [parsed_body prop field lookup_field String.eqb Ascii.eqb Bool.eqb].
  rewrite Hj, Hs. cbn [negb orb]. fold (started env w (VStr j)).
  destruct (verifyPayment _ _ _) as [payment sp1] eqn:Hvp. cbn [fst snd] in *.
  rewrite Hvalid. cbn [negb].
  destruct (decide (blobName (metaKey sessionId) = jobKey (VStr j)
                    ∧ metaKey sessionId ∉ faulty (store w))) as [[Heq Hanswers] | Hnot].
  - assert (Hread : store_get_json (started env w (VStr j)) (metaKey sessionId)
                    = Ok (processing_record env)).
    { apply (store_get_json_present _ _ _ (VObj []));
        [unfold started; by rewrite setJobStatus_faulty |].
      unfold started. by rewrite Heq, (setJobStatus_lookup_minted _ _ _ Hminted Hok). }
    rewrite Hread.
    change (truthy (processing_record env)) with true.
    change (includes_str VALID_CATEGORIES (field (processing_record env) "category"))
      with false.
    cbn [negb snd store stripe].
    split; [intros Hno; by destruct Hno |].
    split; [intros _; by apply setJobStatus_lookup_minted | by rewrite Hagain].
  - assert (Hmeta : match store_get_json (started env w (VStr j)) (metaKey sessionId) with
                    | Ok v => v
                    | Throw _ => VNull
                    end = VNull).
    { destruct (decide (metaKey sessionId ∈ faulty (store w))) as [Hfaulty | Hanswers].
      - assert (Hfaulty1 : metaKey sessionId ∈ faulty (started env w (VStr j)))
          by (unfold started; by rewrite setJobStatus_faulty).
        unfold store_get_json. by destruct (decide _).
      - assert (Hne : blobName (metaKey sessionId) ≠ jobKey (VStr j))
          by (intros Heq; by apply Hnot).
        assert (Hnone1 : blobs (started env w (VStr j)) !! blobName (metaKey sessionId) = None).
        { unfold started. by rewrite setJobStatus_lookup_other_minted. }
        by destruct (store_get_json_absent _ _ Hnone1) as [-> | [msg ->]]. }
    rewrite Hmeta. cbn [negb truthy snd store stripe].
    split; [intros _; by apply setJobStatus_lookup_minted |].
    split; [intros Hyes; by destruct Hnot | by rewrite Hagain].
Qed.

(** A metadata key that names the record of the job: the session
    identifier [job/123e4567e89b42d3?] ends the path of each of its keys
    where the key of the job ends. The worker reads the processing record
    that it has just written as the metadata of the session, and the job
    ends with 'Invalid category'. *)
Remark session_key_can_name_the_job_record :
  let sessionId := VStr "job/123e4567e89b42d3?" in
  let out := snd (handler Scenario.paidEnv
                          (workerRequest (VStr Sample.jobId) sessionId (VStr "pi_paid"))
                          Scenario.emptyWorld) in
  blobName (metaKey sessionId) = jobKey (VStr Sample.jobId)
  ∧ blobs (store Scenario.emptyWorld) !! blobName (metaKey sessionId) = None
  ∧ blobs (store out) !! jobKey (VStr Sample.jobId)
    = Some (mkEntry (Json (job_error "Invalid category")) (VObj [])).
Proof. repeat split. Qed.

(** X7. A request that does not carry both a job identifier and a session
    identifier is dropped: the answer is 202 as for every request, and
    neither the store nor the payment provider nor the generation service is
    touched. This covers a body that is not JSON and the body [null]. *)
Theorem worker_drops_a_request_without_identifiers
        (env : Env) (event : Event) (w : World) :
  (∀ body, parsed_body event = Ok body →
           truthy (field body "jobId") && truthy (field body "sessionId") = false) →
  handler env event w = (mkResponse 202 None, w).
Proof.
  intros Hids. unfold handler.
  destruct (parsed_body event) as [body |]; [| reflexivity].
  specialize (Hids body eq_refl).
  destruct (prop body "jobId") as [jobId |] eqn:Hprop; [| reflexivity].
  assert (jobId = field body "jobId") as ->.
  { destruct body; simpl in Hprop; try discriminate; by inversion Hprop. }
  by destruct (truthy (field body "jobId")), (truthy (field body "sessionId")).
Qed.

(** ** What payment verification changes *)

Lemma insert_union_same (m : gmap string string) (k v : string) :
  <[k := v]> m ∪ m = <[k := v]> m.
Proof. by rewrite <- insert_union_l, (idemp_L (∪) m). Qed.

(** X8. Payment verification changes nothing at the provider but the marker
    of the reference it accepts. A refusal leaves the provider as it was; in
    every case each stored intent is either untouched or is the intent of
    the reference, with its status, amount and currency as before and its
    metadata extended by [report_generated = 'true']. *)
Theorem verifyPayment_changes_only_the_marker (beta id : Value) (sp : Stripe) :
  let out := verifyPayment beta id sp in
  (valid (fst out) = false → snd out = sp)
  ∧ api_error (snd out) = api_error sp
  ∧ locked (snd out) = locked sp
  ∧ ∀ s, intents (snd out) !! s = intents sp !! s
         ∨ ∃ before,
             id = VStr s
             ∧ intents sp !! s = Some before
             ∧ intents (snd out) !! s
               = Some (mkIntent (pi_status before) (pi_amount before) (pi_currency before)
                         (Some (<["report_generated" := "true"]>
                                  (default ∅ (pi_metadata before))))).
Proof.
  intros out. subst out. unfold verifyPayment.
  destruct (strict_eq_str beta "true"); [by repeat split; auto |].
  destruct (truthy id); cbn [negb]; [| by repeat split; auto].
  destruct (retrieve sp id) as [intent |] eqn:Hget; [| by repeat split; auto].
  apply retrieve_Ok in Hget as (s0 & -> & Hapi & Hintent).
  repeat (case_match; cbn [negb] in *; try by repeat split; auto).
  all: match goal with H : update_metadata _ _ _ = _ |- _ => rename H into Hupd end.
  all: unfold update_metadata in Hupd; cbn [toString] in Hupd.
  all: rewrite Hapi, Hintent in Hupd.
  all: destruct (decide (s0 ∈ locked sp)); inversion Hupd; subst; clear Hupd.
  all: try by repeat split; auto.
  cbn [fst snd valid api_error locked intents].
  repeat split; [discriminate | done |].
  intros s. destruct (decide (s = s0)) as [-> | Hne].
  - right. exists intent. split; [reflexivity |]. split; [done |].
    rewrite lookup_insert_eq. unfold mark_generated. by rewrite insert_union_same.
  - left. by rewrite lookup_insert_ne.
Qed.

(** ** The dispatchers *)

Lemma prop_Ok_field (body v : Value) (k : string) : prop body k = Ok v → v = field body k.
Proof. destruct body; simpl; try discriminate; by intros [= <-]. Qed.

(** X9. The dispatcher starts a worker exactly when it answers 202. Then the
    request has a JSON body, the worker is started with one call, whose
    payload is the job identifier of the answer with the [sessionId] and the
    [paymentIntentId] of that body, and the store holds the queued record in
    the blob that the key of that job identifier names. On every other answer
    the store is as before, or differs by the delete of the metadata key of
    the session that the body names. *)
Theorem dispatcher_starts_a_worker_only_with_a_job
        (env : GenerateReport.Env) (event : GenerateReport.Event) (st : Store) :
  let out := GenerateReport.handler env event st in
  let job := GenerateReport.jobId (GenerateReport.randomUUID env) in
  (statusCode (fst (fst out)) = 202 ↔ snd out ≠ [])
  ∧ (snd out ≠ [] →
     ∃ body,
       GenerateReport.parsed_body event = Ok body
       ∧ snd out = [worker_call env event (field body "sessionId")
                                (field body "paymentIntentId")]
       ∧ GenerateReport.payload <$> snd out
         = [VObj [("jobId", VStr job);
                  ("sessionId", field body "sessionId");
                  ("paymentIntentId", field body "paymentIntentId")]]
       ∧ fst (fst out)
         = mkResponse 202 (Some (VObj [("jobId", VStr job); ("status", VStr "processing")]))
       ∧ blobs (snd (fst out)) !! blobName ("job/" +:+ job)
         = Some (mkEntry (Json (queued_record env)) (VObj [])))
  ∧ (snd out = [] →
     snd (fst out) = st
     ∨ ∃ body,
         GenerateReport.parsed_body event = Ok body
         ∧ snd (fst out)
           = snd (store_delete st (toString (field body "sessionId") +:+ "/meta"))).
Proof.
  intros out job. subst out job. unfold GenerateReport.handler, worker_call.
  repeat (case_match;
          cbn [fst snd statusCode GenerateReport.failed GenerateReport.sessionExpired]).
  all: try match goal with
           | H : store_setJSON _ _ _ = _ |- _ =>
               unfold store_setJSON in H; case_decide; inversion H; subst; clear H
           end.
  all: try match goal with
           | H : prop _ "sessionId" = Ok _ |- _ => apply prop_Ok_field in H; subst
           end.
  all: split; [split; intros ?; first [discriminate | done] |].
  all: split; intros ?; try done.
  all: try by left.
  all: try by (right; eexists; split; reflexivity).
  all: eexists; split; [reflexivity |]; split; [reflexivity |]; split; [reflexivity |].
  all: split; [reflexivity |].
  all: cbn [blobs]; by rewrite lookup_insert_eq.
Qed.

(** X10. The three dispatchers agree. The in-process handler answers as the
    awaiting trigger does when its call of the worker succeeds, and starts a
    task with the identifiers of that call. Whatever the awaiting trigger
    refuses, the dispatcher of generate-report.js refuses with the same
    status code; and when that dispatcher accepts, its answer and its call of
    the worker are those of the awaiting trigger. *)
Theorem dispatch_variants_agree
        (env : GenerateReport.Env) (event : GenerateReport.Event) (st : Store) (answer : Z) :
  let uuid := GenerateReport.randomUUID env in
  let trigger := AwaitingTrigger.handler (AwaitingTrigger.mkEnv uuid (Ok answer)) event st in
  let inProcess :=
    InProcessWorker.handler uuid
      (InProcessWorker.mkEvent (GenerateReport.httpMethod event)
                               (GenerateReport.parsed_body event)) st in
  let dispatcher := GenerateReport.handler env event st in
  fst inProcess = fst trigger
  ∧ map (λ t, VObj [("jobId", VStr (InProcessWorker.task_jobId t));
                    ("sessionId", InProcessWorker.task_sessionId t);
                    ("paymentIntentId", InProcessWorker.task_paymentIntentId t)])
        (snd inProcess)
    = map GenerateReport.payload (snd trigger)
  ∧ (statusCode (fst trigger) ≠ 202 →
     statusCode (fst (fst dispatcher)) = statusCode (fst trigger))
  ∧ (statusCode (fst (fst dispatcher)) = 202 →
     fst (fst dispatcher) = fst trigger ∧ snd dispatcher = snd trigger).
Proof.
  intros uuid trigger inProcess dispatcher.
  subst uuid trigger inProcess dispatcher.
  unfold AwaitingTrigger.handler, InProcessWorker.handler, GenerateReport.handler,
    GenerateReport.jobId, metaKey.
  cbn [InProcessWorker.httpMethod InProcessWorker.parsed_body
       AwaitingTrigger.randomUUID AwaitingTrigger.fetch_outcome].
  repeat (case_match; cbn [fst snd statusCode map]);
    repeat split; try reflexivity; try congruence; try discriminate.
Qed.

(** ** The Redis helper: what is stored can be read back *)

Lemma first_char_differs (a b : string) :
  String.get 0 a ≠ String.get 0 b → a ≠ b.
Proof. congruence. Qed.

Lemma counter_key_not_screenshot_key (ip sessionId : string) (i : nat) :
  counterKey ip ≠ redisScreenshotKey sessionId i.
Proof. apply first_char_differs. discriminate. Qed.

Lemma counter_key_not_session_key (ip sessionId : string) :
  counterKey ip ≠ redisSessionKey sessionId.
Proof. apply first_char_differs. discriminate. Qed.

Lemma session_key_not_screenshot_key (sessionId sessionId' : string) (i : nat) :
  redisSessionKey sessionId ≠ redisScreenshotKey sessionId' i.
Proof. intros H. apply (f_equal (String.get 1)) in H. discriminate. Qed.

Lemma redisScreenshotKey_inj (sessionId : string) (i j : nat) :
  redisScreenshotKey sessionId i = redisScreenshotKey sessionId j → i = j.
Proof.
  unfold redisScreenshotKey. intros H.
  by repeat (apply (inj (String.app _)) in H); apply (inj pretty) in H.
Qed.

Lemma redisSessionKey_inj (s s' : string) : redisSessionKey s = redisSessionKey s' → s = s'.
Proof. unfold redisSessionKey. apply (inj (String.app _)). Qed.

Lemma counterKey_inj (ip ip' : string) : counterKey ip = counterKey ip' → ip = ip'.
Proof. unfold counterKey. apply (inj (String.app _)). Qed.

Lemma live_fresh (m : gmap string RedisEntry) (av : bool) (cs : list Command)
      (key : string) (v : RedisValue) (deadline t : Z) :
  live (mkRedis (<[key := mkRedisEntry v (Some deadline)]> m) av cs) t key
  = if deadline <=? t then None else Some (mkRedisEntry v (Some deadline)).
Proof. unfold live. cbn [entries]. by rewrite lookup_insert_eq. Qed.

Lemma live_other (m : gmap string RedisEntry) (av av' : bool) (cs cs' : list Command)
      (key key' : string) (e : RedisEntry) (t : Z) :
  key' ≠ key →
  live (mkRedis (<[key := e]> m) av cs) t key' = live (mkRedis m av' cs') t key'.
Proof. intros Hne. unfold live. cbn [entries]. by rewrite lookup_insert_ne. Qed.

Lemma SET_EX_Ok (r r' : Redis) (now : Z) (key : string) (v : RedisValue) (seconds : Z) (u : unit) :
  SET_EX r now key v seconds = (Ok u, r') →
  available r = true
  ∧ r' = mkRedis (<[key := mkRedisEntry v (Some (now + seconds))]> (entries r)) true
                 (commands r ++ [CmdSET key v seconds]).
Proof.
  unfold SET_EX, served. destruct (available r); cbn [negb]; [| discriminate].
  intros [= _ <-]. done.
Qed.

Lemma live_same_entries (r r' : Redis) (t : Z) (key : string) :
  entries r' !! key = entries r !! key → live r' t key = live r t key.
Proof. unfold live. by intros ->. Qed.

(** X11. What [storeSession] stores is read back by [getSession] until 900
    seconds have passed, and not after: from then on [getSession] returns
    [null]. [getSessionTTL] gives the seconds that are left, and -2 once the
    session has expired. *)
Theorem stored_session_is_read_back_until_it_expires
        (r r' : Redis) (t0 : Z) (sessionId : string)
        (data : list (string * Value)) (createdAt : string) (t : Z) :
  storeSession r t0 sessionId data createdAt = (Ok tt, r') →
  (t < t0 + 900 →
   getSession r' t sessionId = Ok (reparse (sessionDoc data createdAt))
   ∧ getSessionTTL r' t sessionId = Ok (t0 + 900 - t))
  ∧ (t0 + 900 ≤ t →
     getSession r' t sessionId = Ok VNull
     ∧ getSessionTTL r' t sessionId = Ok (-2)).
Proof.
  unfold storeSession. intros (Hav & ->)%SET_EX_Ok.
  unfold getSession, getSessionTTL, GET, TTL. cbn [available negb].
  rewrite live_fresh. unfold SCREENSHOT_TTL_SECONDS.
  split; intros Ht.
  - destruct (Z.leb_spec (t0 + 15 * 60) t); [lia |].
    cbn [fmap option_fmap option_map value expireAt parseStored]. split; [| f_equal; lia].
    reflexivity.
  - destruct (Z.leb_spec (t0 + 15 * 60) t); [| lia]. by split.
Qed.

(** X12. What [storeScreenshot] stores under an index is read back by
    [getScreenshot] as [{ mimeType, base64 }] until 900 seconds have passed,
    and as [null] from then on; the screenshots of the session at the other
    indices read as before. *)
Theorem stored_screenshot_is_read_back_until_it_expires
        (r r' : Redis) (t0 : Z) (sessionId : string) (i : nat)
        (mimeType base64 key : string) (t : Z) :
  storeScreenshot r t0 sessionId i mimeType base64 = (Ok key, r') →
  (t < t0 + 900 →
   getScreenshot r' t sessionId i
   = Ok (VObj [("mimeType", VStr mimeType); ("base64", VStr base64)]))
  ∧ (t0 + 900 ≤ t → getScreenshot r' t sessionId i = Ok VNull)
  ∧ (∀ j, j ≠ i → getScreenshot r' t sessionId j = getScreenshot r t sessionId j).
Proof.
  unfold storeScreenshot.
  destruct (SET_EX _ _ _ _ _) as [[[] | msg] r1] eqn:Hset; [| discriminate].
  apply SET_EX_Ok in Hset as (Hav & ->). intros [= _ <-].
  unfold getScreenshot, GET. cbn [available negb]. rewrite Hav. cbn [negb].
  unfold SCREENSHOT_TTL_SECONDS. split; [| split].
  - intros Ht. rewrite live_fresh. destruct (Z.leb_spec (t0 + 15 * 60) t); [lia | reflexivity].
  - intros Ht. rewrite live_fresh. destruct (Z.leb_spec (t0 + 15 * 60) t); [reflexivity | lia].
  - intros j Hne. rewrite (live_other _ _ (available r) _ (commands r)).
    + by destruct r.
    + intros Heq. by apply redisScreenshotKey_inj in Heq.
Qed.

Lemma foldr_delete_lookup_deleted (keys : list string) (m : gmap string RedisEntry) (key : string) :
  key ∈ keys → foldr delete m keys !! key = None.
Proof.
  induction keys as [| k keys IH]; intros Hin; [by apply elem_of_nil in Hin |].
  cbn [foldr]. destruct (decide (key = k)) as [-> | Hne]; [apply lookup_delete_eq |].
  rewrite lookup_delete_ne by done. apply IH.
  by apply elem_of_cons in Hin as [? | ?].
Qed.

Lemma foldr_delete_lookup_other (keys : list string) (m : gmap string RedisEntry) (key : string) :
  key ∉ keys → foldr delete m keys !! key = m !! key.
Proof.
  induction keys as [| k keys IH]; intros Hnot; [reflexivity |].
  apply not_elem_of_cons in Hnot as [Hne Hnot]. cbn [foldr].
  rewrite lookup_delete_ne by done. by apply IH.
Qed.

Lemma DEL_Ok (r r' : Redis) (now : Z) (keys : list string) (n : Z) :
  DEL r now keys = (Ok n, r') →
  available r = true ∧ r' = mkRedis (foldr delete (entries r) keys) true (commands r).
Proof.
  unfold DEL. destruct (available r); cbn [negb]; [| discriminate].
  intros [= _ <-]. done.
Qed.

(** X13. After [deleteScreenshots] and [deleteSession] nothing of the
    session can be read, at whatever time: every screenshot below the count
    and the session metadata read as [null]. With a count of zero
    [deleteScreenshots] sends no command: it succeeds and leaves the
    database as it is, even when Redis cannot be reached. *)
Theorem deleted_session_cannot_be_read
        (r r1 r2 : Redis) (now now' : Z) (sessionId : string) (count : nat) (t : Z) :
  deleteScreenshots r now sessionId 0 = (Ok tt, r)
  ∧ (deleteScreenshots r now sessionId count = (Ok tt, r1) →
     deleteSession r1 now' sessionId = (Ok tt, r2) →
     getSession r2 t sessionId = Ok VNull
     ∧ ∀ i, (i < count)%nat → getScreenshot r2 t sessionId i = Ok VNull).
Proof.
  split; [reflexivity |].
  unfold deleteSession.
  destruct (DEL r1 _ _) as [[n | msg] r2'] eqn:Hdel2; [| discriminate].
  apply DEL_Ok in Hdel2 as (Hav1 & ->). intros Hshots [= <-].
  unfold getSession, getScreenshot, GET. cbn [available negb].
  split.
  - unfold live. cbn [entries foldr]. by rewrite lookup_delete_eq.
  - intros i Hi. unfold deleteScreenshots in Hshots.
    rewrite length_map, length_seq in Hshots.
    destruct (Nat.ltb_spec 0 count); [| lia].
    destruct (DEL r _ _) as [[n' | msg'] r1'] eqn:Hdel1; [| discriminate].
    apply DEL_Ok in Hdel1 as (Hav & ->). inversion Hshots; subst r1.
    unfold live. cbn [entries foldr].
    rewrite lookup_delete_ne by apply session_key_not_screenshot_key.
    rewrite foldr_delete_lookup_deleted; [reflexivity |].
    apply list_elem_of_fmap. exists i. split; [reflexivity |]. apply elem_of_seq. lia.
Qed.

(** ** The rate limiter and the upload handler *)

Lemma INCR_other (r : Redis) (now : Z) (key key' : string) :
  key' ≠ key → entries (snd (INCR r now key)) !! key' = entries r !! key'.
Proof.
  intros Hne. unfold INCR, served.
  repeat (case_match; cbn [snd entries]); try reflexivity; by rewrite lookup_insert_ne.
Qed.

Lemma EXPIRE_other (r : Redis) (now : Z) (key key' : string) (seconds : Z) :
  key' ≠ key → entries (snd (EXPIRE r now key seconds)) !! key' = entries r !! key'.
Proof.
  intros Hne. unfold EXPIRE, served.
  repeat (case_match; cbn [snd entries]); try reflexivity; by rewrite lookup_insert_ne.
Qed.

Lemma checkRateLimit_other (r : Redis) (now : Z) (ip key : string) :
  key ≠ counterKey ip →
  entries (snd (checkRateLimit r now ip)) !! key = entries r !! key.
Proof.
  intros Hne. unfold checkRateLimit. fold (counterKey ip).
  pose proof (INCR_other r now (counterKey ip) key Hne) as Hincr.
  destruct (INCR r now (counterKey ip)) as [[n | msg] r1]; cbn [snd] in *; [| done].
  destruct (n =? 1); [| done].
  pose proof (EXPIRE_other r1 now (counterKey ip) key RATE_LIMIT_WINDOW_SECONDS Hne) as Hexp.
  destruct (EXPIRE r1 now _ _) as [[k | msg] r2]; cbn [snd] in *; congruence.
Qed.

(** X14. The counters of different identities are independent: a call of
    [checkRateLimit] for one identity changes no other key of the database,
    so the count and the deadline that any other identity will find are
    what they were. *)
Theorem rate_limit_counters_are_independent (r : Redis) (now : Z) (ip ip' : string) (t : Z) :
  ip' ≠ ip →
  current (snd (checkRateLimit r now ip)) t (counterKey ip') = current r t (counterKey ip')
  ∧ ∀ key, key ≠ counterKey ip →
           entries (snd (checkRateLimit r now ip)) !! key = entries r !! key.
Proof.
  intros Hne. split; [| intros key; apply checkRateLimit_other].
  unfold current. rewrite (live_same_entries r (snd (checkRateLimit r now ip))); [done |].
  apply checkRateLimit_other. intros Heq. by apply counterKey_inj in Heq.
Qed.

Lemma storeScreenshots_other (files : list UploadScreenshots.File) :
  ∀ (r : Redis) (now : Z) (sessionId : string) (i : nat) (key : string),
    (∀ j, (i ≤ j)%nat → key ≠ redisScreenshotKey sessionId j) →
    entries (snd (UploadScreenshots.storeScreenshots r now sessionId i files)) !! key
    = entries r !! key.
Proof.
  induction files as [| f files IH]; intros r now sessionId i key Hkey; [reflexivity |].
  cbn [UploadScreenshots.storeScreenshots]. unfold storeScreenshot, SET_EX, served.
  fold (redisScreenshotKey sessionId i).
  destruct (available r); cbn [negb]; [| reflexivity].
  rewrite IH by (intros j Hj; apply Hkey; lia).
  cbn [entries]. rewrite lookup_insert_ne; [done |].
  intros Heq. by apply (Hkey i).
Qed.

Lemma storeSession_other (r : Redis) (now : Z) (sessionId : string)
      (data : list (string * Value)) (createdAt key : string) :
  key ≠ redisSessionKey sessionId →
  entries (snd (storeSession r now sessionId data createdAt)) !! key = entries r !! key.
Proof.
  intros Hne. unfold storeSession, SET_EX, served. fold (redisSessionKey sessionId).
  destruct (available r); cbn [negb snd entries]; [| reflexivity].
  by rewrite lookup_insert_ne.
Qed.

(** X15. Every POST to the upload endpoint is counted against the limit of
    its sender, whatever becomes of the request: also when it is turned away
    for its category, for carrying no image, or with 429, the counter of the
    sender stands one higher afterwards. *)
Theorem every_upload_request_is_counted
        (env : UploadScreenshots.Env) (event : UploadScreenshots.Event) (r : Redis)
        (ip : string) (c : Z) (exp : option Z) :
  UploadScreenshots.httpMethod event = "POST" →
  UploadScreenshots.clientIp (UploadScreenshots.forwarded_for event) = Ok ip →
  available r = true →
  current r (UploadScreenshots.redis_now env) (counterKey ip) = Some (c, exp) →
  c < 9223372036854775807 →
  ∃ e, entries (snd (UploadScreenshots.handler env event r)) !! counterKey ip = Some e
       ∧ value e = RInt (c + 1).
Proof.
  intros Hpost Hip Hav Hcur Hmax. unfold UploadScreenshots.handler.
  rewrite Hpost, Hip. cbn [String.eqb Ascii.eqb Bool.eqb negb].
  rewrite (checkRateLimit_step _ _ _ _ _ Hav Hcur Hmax).
  set (r1 := mkRedis _ _ _).
  assert (Hr1 : ∃ e, entries r1 !! counterKey ip = Some e ∧ value e = RInt (c + 1)).
  { eexists. split; [apply lookup_insert_eq | reflexivity]. }
  set (sid := UploadScreenshots.sessionId _).
  repeat (case_match; cbn [snd]); try exact Hr1.
  all: repeat match goal with
         | H : storeSession ?a ?b ?c ?d ?e = (_, ?r') |- context [entries ?r' !! ?k] =>
             replace r' with (snd (storeSession a b c d e)) by (by rewrite H);
             rewrite (storeSession_other a b c d e k) by apply counter_key_not_session_key;
             clear H
         | H : UploadScreenshots.storeScreenshots ?a ?b ?c ?d ?e = (_, ?r') |- context [entries ?r' !! ?k] =>
             replace r' with (snd (UploadScreenshots.storeScreenshots a b c d e)) by (by rewrite H);
             rewrite (storeScreenshots_other e a b c d k)
               by (intros j _; apply counter_key_not_screenshot_key);
             clear H
         end.
  all: exact Hr1.
Qed.

(** ** From the upload to the stored session *)

Lemma storeScreenshots_Ok (files : list UploadScreenshots.File) :
  ∀ (r r' : Redis) (now : Z) (sessionId : string) (i : nat),
    UploadScreenshots.storeScreenshots r now sessionId i files = (Ok tt, r') →
    available r' = available r
    ∧ ∀ j f, files !! j = Some f →
             entries r' !! redisScreenshotKey sessionId (i + j)
             = Some (mkRedisEntry (RDoc (storedFile f)) (Some (now + 900))).
Proof.
  induction files as [| f files IH]; intros r r' now sessionId i Hstore.
  - inversion Hstore; subst. split; [reflexivity |]. intros j f' Hj. by destruct j.
  - cbn [UploadScreenshots.storeScreenshots] in Hstore.
    unfold storeScreenshot in Hstore. fold (redisScreenshotKey sessionId i) in Hstore.
    destruct (SET_EX _ _ _ _ _) as [[[] | msg] r1] eqn:Hset; [| discriminate].
    apply SET_EX_Ok in Hset as (Hav & ->).
    match type of Hstore with
    | UploadScreenshots.storeScreenshots ?r1 _ _ _ _ = _ =>
        pose proof (storeScreenshots_other files r1 now sessionId (S i)
                      (redisScreenshotKey sessionId i)) as Hkeep
    end.
    rewrite Hstore in Hkeep. cbn [snd] in Hkeep.
    destruct (IH _ _ _ _ _ Hstore) as (Hav' & Hrest). split; [by rewrite Hav' |].
    intros [| j] f' Hj.
    + inversion Hj; subst f'. rewrite Nat.add_0_r, Hkeep.
      * cbn [entries]. by rewrite lookup_insert_eq.
      * intros j Hle Heq. apply redisScreenshotKey_inj in Heq. lia.
    + replace (i + S j)%nat with (S i + j)%nat by lia. by apply Hrest.
Qed.

Lemma includes_str_VStr (l : list string) (v : Value) :
  includes_str l v = true → ∃ s, v = VStr s.
Proof.
  unfold includes_str. intros (lit & _ & Heq)%existsb_exists.
  destruct v; try discriminate. eauto.
Qed.

(** What an accepted upload leaves in the database. *)
Lemma upload_accepted
      (env : UploadScreenshots.Env) (event : UploadScreenshots.Event) (r : Redis) :
  UploadScreenshots.httpMethod event = "POST" →
  statusCode (fst (UploadScreenshots.handler env event r)) = 200 →
  let r' := snd (UploadScreenshots.handler env event r) in
  let sid := UploadScreenshots.sessionId (UploadScreenshots.randomUUID env) in
  let deadline := UploadScreenshots.redis_now env + 900 in
  ∃ fields files category,
    UploadScreenshots.multipart event = Ok (fields, files)
    ∧ field fields "category" = VStr category
    ∧ includes_str UploadScreenshots.VALID_CATS (VStr category) = true
    ∧ files ≠ []
    ∧ available r' = true
    ∧ entries r' !! redisSessionKey sid
      = Some (mkRedisEntry
                (RDoc (uploadedSession (VStr category) files (UploadScreenshots.createdAt env)))
                (Some deadline))
    ∧ ∀ j f, files !! j = Some f →
             entries r' !! redisScreenshotKey sid j
             = Some (mkRedisEntry (RDoc (storedFile f)) (Some deadline)).
Proof.
  intros Hpost. unfold UploadScreenshots.handler. rewrite Hpost.
  cbn [String.eqb Ascii.eqb Bool.eqb negb].
  destruct (UploadScreenshots.clientIp _) as [ip |]; [| discriminate].
  destruct (checkRateLimit _ _ _) as [[rate | msg] r1]; [| discriminate].
  destruct (allowed rate); cbn [negb]; [| discriminate].
  destruct (UploadScreenshots.multipart event) as [[fields files] |]; [| discriminate].
  destruct (truthy (field fields "category")); cbn [negb orb]; [| discriminate].
  destruct (includes_str _ _) eqn:Hcat; cbn [negb]; [| discriminate].
  destruct (includes_str_VStr _ _ Hcat) as (category & Hfield). rewrite Hfield in *.
  destruct (Nat.eqb_spec (length files) 0) as [| Hlen]; [discriminate |].
  set (sid := UploadScreenshots.sessionId _).
  destruct (UploadScreenshots.storeScreenshots _ _ _ _ _) as [[[] | msg] r2] eqn:Hshots;
    [| discriminate].
  apply storeScreenshots_Ok in Hshots as (Hav2 & Hfiles).
  unfold storeSession. fold (redisSessionKey sid).
  destruct (SET_EX _ _ _ _ _) as [[[] | msg] r3] eqn:Hset; [| discriminate].
  apply SET_EX_Ok in Hset as (Hav & ->). intros _. cbn [snd].
  exists fields, files, category.
  split; [reflexivity |]. split; [exact Hfield |]. split; [exact Hcat |].
  split; [by destruct files |]. split; [reflexivity |]. split.
  - cbn [entries]. by rewrite lookup_insert_eq.
  - intros j f Hj. cbn [entries].
    rewrite lookup_insert_ne by apply session_key_not_screenshot_key.
    exact (Hfiles j f Hj).
Qed.

Lemma getSession_of_entry (r : Redis) (t : Z) (sessionId : string)
      (fields : list (string * Value)) (deadline : Z) :
  available r = true →
  entries r !! redisSessionKey sessionId
  = Some (mkRedisEntry (RDoc (VObj fields)) (Some deadline)) →
  t < deadline →
  getSession r t sessionId = Ok (reparse (VObj fields)).
Proof.
  intros Hav He Ht. unfold getSession, GET, live. fold (redisSessionKey sessionId).
  rewrite Hav, He. cbn [negb expireAt fmap option_fmap option_map value].
  destruct (Z.leb_spec deadline t); [lia | reflexivity].
Qed.

Lemma getScreenshot_of_entry (r : Redis) (t : Z) (sessionId : string) (i : nat)
      (f : UploadScreenshots.File) (deadline : Z) :
  available r = true →
  entries r !! redisScreenshotKey sessionId i
  = Some (mkRedisEntry (RDoc (storedFile f)) (Some deadline)) →
  t < deadline →
  getScreenshot r t sessionId i = Ok (storedFile f).
Proof.
  intros Hav He Ht. unfold getScreenshot, GET, live. fold (redisScreenshotKey sessionId i).
  rewrite Hav, He. cbn [negb expireAt fmap option_fmap option_map value].
  destruct (Z.leb_spec deadline t); [lia | reflexivity].
Qed.

(** X16. An accepted upload can be read back. When the upload endpoint
    answers a POST with 200, then at every instant less than 900 seconds
    after the upload [getSession] returns, for the session identifier cut
    from the UUID, the category sent, the number of files accepted and the
    creation time, and [getScreenshot] returns for each index the MIME type
    and the base64 text of the file uploaded at that index. *)
Theorem accepted_upload_can_be_read_back
        (env : UploadScreenshots.Env) (event : UploadScreenshots.Event) (r : Redis) (t : Z) :
  UploadScreenshots.httpMethod event = "POST" →
  statusCode (fst (UploadScreenshots.handler env event r)) = 200 →
  t < UploadScreenshots.redis_now env + 900 →
  let r' := snd (UploadScreenshots.handler env event r) in
  let sid := UploadScreenshots.sessionId (UploadScreenshots.randomUUID env) in
  ∃ fields files,
    UploadScreenshots.multipart event = Ok (fields, files)
    ∧ getSession r' t sid
      = Ok (uploadedSession (field fields "category") files (UploadScreenshots.createdAt env))
    ∧ ∀ i f, files !! i = Some f → getScreenshot r' t sid i = Ok (storedFile f).
Proof.
  intros Hpost Hok Ht r' sid.
  destruct (upload_accepted env event r Hpost Hok)
    as (fields & files & category & Hmulti & Hcat & _ & _ & Hav & Hsession & Hfiles).
  exists fields, files. split; [exact Hmulti |]. split.
  - rewrite Hcat. exact (getSession_of_entry _ t _ _ _ Hav Hsession Ht).
  - intros i f Hi. exact (getScreenshot_of_entry _ t _ i f _ Hav (Hfiles i f Hi) Ht).
Qed.

(** ** No report without an accepted payment *)

(** X17. The worker calls the generation service at most once in a run, and
    only after payment verification has accepted the reference of the request
    and at least one screenshot was fetched. *)
Theorem worker_generates_only_for_an_accepted_payment
        (env : Env) (event : Event) (w : World) :
  let out := snd (handler env event w) in
  generation_log out = generation_log w
  ∨ ∃ body request,
      parsed_body event = Ok body
      ∧ generation_log out = generation_log w ++ [request]
      ∧ valid (fst (verifyPayment (BETA_MODE env) (field body "paymentIntentId") (stripe w)))
        = true
      ∧ images request ≠ [].
Proof.
  intros out. subst out. unfold handler.
  destruct (parsed_body event) as [body |]; [| by left].
  destruct (prop body "jobId") as [jobId |]; [| by left].
  destruct (negb (truthy jobId) || negb (truthy (field body "sessionId"))); [by left |].
  destruct (verifyPayment _ _ _) as [payment sp1] eqn:Hpay.
  destruct (valid payment) eqn:Hvalid; cbn [negb]; [| by left].
  repeat (case_match; cbn [snd generation_log]); try by left.
  all: right; eexists body, _; split; [reflexivity |]; split; [reflexivity |].
  all: split; [by rewrite ?Hpay |].
  all: cbn [images]; intros Hnil; rewrite Hnil in *; discriminate.
Qed.

(** X18. The synchronous handler calls the generation service at most once
    for a request, and only after payment verification has accepted the
    reference of the request and at least one screenshot was read. *)
Theorem sync_handler_generates_only_for_an_accepted_payment
        (env : GenerateReportSync.Env) (event : GenerateReportSync.Event)
        (w : GenerateReportSync.World) :
  let out := snd (GenerateReportSync.handler env event w) in
  GenerateReportSync.generation_log out = GenerateReportSync.generation_log w
  ∨ ∃ body request,
      GenerateReportSync.parsed_body event = Ok body
      ∧ GenerateReportSync.generation_log out
        = GenerateReportSync.generation_log w ++ [request]
      ∧ valid (fst (GenerateReportSync.verifyPayment
                      (GenerateReportSync.BETA_MODE env) (field body "paymentIntentId")
                      (GenerateReportSync.stripe w)))
        = true
      ∧ GenerateReportSync.images request ≠ [].
Proof.
  intros out. subst out. unfold GenerateReportSync.handler.
  destruct (String.eqb _ "OPTIONS"); [by left |].
  destruct (negb (String.eqb _ "POST")); [by left |].
  destruct (GenerateReportSync.parsed_body event) as [body |]; [| by left].
  destruct (prop body "sessionId") as [sessionId |]; [| by left].
  destruct (negb (truthy sessionId)); [by left |].
  destruct (getSession _ _ _) as [session |]; [| by left].
  destruct (negb (truthy session)); [by left |].
  destruct (negb (includes_str _ _)); [by left |].
  destruct (GenerateReportSync.verifyPayment _ _ _) as [payment sp1] eqn:Hpay.
  destruct (valid payment) eqn:Hvalid; cbn [negb]; [| by left].
  destruct (GenerateReportSync.getScreenshots _ _ _ _) as [fetched |]; [| by left].
  destruct (Nat.eqb_spec (length (List.filter truthy fetched)) 0) as [| Hlen]; [by left |].
  destruct (String.eqb _ ""); [by left |].
  assert (Himages : map GenerateReportSync.toImage (List.filter truthy fetched) ≠ []).
  { intros Hnil. apply (f_equal length) in Hnil. rewrite length_map in Hnil. done. }
  destruct (GenerateReportSync.messages_create _ _ _ _);
    cbn [snd GenerateReportSync.generation_log];
    right; eexists body, _; (split; [reflexivity |]); (split; [reflexivity |]);
    (split; [by rewrite ?Hpay |]); exact Himages.
Qed.

(** ** The synchronous handler *)

Lemma sync_payment_agrees (beta id : Value) (sp : Stripe) :
  strict_eq_str beta "true" = false →
  fst (verifyPayment beta id sp) ≠ rejected "Wrong currency" →
  GenerateReportSync.verifyPayment beta id sp = verifyPayment beta id sp.
Proof.
  intros Hbeta. unfold GenerateReportSync.verifyPayment, verifyPayment. rewrite Hbeta.
  repeat (case_match; cbn [fst]); try reflexivity. by intros [].
Qed.

Lemma sync_payment_accepted (beta id : Value) (sp : Stripe) :
  strict_eq_str beta "true" = false →
  valid (fst (GenerateReportSync.verifyPayment beta id sp)) = true →
  let sp' := snd (GenerateReportSync.verifyPayment beta id sp) in
  GenerateReportSync.verifyPayment beta id sp' = (rejected "Payment already used", sp').
Proof.
  intros Hbeta Hvalid sp'. subst sp'.
  assert (Hsame : GenerateReportSync.verifyPayment beta id sp = verifyPayment beta id sp).
  { revert Hvalid. unfold GenerateReportSync.verifyPayment, verifyPayment. rewrite Hbeta.
    repeat (case_match; cbn [fst valid rejected]); try reflexivity; discriminate. }
  rewrite Hsame in *.
  destruct (verifyPayment_accepted _ _ _ Hbeta Hvalid)
    as (intent & intent' & _ & _ & _ & _ & _ & Hagain).
  rewrite sync_payment_agrees; [exact Hagain | exact Hbeta |].
  rewrite Hagain. discriminate.
Qed.

Lemma getScreenshots_all_null (r : Redis) (t : Z) (sessionId : string) (indices : list nat) :
  Forall (λ i, getScreenshot r t sessionId i = Ok VNull) indices →
  GenerateReportSync.getScreenshots r t sessionId indices = Ok (map (λ _, VNull) indices).
Proof.
  induction 1 as [| i rest Hnull _ IH]; [reflexivity |].
  cbn [GenerateReportSync.getScreenshots map]. by rewrite Hnull, IH.
Qed.

Lemma filter_truthy_nulls (indices : list nat) :
  List.filter truthy (map (λ _ : nat, VNull) indices) = [].
Proof. by induction indices. Qed.

(** X19. In the synchronous handler the payment is spent before the
    screenshots are read. When payment is not bypassed, the session is
    there, the reference is accepted and every screenshot below the count
    of the session reads as [null] (expired or deleted), the
    answer is 410 with the message that the payment is still valid, the
    database is left as it was, and the reference now carries the marker:
    the same request sent again is answered 402 with the reason 'Payment
    already used'. *)
Theorem payment_is_spent_when_the_screenshots_have_expired
        (env : GenerateReportSync.Env) (w : GenerateReportSync.World)
        (sessionId : string) (paymentIntentId session : Value) :
  strict_eq_str (GenerateReportSync.BETA_MODE env) "true" = false →
  sessionId ≠ "" →
  getSession (GenerateReportSync.redis w) (GenerateReportSync.session_now env) sessionId
  = Ok session →
  truthy session = true →
  includes_str GenerateReportSync.VALID_CATEGORIES (field session "category") = true →
  Forall (λ i, getScreenshot (GenerateReportSync.redis w)
                             (GenerateReportSync.screenshots_now env) sessionId i = Ok VNull)
         (seq 0 (iterations (field session "screenshotCount"))) →
  valid (fst (GenerateReportSync.verifyPayment (GenerateReportSync.BETA_MODE env)
                paymentIntentId (GenerateReportSync.stripe w))) = true →
  let event :=
    GenerateReportSync.mkEvent "POST"
      (Ok (VObj [("sessionId", VStr sessionId); ("paymentIntentId", paymentIntentId)])) in
  let first := GenerateReportSync.handler env event w in
  fst first
  = mkResponse 410
      (Some (VObj [("error", VStr "Screenshots expired");
                   ("message",
                    VStr "Your screenshots were automatically deleted before the report could be generated. Please upload again — your payment is still valid.")]))
  ∧ GenerateReportSync.redis (snd first) = GenerateReportSync.redis w
  ∧ fst (GenerateReportSync.handler env event (snd first))
    = mkResponse 402
        (Some (VObj [("error", VStr "Payment verification failed");
                     ("reason", VStr "Payment already used")])).
Proof.
  intros Hbeta Hsid Hsession Htruthy Hcat Hnull Hvalid event first.
  pose proof (sync_payment_accepted _ _ _ Hbeta Hvalid) as Hagain. cbn zeta in Hagain.
  assert (Hfirst : first
                   = (mkResponse 410
                        (Some (VObj [("error", VStr "Screenshots expired");
                                     ("message",
                                      VStr "Your screenshots were automatically deleted before the report could be generated. Please upload again — your payment is still valid.")])),
                      GenerateReportSync.mkWorld
                        (GenerateReportSync.redis w)
                        (snd (GenerateReportSync.verifyPayment
                                (GenerateReportSync.BETA_MODE env) paymentIntentId
                                (GenerateReportSync.stripe w)))
                        (GenerateReportSync.generation_log w))).
  { subst first event. unfold GenerateReportSync.handler.
    cbn [GenerateReportSync.httpMethod GenerateReportSync.parsed_body prop field lookup_field
         String.eqb Ascii.eqb Bool.eqb negb toString].
    rewrite (truthy_VStr _ Hsid), Hsession, Htruthy, Hcat. cbn [negb].
    destruct (GenerateReportSync.verifyPayment _ _ _) as [payment sp1]. cbn [fst snd] in *.
    rewrite Hvalid, getScreenshots_all_null, filter_truthy_nulls by exact Hnull.
    reflexivity. }
  rewrite Hfirst. cbn [fst snd GenerateReportSync.redis]. split; [reflexivity |].
  split; [reflexivity |].
  subst event. unfold GenerateReportSync.handler.
  cbn [GenerateReportSync.httpMethod GenerateReportSync.parsed_body prop field lookup_field
       String.eqb Ascii.eqb Bool.eqb negb toString
       GenerateReportSync.redis GenerateReportSync.stripe].
  rewrite (truthy_VStr _ Hsid), Hsession, Htruthy, Hcat. cbn [negb].
  rewrite Hagain. reflexivity.
Qed.

Lemma live_entry (r : Redis) (t : Z) (key : string) (e : RedisEntry) :
  live r t key = Some e → entries r !! key = Some e.
Proof.
  unfold live. destruct (entries r !! key) as [e' |]; [| discriminate].
  destruct (expireAt e') as [d |]; [destruct (d <=? t); [discriminate |] |]; congruence.
Qed.

Lemma live_expired_later (r : Redis) (t t' : Z) (key : string) :
  live r t key = None → t ≤ t' → live r t' key = None.
Proof.
  unfold live. destruct (entries r !! key) as [e |]; [| done].
  destruct (expireAt e) as [d |]; [| discriminate].
  destruct (Z.leb_spec d t); [| discriminate].
  destruct (Z.leb_spec d t'); [done | lia].
Qed.

Lemma sync_cleanup_removes (r : Redis) (now : Z) (sessionId : string) (count : nat) (t : Z) :
  available r = true →
  getSession (GenerateReportSync.cleanup r now sessionId count) t sessionId = Ok VNull
  ∧ ∀ i, (i < count)%nat →
         getScreenshot (GenerateReportSync.cleanup r now sessionId count) t sessionId i
         = Ok VNull.
Proof.
  intros Hav. unfold GenerateReportSync.cleanup, deleteSession, deleteScreenshots, DEL.
  rewrite length_map, length_seq, Hav. cbn [negb].
  destruct (Nat.ltb_spec 0 count) as [Hpos | Hzero]; cbn [snd available negb]; rewrite ?Hav;
    cbn [negb snd]; unfold getSession, getScreenshot, GET, live;
    cbn [available entries negb foldr]; rewrite ?Hav; cbn [negb].
  - split; [by rewrite lookup_delete_eq |]. intros i Hi.
    rewrite lookup_delete_ne by apply session_key_not_screenshot_key.
    rewrite foldr_delete_lookup_deleted; [reflexivity |].
    apply list_elem_of_fmap. exists i. split; [reflexivity |]. apply elem_of_seq. lia.
  - split; [by rewrite lookup_delete_eq | intros i Hi; lia].
Qed.

Lemma getSession_Ok_available (r : Redis) (t : Z) (sessionId : string) (v : Value) :
  getSession r t sessionId = Ok v → available r = true.
Proof. unfold getSession, GET. by destruct (available r). Qed.

Lemma cleanupAfterError_removes
      (env : GenerateReportSync.Env) (r : Redis) (sessionId session : Value) (t : Z) :
  truthy sessionId = true →
  getSession r (GenerateReportSync.session_now env) (toString sessionId) = Ok session →
  truthy session = true →
  GenerateReportSync.cleanup_now env ≤ t →
  getSession (GenerateReportSync.cleanupAfterError env sessionId r) t (toString sessionId)
  = Ok VNull.
Proof.
  intros Hsid Hsession Htruthy Ht.
  pose proof (getSession_Ok_available _ _ _ _ Hsession) as Hav.
  unfold GenerateReportSync.cleanupAfterError. rewrite Hsid.
  set (sid := toString sessionId) in *.
  destruct (live r (GenerateReportSync.cleanup_now env) (redisSessionKey sid))
    as [e |] eqn:Hlive.
  - assert (Hentry := live_entry _ _ _ _ Hlive).
    assert (Hsame : getSession r (GenerateReportSync.cleanup_now env) sid = Ok session).
    { revert Hsession. unfold getSession, GET. fold (redisSessionKey sid).
      rewrite Hav, Hlive. cbn [negb]. unfold live. rewrite Hentry.
      destruct (expireAt e) as [d |]; [destruct (d <=? _) |]; try done.
      cbn [fmap option_fmap option_map]. intros [= <-]. discriminate. }
    rewrite Hsame, Htruthy. exact (proj1 (sync_cleanup_removes _ _ _ _ t Hav)).
  - assert (Hgone : getSession r (GenerateReportSync.cleanup_now env) sid = Ok VNull).
    { unfold getSession, GET. fold (redisSessionKey sid). by rewrite Hav, Hlive. }
    rewrite Hgone. cbn [truthy].
    unfold getSession, GET. fold (redisSessionKey sid).
    by rewrite Hav, (live_expired_later _ _ _ _ Hlive Ht).
Qed.

(** X20. A session for which the generation service was called cannot be
    used again. Whether the call succeeds or fails, the synchronous handler
    deletes the session (or finds it expired): from the instant of the
    clean-up on, [getSession] returns [null] for it. *)
Theorem attempted_generation_consumes_the_session
        (env : GenerateReportSync.Env) (event : GenerateReportSync.Event)
        (w : GenerateReportSync.World) (body : Value) (t : Z) :
  GenerateReportSync.parsed_body event = Ok body →
  let out := snd (GenerateReportSync.handler env event w) in
  GenerateReportSync.generation_log out ≠ GenerateReportSync.generation_log w →
  GenerateReportSync.cleanup_now env ≤ t →
  getSession (GenerateReportSync.redis out) t (toString (field body "sessionId")) = Ok VNull.
Proof.
  intros Hbody out. subst out. unfold GenerateReportSync.handler. rewrite Hbody.
  destruct (String.eqb _ "OPTIONS"); [done |].
  destruct (negb (String.eqb _ "POST")); [done |].
  destruct (prop body "sessionId") as [sessionId |] eqn:Hprop; [| done].
  apply prop_Ok_field in Hprop as ->.
  destruct (truthy (field body "sessionId")) eqn:Hsid; cbn [negb]; [| done].
  destruct (getSession _ _ _) as [session |] eqn:Hsession; [| done].
  destruct (truthy session) eqn:Htruthy; cbn [negb]; [| done].
  destruct (negb (includes_str _ _)); [done |].
  destruct (GenerateReportSync.verifyPayment _ _ _) as [payment sp1].
  destruct (negb (valid payment)); [done |].
  destruct (GenerateReportSync.getScreenshots _ _ _ _) as [fetched |]; [| done].
  destruct (Nat.eqb _ 0); [done |].
  destruct (String.eqb _ ""); [done |].
  pose proof (getSession_Ok_available _ _ _ _ Hsession) as Hav.
  destruct (GenerateReportSync.messages_create _ _ _ _);
    cbn [snd GenerateReportSync.redis]; intros _ Ht.
  - exact (proj1 (sync_cleanup_removes _ _ _ _ t Hav)).
  - exact (cleanupAfterError_removes env _ _ session t Hsid Hsession Htruthy Ht).
Qed.

(** ** From the upload to the generation service *)

Lemma getScreenshots_of_files (r : Redis) (t : Z) (sessionId : string)
      (files : list UploadScreenshots.File) :
  ∀ i0,
    (∀ j f, files !! j = Some f → getScreenshot r t sessionId (i0 + j) = Ok (storedFile f)) →
    GenerateReportSync.getScreenshots r t sessionId (seq i0 (length files))
    = Ok (map storedFile files).
Proof.
  induction files as [| f files IH]; intros i0 Hfiles; [reflexivity |].
  cbn [length seq GenerateReportSync.getScreenshots map].
  specialize (Hfiles 0%nat f eq_refl) as Hhead. rewrite Nat.add_0_r in Hhead.
  rewrite Hhead, IH; [reflexivity |].
  intros j f' Hj. replace (S i0 + j)%nat with (i0 + S j)%nat by lia. by apply Hfiles.
Qed.

Lemma filter_truthy_files (files : list UploadScreenshots.File) :
  List.filter truthy (map storedFile files) = map storedFile files.
Proof. induction files as [| f files IH]; [reflexivity |]. cbn. by rewrite IH. Qed.

Lemma sync_selectPrompt_nonempty (env : GenerateReportSync.Env) (category : Value) :
  GenerateReportSync.loadPrompt env "combined-aus-vehicle-v3.1.md" ≠ "" →
  String.eqb (GenerateReportSync.selectPrompt env category) "" = false.
Proof.
  intros Hvehicle. unfold GenerateReportSync.selectPrompt. cbv zeta.
  set (p := if strict_eq_str category "property" then _ else _).
  destruct (String.eqb_spec p "") as [| Hp]; by apply eqb_false_of_ne.
Qed.

(** X21. What is uploaded is what the generation service is shown. After an
    accepted upload, a request to the synchronous handler for the session
    identifier that the upload returned, made less than 900 seconds later
    with an accepted payment and the vehicle prompt installed, calls the
    generation service once, with one image per uploaded file, in the order
    of the upload, each with the base64 text of its file and its MIME type
    (or image/jpeg when that is empty). *)
Theorem uploaded_files_reach_the_generation_service
        (upload : UploadScreenshots.Env) (event : UploadScreenshots.Event) (r : Redis)
        (env : GenerateReportSync.Env) (paymentIntentId : Value) (sp : Stripe)
        (requests : list GenerateReportSync.GenerationRequest) :
  UploadScreenshots.httpMethod event = "POST" →
  statusCode (fst (UploadScreenshots.handler upload event r)) = 200 →
  is_uuid (UploadScreenshots.randomUUID upload) = true →
  GenerateReportSync.session_now env < UploadScreenshots.redis_now upload + 900 →
  GenerateReportSync.screenshots_now env < UploadScreenshots.redis_now upload + 900 →
  valid (fst (GenerateReportSync.verifyPayment (GenerateReportSync.BETA_MODE env)
                paymentIntentId sp)) = true →
  GenerateReportSync.loadPrompt env "combined-aus-vehicle-v3.1.md" ≠ "" →
  let sid := UploadScreenshots.sessionId (UploadScreenshots.randomUUID upload) in
  let request :=
    GenerateReportSync.mkEvent "POST"
      (Ok (VObj [("sessionId", VStr sid); ("paymentIntentId", paymentIntentId)])) in
  let out :=
    snd (GenerateReportSync.handler env request
           (GenerateReportSync.mkWorld (snd (UploadScreenshots.handler upload event r))
                                       sp requests)) in
  ∃ fields files call,
    UploadScreenshots.multipart event = Ok (fields, files)
    ∧ GenerateReportSync.generation_log out = requests ++ [call]
    ∧ GenerateReportSync.images call
      = map (λ f, GenerateReportSync.toImage (storedFile f)) files.
Proof.
  intros Hpost Hok Huuid Hsession Hshots Hvalid Hprompt sid request out.
  destruct (upload_accepted upload event r Hpost Hok)
    as (fields & files & category & Hmulti & _ & Hcat & Hne & Hav & Hentry & Hfiles).
  fold sid in Hentry, Hfiles.
  set (r' := snd (UploadScreenshots.handler upload event r)) in *.
  assert (Hsid : truthy (VStr sid) = true).
  { apply truthy_VStr, is_minted_id_nonempty, uuid_prefix, Huuid. }
  pose proof (getSession_of_entry _ _ _ _ _ Hav Hentry Hsession) as Hget.
  assert (Hread : GenerateReportSync.getScreenshots
                    r' (GenerateReportSync.screenshots_now env) sid (seq 0 (length files))
                  = Ok (map storedFile files)).
  { apply getScreenshots_of_files. intros j f Hj.
    exact (getScreenshot_of_entry _ _ _ j f _ Hav (Hfiles j f Hj) Hshots). }
  exists fields, files.
  subst out request. unfold GenerateReportSync.handler.
  cbn [GenerateReportSync.httpMethod GenerateReportSync.parsed_body prop field lookup_field
       String.eqb Ascii.eqb Bool.eqb negb toString
       GenerateReportSync.redis GenerateReportSync.stripe GenerateReportSync.generation_log].
  rewrite Hsid, Hget. cbn [negb].
  change (reparse (VObj _))
    with (uploadedSession (VStr category) files (UploadScreenshots.createdAt upload)).
  change (truthy (uploadedSession _ _ _)) with true.
  change (field (uploadedSession (VStr category) files _) "category") with (VStr category).
  change (field (uploadedSession (VStr category) files _) "screenshotCount")
    with (VNum (Z.of_nat (length files))).
  change GenerateReportSync.VALID_CATEGORIES with UploadScreenshots.VALID_CATS.
  rewrite Hcat, iterations_VNum, Hread, filter_truthy_files. cbn [negb].
  destruct (GenerateReportSync.verifyPayment _ _ _) as [payment sp1]. cbn [fst] in Hvalid.
  rewrite Hvalid, length_map. cbn [negb].
  destruct (Nat.eqb_spec (length files) 0) as [Hzero | _]; [by destruct files |].
  rewrite (sync_selectPrompt_nonempty env _ Hprompt).
  destruct (GenerateReportSync.messages_create _ _ _ _);
    cbn [snd GenerateReportSync.generation_log];
    eexists; (split; [exact Hmulti |]); (split; [reflexivity |]);
    cbn [GenerateReportSync.images]; by rewrite map_map.
Qed.

(** ** The in-process worker *)

(** Up to the call of the generation service the in-process run proceeds
    as the background run does; a run that stops before the call writes an
    error record, whose wording may differ. *)
Lemma in_process_outcome (env : Env) (j : string) (sessionId paymentId : Value) (w : World) :
  j ≠ "" →
  truthy sessionId = true →
  "job/" +:+ j ∉ faulty (store w) →
  let a := InProcessWorker.runReportGeneration env j sessionId paymentId w in
  let b := snd (handler env (workerRequest (VStr j) sessionId paymentId) w) in
  stripe a = stripe b
  ∧ map images (generation_log a) = map images (generation_log b)
  ∧ map user_text (generation_log a) = map user_text (generation_log b)
  ∧ (generation_log a = generation_log w →
     ∃ m1 m2,
       store a = setJobStatus (started env w (VStr j)) (VStr j) (job_error m1)
       ∧ store b = setJobStatus (started env w (VStr j)) (VStr j) (job_error m2)).
Proof.
  intros Hj Hs Hok a b. subst a b.
  assert (Hok1 : "job/" +:+ j ∉ faulty (started env w (VStr j)))
    by (unfold started; by rewrite setJobStatus_faulty).
  assert (Hset : ∀ doc, store_setJSON (started env w (VStr j)) ("job/" +:+ j) doc
                        = (Ok tt, setJobStatus (started env w (VStr j)) (VStr j) doc)).
  { intros doc. unfold setJobStatus, jobKey. cbn [toString].
    by rewrite (store_setJSON_ok _ _ _ Hok1). }
  assert (Hgrown : ∀ (l : list GenerationRequest) x, l ++ [x] ≠ l).
  { intros l x Heq. apply (f_equal length) in Heq. rewrite length_app in Heq.
    cbn [length] in Heq. lia. }
  unfold InProcessWorker.runReportGeneration, handler, workerRequest.
  cbn [parsed_body prop field lookup_field String.eqb Ascii.eqb Bool.eqb].
  rewrite (truthy_VStr _ Hj), Hs. cbn [negb orb].
  fold (started env w (VStr j)).
  assert (Hstart : store_setJSON (store w) ("job/" +:+ j)
                     (VObj [("status", VStr "processing");
                            ("startedAt", VStr (toISOString (runtime env) (startedAt_now env)))])
                   = (Ok tt, started env w (VStr j))).
  { unfold started, setJobStatus, jobKey. cbn [toString].
    by rewrite (store_setJSON_ok _ _ _ Hok). }
  rewrite Hstart.
  destruct (verifyPayment_variants (BETA_MODE env) paymentId (stripe w)) as [Hvalid Hsp].
  destruct (InProcessWorker.verifyPayment _ _ _) as [payment' sp1'].
  destruct (verifyPayment _ _ _) as [payment sp1].
  cbn [fst snd] in Hvalid, Hsp. subst sp1'. rewrite Hvalid.
  repeat (case_match; rewrite ?Hset; cbn [snd store stripe generation_log]).
  all: split; [reflexivity |].
  all: rewrite ?map_app; cbn [map images user_text].
  all: split; [reflexivity |]; split; [reflexivity |].
  all: intros Hlog; try (by apply Hgrown in Hlog).
  all: eexists _, _; split; reflexivity.
Qed.

(** X22. The in-process worker and the background worker do the same work
    up to the call of the generation service. For a job key that can be
    written, a run of [runReportGeneration] leaves the payment provider as
    the background worker does and sends the same images and the same
    instruction to the generation service; when no call is made, both end with
    an error status in the job record (the blob that the job key names) and
    leave every other blob of the store as it was. *)
Theorem in_process_run_agrees_with_the_worker
        (env : Env) (j : string) (sessionId paymentId : Value) (w : World) :
  j ≠ "" →
  truthy sessionId = true →
  "job/" +:+ j ∉ faulty (store w) →
  let a := InProcessWorker.runReportGeneration env j sessionId paymentId w in
  let b := snd (handler env (workerRequest (VStr j) sessionId paymentId) w) in
  stripe a = stripe b
  ∧ map images (generation_log a) = map images (generation_log b)
  ∧ map user_text (generation_log a) = map user_text (generation_log b)
  ∧ (generation_log a = generation_log w →
     recorded_status (store a) (blobName ("job/" +:+ j)) = Some (VStr "error")
     ∧ recorded_status (store b) (blobName ("job/" +:+ j)) = Some (VStr "error")
     ∧ ∀ name, name ≠ blobName ("job/" +:+ j) →
               blobs (store a) !! name = blobs (store w) !! name
               ∧ blobs (store b) !! name = blobs (store w) !! name).
Proof.
  intros Hj Hs Hok a b.
  destruct (in_process_outcome env j sessionId paymentId w Hj Hs Hok)
    as (Hsp & Himg & Htxt & Hstore).
  fold a b in Hsp, Himg, Htxt, Hstore.
  split; [exact Hsp |]. split; [exact Himg |]. split; [exact Htxt |].
  intros Hlog. destruct (Hstore Hlog) as (m1 & m2 & -> & ->).
  assert (Hok1 : jobKey (VStr j) ∉ faulty (started env w (VStr j)))
    by (unfold started; by rewrite setJobStatus_faulty).
  unfold recorded_status. change ("job/" +:+ j) with (jobKey (VStr j)).
  rewrite !(setJobStatus_lookup _ _ _ Hok1). split; [reflexivity |]. split; [reflexivity |].
  intros name Hne. unfold started. by rewrite !(setJobStatus_lookup_other _ _ _ _ Hne).
Qed.

(** X23. When the job key cannot be written, the in-process worker gives up
    at once: it leaves the store, the payment provider and the generation
    service untouched, and the payment reference is not spent. *)
Theorem in_process_run_needs_the_job_key
        (env : Env) (j : string) (sessionId paymentId : Value) (w : World) :
  "job/" +:+ j ∈ faulty (store w) →
  InProcessWorker.runReportGeneration env j sessionId paymentId w = w.
Proof.
  intros Hfaulty. unfold InProcessWorker.runReportGeneration, store_setJSON.
  destruct (decide _) as [_ | Hok]; [| contradiction]. cbn [snd].
  destruct (decide _) as [_ | Hok]; [| contradiction]. by destruct w.
Qed.

(** ** The stored text holds no fence *)

Lemma prefix_nil_r (pat : string) : String.prefix pat "" = true → pat = "".
Proof. by destruct pat. Qed.

Lemma prefix_of_take (pat : string) :
  ∀ (n : nat) (s : string),
    String.prefix pat (JSString.take n s) = true → String.prefix pat s = true.
Proof.
  induction pat as [| c pat IH]; intros n s Hpre; [by destruct s |].
  destruct n as [| n], s as [| d s]; try discriminate.
  cbn [JSString.take String.prefix] in *.
  destruct (ascii_dec c d); [by apply (IH n) | discriminate].
Qed.

Lemma take_nil (n : nat) : JSString.take n "" = "".
Proof. by destruct n. Qed.

Lemma drop_nil (n : nat) : JSString.drop n "" = "".
Proof. by destruct n. Qed.

Lemma drop_of_take (i : nat) :
  ∀ (m : nat) (u : string),
    JSString.drop i (JSString.take m u) = JSString.take (m - i) (JSString.drop i u).
Proof.
  induction i as [| i IH]; intros m u.
  - by rewrite Nat.sub_0_r.
  - destruct m as [| m]; [reflexivity |].
    destruct u as [| c u]; [cbn [JSString.take JSString.drop]; by rewrite take_nil |].
    apply IH.
Qed.

(** An occurrence in a part of a text is an occurrence in the text. *)
Lemma occurs_in_part (pat s : string) (n m i : nat) :
  pat ≠ "" →
  occurs_at pat (JSString.take m (JSString.drop n s)) i →
  occurs_at pat s (n + i).
Proof.
  intros Hne [_ Hpre].
  rewrite drop_of_take in Hpre. apply prefix_of_take in Hpre. rewrite drop_drop in Hpre.
  split; [| exact Hpre].
  destruct (Nat.le_gt_cases (n + i) (String.length s)) as [| Hgt]; [done |].
  rewrite drop_all in Hpre by lia. by apply prefix_nil_r in Hpre.
Qed.

Lemma part_contains (pat s : string) (n m : nat) :
  pat ≠ "" →
  contains pat (JSString.take m (JSString.drop n s)) → contains pat s.
Proof. intros Hne [i Hocc]. exists (n + i)%nat. by apply occurs_in_part in Hocc. Qed.

Lemma trim_part (s : string) :
  ∃ n m, JSString.trim s = JSString.take m (JSString.drop n s).
Proof.
  unfold JSString.trim. destruct (trimStart_drop s) as [n ->].
  destruct (trimEnd_take (JSString.drop n s)) as [m ->]. by exists n, m.
Qed.

Lemma substring_part (s : string) (a b : Z) :
  ∃ n m, JSString.substring s a b = JSString.take m (JSString.drop n s).
Proof. unfold JSString.substring. by eexists _, _. Qed.

Lemma fence_head1 (s : string) :
  String.prefix "`" s = false →
  String.prefix "`" (JSString.replace_fence_go "```" s 0) = false.
Proof.
  destruct s as [| c s]; [reflexivity |].
  cbn [JSString.replace_fence_go String.prefix].
  destruct (ascii_dec "`" c) as [| Hc]; [by destruct s |].
  intros _. cbn [String.prefix]. by destruct (ascii_dec "`" c).
Qed.

Lemma fence_head2 (s : string) :
  String.prefix "``" s = false →
  String.prefix "``" (JSString.replace_fence_go "```" s 0) = false.
Proof.
  destruct s as [| c s]; [reflexivity |].
  cbn [JSString.replace_fence_go String.prefix].
  destruct (ascii_dec "`" c) as [<- | Hc].
  - intros Hs. assert (Hfence : String.prefix "``" s = false).
    { destruct s as [| d s]; [reflexivity |]. cbn [String.prefix] in *.
      destruct (ascii_dec "`" d); [by destruct s | reflexivity]. }
    rewrite Hfence. cbn [String.prefix]. destruct (ascii_dec "`" "`"); [| done].
    by apply fence_head1.
  - intros _. cbn [String.prefix]. by destruct (ascii_dec "`" c).
Qed.

(** The scan for the bare fence leaves no fence behind: where a fence would
    begin in the text that is kept, the scan would have removed it. *)
Lemma replace_fence_go_free (s : string) :
  ∀ (skip i : nat), ¬ occurs_at "```" (JSString.replace_fence_go "```" s skip) i.
Proof.
  induction s as [| c s IH]; intros skip i [Hle Hpre].
  - cbn [JSString.replace_fence_go] in Hpre. rewrite drop_nil in Hpre. discriminate.
  - cbn [JSString.replace_fence_go] in Hle, Hpre.
    destruct skip as [| k]; [| by apply (IH k i)].
    destruct (String.prefix "```" (String c s)) eqn:Hfence; [by eapply (IH _ i) |].
    destruct i as [| i]; [| apply (IH 0%nat i); split; [cbn in Hle; lia | exact Hpre]].
    cbn [JSString.drop String.prefix] in Hpre, Hfence.
    destruct (ascii_dec "`" c); [| discriminate].
    by rewrite (fence_head2 s Hfence) in Hpre.
Qed.

(** X24. The text stored as [html] never holds a code fence: whatever the
    generation service returns, no three consecutive backticks are left in
    the normalised text. *)
Theorem normalized_text_holds_no_fence (raw : string) :
  ¬ contains "```" (normalize raw).
Proof.
  assert (Hstripped : ¬ contains "```" (stripFences raw)).
  { unfold stripFences. destruct (trim_part (JSString.replace_fence "```"
                                    (JSString.replace_fence "```html" raw))) as (n & m & ->).
    intros [i Hocc]%part_contains; [| discriminate].
    exact (replace_fence_go_free _ _ _ Hocc). }
  unfold normalize, extractDocument.
  destruct (_ && _); [| exact Hstripped].
  destruct (substring_part (stripFences raw) (docStart (stripFences raw))
                           (docEnd (stripFences raw) + 7)) as (n & m & ->).
  intros Hin%part_contains; [contradiction | discriminate].
Qed.

(** ** Extraction is idempotent *)

Lemma indexOf_prefix (s pat : string) :
  String.prefix pat s = true → JSString.indexOf s pat = 0.
Proof.
  intros Hpre. unfold JSString.indexOf.
  destruct s; cbn [JSString.indexOf_from]; by rewrite Hpre.
Qed.

Lemma docStart_cases (t : string) : docStart t = -1 ∨ ∃ p : nat, docStart t = Z.of_nat p.
Proof.
  rewrite docStart_marker.
  destruct (indexOf_spec (startMarker t) t) as [[-> _] | (k & -> & _)]; eauto.
Qed.

Lemma docEnd_cases (t : string) : docEnd t = -1 ∨ ∃ q : nat, docEnd t = Z.of_nat q.
Proof.
  unfold docEnd.
  destruct (lastIndexOf_spec "</html>" t) as [[-> _] | (k & -> & _)]; eauto.
Qed.

Lemma extractDocument_unchanged (t : string) :
  docStart t = -1 ∨ docEnd t = -1 → extractDocument t = t.
Proof.
  unfold extractDocument. intros [-> | ->]; [reflexivity | by rewrite andb_false_r].
Qed.

(** The part cut out when the start marker comes first begins with the
    marker, ends with the end marker, and is cut out of itself again. *)
Lemma extractDocument_in_order (t : string) (p q : nat) :
  docStart t = Z.of_nat p → docEnd t = Z.of_nat q → (p ≤ q)%nat →
  extractDocument (extractDocument t) = extractDocument t.
Proof.
  intros Hp Hq Hle.
  destruct (docStart_found t p Hp) as [Hstart Hfirst].
  destruct (docEnd_found t q Hq) as [Hend Hlast].
  pose proof (occurs_at_bound _ _ _ Hend) as Hbound. cbn [String.length] in Hbound.
  pose proof (end_marker_after_start_marker _ t p q (startMarker_cases t) Hstart Hend Hle)
    as Hbehind.
  assert (Hbody : extractDocument t = JSString.take (q + 7 - p) (JSString.drop p t)).
  { unfold extractDocument. rewrite Hp, Hq.
    destruct (Z.eqb_spec (Z.of_nat p) (-1)); [lia |].
    destruct (Z.eqb_spec (Z.of_nat q) (-1)); [lia |]. cbn [negb andb].
    replace (Z.of_nat q + 7) with (Z.of_nat (q + 7)) by lia.
    apply substring_take_drop. lia. }
  rewrite Hbody. set (d := JSString.take (q + 7 - p) (JSString.drop p t)).
  assert (Hlen : String.length d = (q + 7 - p)%nat).
  { unfold d. rewrite length_take, length_drop. lia. }
  assert (Hhead : String.prefix (startMarker t) d = true).
  { destruct Hstart as [_ Hpre]. apply take_prefix; [exact Hpre | lia]. }
  assert (Htail : occurs_at "</html>" d (q - p)).
  { split; [lia |]. unfold d. rewrite drop_of_take, drop_drop.
    replace (p + (q - p))%nat with q by lia. replace (q + 7 - p - (q - p))%nat with 7%nat by lia.
    destruct Hend as [_ Hpre]. apply take_prefix; [exact Hpre | reflexivity]. }
  assert (HdocStart : docStart d = 0).
  { unfold docStart, startMarker in *.
    destruct (Z.eqb_spec (JSString.indexOf t "<!DOCTYPE html>") (-1)) as [Hnone | Hsome].
    - assert (Hnone' : JSString.indexOf d "<!DOCTYPE html>" = -1).
      { destruct (indexOf_spec "<!DOCTYPE html>" d) as [[Hd _] | (k & _ & Hocc & _)]; [done |].
        apply occurs_in_part in Hocc; [| discriminate].
        destruct (indexOf_spec "<!DOCTYPE html>" t) as [[_ Hno] | (k' & Hk' & _)]; [| lia].
        by apply Hno in Hocc. }
      rewrite Hnone'. cbn [Z.eqb negb]. by apply indexOf_prefix.
    - rewrite (indexOf_prefix d "<!DOCTYPE html>" Hhead). reflexivity. }
  assert (HdocEnd : docEnd d = Z.of_nat (q - p)).
  { unfold docEnd.
    destruct (lastIndexOf_spec "</html>" d) as [[_ Hno] | (k & -> & Hocc & Hafter)];
      [by apply Hno in Htail |].
    apply occurs_at_bound in Hocc as Hk. cbn [String.length] in Hk.
    destruct (Nat.lt_trichotomy k (q - p)) as [Hlt | [-> | Hgt]]; [| reflexivity | lia].
    by apply Hafter in Hlt. }
  unfold extractDocument at 1. rewrite HdocStart, HdocEnd. cbn [Z.eqb negb andb].
  destruct (Z.eqb_spec (Z.of_nat (q - p)) (-1)); [lia |]. cbn [negb].
  replace (Z.of_nat (q - p) + 7) with (Z.of_nat (q - p + 7)) by lia.
  change 0 with (Z.of_nat 0). rewrite substring_take_drop by lia.
  cbn [JSString.drop]. apply take_all. lia.
Qed.

Lemma extractDocument_out_of_order (t : string) (p q : nat) :
  docStart t = Z.of_nat p → docEnd t = Z.of_nat q → (q < p)%nat →
  extractDocument (extractDocument t) = extractDocument t.
Proof.
  intros Hp Hq Hlt.
  destruct (docStart_found t p Hp) as [Hstart _].
  destruct (docEnd_found t q Hq) as [Hend Hlast].
  pose proof (occurs_at_bound _ _ _ Hend) as Hbound. cbn [String.length] in Hbound.
  destruct Hstart as [Hple _].
  assert (Hbody : ∃ n m, (q < n)%nat
                         ∧ extractDocument t = JSString.take m (JSString.drop n t)).
  { unfold extractDocument. rewrite Hp, Hq.
    destruct (Z.eqb_spec (Z.of_nat p) (-1)); [lia |].
    destruct (Z.eqb_spec (Z.of_nat q) (-1)); [lia |]. cbn [negb andb].
    unfold JSString.substring. eexists _, _. split; [| reflexivity]. lia. }
  destruct Hbody as (n & m & Hn & ->).
  apply extractDocument_unchanged. right. unfold docEnd.
  destruct (lastIndexOf_spec "</html>" (JSString.take m (JSString.drop n t)))
    as [[Hnone _] | (k & _ & Hocc & _)]; [exact Hnone |].
  apply occurs_in_part in Hocc; [| discriminate].
  exfalso. apply (Hlast (n + k)%nat); [lia | exact Hocc].
Qed.

(** X25. Cutting out the document is idempotent: applied to a text that it
    has produced, the extraction returns that text unchanged, wherever the
    markers stood in the original. *)
Theorem extractDocument_is_idempotent (t : string) :
  extractDocument (extractDocument t) = extractDocument t.
Proof.
  destruct (docStart_cases t) as [Hnone | [p Hp]].
  { rewrite (extractDocument_unchanged t) by auto. apply extractDocument_unchanged. auto. }
  destruct (docEnd_cases t) as [Hnone | [q Hq]].
  { rewrite (extractDocument_unchanged t) by auto. apply extractDocument_unchanged. auto. }
  destruct (Nat.le_gt_cases p q).
  - by apply (extractDocument_in_order t p q).
  - by apply (extractDocument_out_of_order t p q).
Qed.

(** ** Payment and session in the synchronous handler *)

(** X27. The synchronous handler looks at the session before it spends the
    payment. Whatever the request, the payment provider is left as it was
    unless the session was read, was there and carried a valid category; in
    that case the provider is as payment verification left it. *)
Theorem sync_handler_spends_the_payment_only_for_a_live_session
        (env : GenerateReportSync.Env) (event : GenerateReportSync.Event)
        (w : GenerateReportSync.World) :
  let out := snd (GenerateReportSync.handler env event w) in
  GenerateReportSync.stripe out = GenerateReportSync.stripe w
  ∨ ∃ body session,
      GenerateReportSync.parsed_body event = Ok body
      ∧ getSession (GenerateReportSync.redis w) (GenerateReportSync.session_now env)
                   (toString (field body "sessionId")) = Ok session
      ∧ truthy session = true
      ∧ includes_str GenerateReportSync.VALID_CATEGORIES (field session "category") = true
      ∧ GenerateReportSync.stripe out
        = snd (GenerateReportSync.verifyPayment
                 (GenerateReportSync.BETA_MODE env) (field body "paymentIntentId")
                 (GenerateReportSync.stripe w)).
Proof.
  intros out. subst out. unfold GenerateReportSync.handler.
  destruct (String.eqb _ "OPTIONS"); [by left |].
  destruct (negb (String.eqb _ "POST")); [by left |].
  destruct (GenerateReportSync.parsed_body event) as [body |]; [| by left].
  destruct (prop body "sessionId") as [sessionId |] eqn:Hprop; [| by left].
  apply prop_Ok_field in Hprop as ->.
  destruct (negb (truthy (field body "sessionId"))); [by left |].
  destruct (getSession _ _ _) as [session |] eqn:Hsession; [| by left].
  destruct (truthy session) eqn:Htruthy; cbn [negb]; [| by left].
  destruct (includes_str _ _) eqn:Hcat; cbn [negb]; [| by left].
  right. exists body, session.
  split; [reflexivity |]. split; [exact Hsession |]. split; [exact Htruthy |].
  split; [exact Hcat |].
  destruct (GenerateReportSync.verifyPayment _ _ _) as [payment sp1].
  repeat (case_match; cbn [snd GenerateReportSync.stripe]); reflexivity.
Qed.

(** ** From the worker to the status endpoint *)

(** X28. What a run leaves is what the next poll delivers. After a run for a
    minted job identifier whose job key can be reached, a poll of that job is
    answered 200 with a record of status 'complete' or 'error', never with
    'processing'; the poll removes the record, and the poll after it is
    answered with [{status: 'processing'}]. *)
Theorem finished_run_is_delivered_by_the_next_poll
        (env : Env) (w : World) (j : string) (sessionId paymentId : Value) (method : string) :
  is_minted_id j →
  truthy sessionId = true →
  jobKey (VStr j) ∉ faulty (store w) →
  method ≠ "OPTIONS" →
  let finished := store (snd (handler env (workerRequest (VStr j) sessionId paymentId) w)) in
  let poll := ReportStatus.handler (ReportStatus.mkEvent method (VStr j)) in
  ∃ record,
    fst (poll finished) = mkResponse 200 (Some record)
    ∧ (field record "status" = VStr "complete" ∨ field record "status" = VStr "error")
    ∧ fst (poll (snd (poll finished))) = mkResponse 200 (Some processing_body).
Proof.
  intros Hminted Hs Hok Hmethod finished poll.
  assert (Hj : truthy (VStr j) = true) by (apply truthy_VStr, is_minted_id_nonempty, Hminted).
  assert (Hne : j ≠ "") by (by apply is_minted_id_nonempty).
  assert (Hok1 : jobKey (VStr j) ∉ faulty (started env w (VStr j)))
    by (unfold started; by rewrite setJobStatus_faulty).
  assert (Hrecord : ∃ fields,
             blobs finished !! ("job/" +:+ j) = Some (mkEntry (Json (VObj fields)) (VObj []))
             ∧ (lookup_field "status" fields = VStr "complete"
                ∨ lookup_field "status" fields = VStr "error")).
  { subst finished.
    destruct (worker_outcome env w (VStr j) sessionId paymentId Hj Hs)
      as (_ & [(msg & ->) | (html & meta & _ & Hread & Hcat & ->)]).
    - eexists. split; [by apply setJobStatus_lookup_minted | by right].
    - eexists.
      rewrite (cleanup_keeps_the_job _ _ _ _ Hminted
                 (session_read_is_not_the_job _ _ _ _ _ Hminted Hok Hread Hcat)).
      split; [by apply setJobStatus_lookup_minted | by left]. }
  destruct Hrecord as (fields & Hblob & Hstatus).
  rewrite <- (blobName_job j Hminted) in Hblob.
  assert (Hreach : "job/" +:+ j ∉ faulty finished).
  { subst finished.
    destruct (worker_outcome env w (VStr j) sessionId paymentId Hj Hs)
      as (_ & [(msg & ->) | (html & meta & _ & _ & _ & ->)]).
    - by rewrite setJobStatus_faulty.
    - unfold cleanup. by rewrite deletes_faulty, setJobStatus_faulty. }
  exists (VObj fields). subst poll.
  rewrite (status_of_existing_job _ _ _ _ _ Hmethod Hne Hreach Hblob).
  assert (Hterminal : strict_eq_str (lookup_field "status" fields) "complete"
                      || strict_eq_str (lookup_field "status" fields) "error" = true)
    by (destruct Hstatus as [-> | ->]; reflexivity).
  rewrite Hterminal. cbn [fst snd]. split; [reflexivity |]. split; [exact Hstatus |].
  unfold ReportStatus.handler. cbn [ReportStatus.httpMethod ReportStatus.jobId].
  rewrite (eqb_false_of_ne _ _ Hmethod), Hj. cbn [negb toString].
  unfold store_get_json. cbn [faulty blobs].
  destruct (decide _) as [| _]; [contradiction |].
  by rewrite lookup_delete_eq.
Qed.

(** * The further properties on the sample data *)

Lemma terminal_record_is_delivered_once_witness :
  let poll := ReportStatus.handler (ReportStatus.mkEvent "GET" (VStr Sample.jobId)) in
  fst (poll Sample.jobStore) = mkResponse 200 (Some (VObj Sample.completeJob))
  ∧ poll (snd (poll Sample.jobStore))
    = (mkResponse 200 (Some processing_body), snd (poll Sample.jobStore)).
Proof.
  apply (terminal_record_is_delivered_once
           "GET" Sample.jobId Sample.jobStore Sample.completeJob (VObj [])).
  - discriminate.
  - discriminate.
  - apply not_elem_of_empty.
  - reflexivity.
  - left. reflexivity.
Defined.

Lemma worker_run_ends_in_a_terminal_record_witness :
  ∃ terminal,
    blobs (store (snd (handler Scenario.paidEnv
                               (workerRequest (VStr Sample.jobId) (VStr Sample.sessionId)
                                              (VStr "pi_paid"))
                               Scenario.world)))
      !! jobKey (VStr Sample.jobId)
    = Some (mkEntry (Json terminal) (VObj []))
    ∧ (field terminal "status" = VStr "complete" ∨ field terminal "status" = VStr "error").
Proof.
  apply worker_run_ends_in_a_terminal_record.
  - split; reflexivity.
  - reflexivity.
  - apply not_elem_of_empty.
Defined.

Lemma failed_run_leaves_the_session_witness :
  let out := snd (handler Scenario.paidEnv
                          (workerRequest (VStr Sample.jobId) (VStr Sample.sessionId) VUndefined)
                          Scenario.world) in
  blobs (store out) !! jobKey (VStr Sample.jobId)
  = Some (mkEntry (Json (job_error "Payment failed: No payment intent ID")) (VObj []))
  ∧ blobs (store out) !! "feedfacefeedface/meta"
    = Some (mkEntry (Json (Sample.meta "2026-01-01T00:00:30.000Z")) (VObj [])).
Proof.
  intros out. split; [reflexivity |].
  subst out.
  rewrite (failed_run_leaves_the_session
             Scenario.paidEnv Scenario.world Sample.jobId (VStr Sample.sessionId) VUndefined
             (job_error "Payment failed: No payment intent ID") (VObj [])).
  - reflexivity.
  - split; reflexivity.
  - reflexivity.
  - apply not_elem_of_empty.
  - reflexivity.
  - reflexivity.
  - discriminate.
Defined.

Lemma completed_run_removes_the_session_witness :
  let out := snd (handler Scenario.paidEnv
                          (workerRequest (VStr Sample.jobId) (VStr Sample.sessionId)
                                         (VStr "pi_paid"))
                          Scenario.world) in
  blobs (store out) !! jobKey (VStr Sample.jobId)
  = Some (mkEntry (Json (VObj Sample.completeJob)) (VObj []))
  ∧ blobs (store out) !! "feedfacefeedface/meta" = None
  ∧ blobs (store out) !! "feedfacefeedface/screenshot-0" = None.
Proof.
  intros out. split; [reflexivity |].
  destruct (completed_run_removes_the_session
              Scenario.paidEnv Scenario.world Sample.jobId (VStr Sample.sessionId)
              (VStr "pi_paid") (Sample.meta "2026-01-01T00:00:30.000Z") (VObj [])
              (VObj Sample.completeJob) (VObj []))
    as [Hmeta Hshots].
  - split; reflexivity.
  - reflexivity.
  - reflexivity.
  - reflexivity.
  - reflexivity.
  - reflexivity.
  - split; [exact Hmeta |]. apply (Hshots 0%nat). vm_compute. lia.
Defined.

Lemma payment_is_spent_on_an_expired_session_witness :
  let out := snd (handler Scenario.paidEnv
                          (workerRequest (VStr Sample.jobId) (VStr Sample.sessionId)
                                         (VStr "pi_paid"))
                          Scenario.emptyWorld) in
  blobs (store out) !! jobKey (VStr Sample.jobId)
  = Some (mkEntry (Json (job_error "Session expired — please re-upload.")) (VObj []))
  ∧ fst (verifyPayment VUndefined (VStr "pi_paid") (stripe out))
    = rejected "Payment already used".
Proof.
  destruct (payment_is_spent_on_an_expired_session
              Scenario.paidEnv Scenario.emptyWorld Sample.jobId (VStr Sample.sessionId)
              (VStr "pi_paid")) as (Hrecord & _ & Hspent).
  - reflexivity.
  - split; reflexivity.
  - reflexivity.
  - apply not_elem_of_empty.
  - reflexivity.
  - reflexivity.
  - split; [| exact Hspent]. apply Hrecord. intros [Hsame _]. discriminate Hsame.
Defined.

Lemma worker_drops_a_request_without_identifiers_witness :
  handler Scenario.paidEnv (mkEvent (Ok (VObj [("jobId", VStr Sample.jobId)]))) Scenario.world
  = (mkResponse 202 None, Scenario.world)
  ∧ handler Scenario.paidEnv (mkEvent (Ok VNull)) Scenario.world
    = (mkResponse 202 None, Scenario.world).
Proof.
  split; apply worker_drops_a_request_without_identifiers;
    intros body [= <-]; reflexivity.
Defined.

Lemma stored_session_is_read_back_witness :
  let r' := snd (storeSession Scenario.emptyRedis 1000 "123e4567e89b42d3"
                              [("category", VStr "vehicle"); ("screenshotCount", VNum 2)]
                              "2026-01-01T00:00:00.000Z") in
  getSession r' 1899 "123e4567e89b42d3" = Ok Scenario.sessionDocument
  ∧ getSessionTTL r' 1899 "123e4567e89b42d3" = Ok 1
  ∧ getSession r' 1900 "123e4567e89b42d3" = Ok VNull
  ∧ getSessionTTL r' 1900 "123e4567e89b42d3" = Ok (-2).
Proof.
  intros r'.
  destruct (stored_session_is_read_back_until_it_expires
              Scenario.emptyRedis r' 1000 "123e4567e89b42d3"
              [("category", VStr "vehicle"); ("screenshotCount", VNum 2)]
              "2026-01-01T00:00:00.000Z" 1899 eq_refl) as [Hbefore _].
  destruct (stored_session_is_read_back_until_it_expires
              Scenario.emptyRedis r' 1000 "123e4567e89b42d3"
              [("category", VStr "vehicle"); ("screenshotCount", VNum 2)]
              "2026-01-01T00:00:00.000Z" 1900 eq_refl) as [_ Hafter].
  destruct (Hbefore ltac:(lia)) as [Hget Httl].
  destruct (Hafter ltac:(lia)) as [Hget' Httl'].
  split; [exact Hget |]. split; [exact Httl |]. split; [exact Hget' | exact Httl'].
Defined.

Lemma stored_screenshot_is_read_back_witness :
  let r' := snd (storeScreenshot Scenario.emptyRedis 1000 "123e4567e89b42d3" 1
                                 "image/png" "iVBORw0KGgo=") in
  getScreenshot r' 1899 "123e4567e89b42d3" 1
  = Ok (VObj [("mimeType", VStr "image/png"); ("base64", VStr "iVBORw0KGgo=")])
  ∧ getScreenshot r' 1900 "123e4567e89b42d3" 1 = Ok VNull.
Proof.
  intros r'.
  destruct (stored_screenshot_is_read_back_until_it_expires
              Scenario.emptyRedis r' 1000 "123e4567e89b42d3" 1 "image/png" "iVBORw0KGgo="
              "screenshot:123e4567e89b42d3:1" 1899 eq_refl) as (Hbefore & _ & _).
  destruct (stored_screenshot_is_read_back_until_it_expires
              Scenario.emptyRedis r' 1000 "123e4567e89b42d3" 1 "image/png" "iVBORw0KGgo="
              "screenshot:123e4567e89b42d3:1" 1900 eq_refl) as (_ & Hafter & _).
  split; [apply Hbefore | apply Hafter]; lia.
Defined.

Lemma deleted_session_cannot_be_read_witness :
  let r1 := snd (deleteScreenshots Scenario.staged 1100 "123e4567e89b42d3" 2) in
  let r2 := snd (deleteSession r1 1100 "123e4567e89b42d3") in
  getSession Scenario.staged 1100 "123e4567e89b42d3" = Ok Scenario.sessionDocument
  ∧ getSession r2 1100 "123e4567e89b42d3" = Ok VNull
  ∧ getScreenshot r2 1100 "123e4567e89b42d3" 0 = Ok VNull.
Proof.
  intros r1 r2. split; [reflexivity |].
  destruct (deleted_session_cannot_be_read
              Scenario.staged r1 r2 1100 1100 "123e4567e89b42d3" 2 1100) as [_ Hgone].
  destruct (Hgone eq_refl eq_refl) as [Hsession Hshots].
  split; [exact Hsession |]. apply Hshots. lia.
Defined.

Lemma rate_limit_counters_are_independent_witness :
  current (snd (checkRateLimit Scenario.staged 1100 "203.0.113.7")) 1100
          (counterKey "198.51.100.2")
  = Some (7, Some 4000).
Proof.
  destruct (rate_limit_counters_are_independent
              Scenario.staged 1100 "203.0.113.7" "198.51.100.2" 1100) as [Hcurrent _].
  - discriminate.
  - rewrite Hcurrent. reflexivity.
Defined.

Lemma every_upload_request_is_counted_witness :
  ∃ e, entries (snd (UploadScreenshots.handler
                       Scenario.uploadEnv
                       (UploadScreenshots.mkEvent "POST" (VStr "203.0.113.7, 10.0.0.1")
                                                  (Ok (VObj [("category", VStr "boat")], [])))
                       Scenario.emptyRedis))
         !! counterKey "203.0.113.7" = Some e
       ∧ value e = RInt (0 + 1).
Proof.
  apply (every_upload_request_is_counted _ _ _ "203.0.113.7" 0 None).
  - reflexivity.
  - reflexivity.
  - reflexivity.
  - reflexivity.
  - lia.
Defined.

Lemma accepted_upload_can_be_read_back_witness :
  let r' := snd (UploadScreenshots.handler Scenario.uploadEnv Scenario.uploadEvent
                                           Scenario.emptyRedis) in
  getSession r' 1500 "123e4567e89b42d3" = Ok Scenario.sessionDocument
  ∧ getScreenshot r' 1500 "123e4567e89b42d3" 1
    = Ok (VObj [("mimeType", VStr ""); ("base64", VStr "/9j/4AAQSkZJRg==")]).
Proof.
  intros r'.
  destruct (accepted_upload_can_be_read_back
              Scenario.uploadEnv Scenario.uploadEvent Scenario.emptyRedis 1500)
    as (fields & files & Hmulti & Hsession & Hfiles).
  - reflexivity.
  - reflexivity.
  - reflexivity.
  - injection Hmulti as <- <-. split; [exact Hsession |].
    exact (Hfiles 1%nat _ eq_refl).
Defined.

Lemma payment_is_spent_when_the_screenshots_have_expired_witness :
  let w := GenerateReportSync.mkWorld Scenario.sessionOnly Sample.provider [] in
  let first :=
    GenerateReportSync.handler (Scenario.syncEnv VUndefined)
                               (Scenario.syncEvent (VStr "pi_paid")) w in
  statusCode (fst first) = 410
  ∧ fst (GenerateReportSync.handler (Scenario.syncEnv VUndefined)
                                    (Scenario.syncEvent (VStr "pi_paid")) (snd first))
    = mkResponse 402
        (Some (VObj [("error", VStr "Payment verification failed");
                     ("reason", VStr "Payment already used")])).
Proof.
  intros w first.
  destruct (payment_is_spent_when_the_screenshots_have_expired
              (Scenario.syncEnv VUndefined) w "123e4567e89b42d3" (VStr "pi_paid")
              Scenario.sessionDocument)
    as (Hfirst & _ & Hsecond).
  - reflexivity.
  - discriminate.
  - reflexivity.
  - reflexivity.
  - reflexivity.
  - repeat constructor.
  - reflexivity.
  - split; [exact (f_equal statusCode Hfirst) | exact Hsecond].
Defined.

Lemma attempted_generation_consumes_the_session_witness :
  let w := GenerateReportSync.mkWorld Scenario.staged Sample.provider [] in
  let out := snd (GenerateReportSync.handler (Scenario.syncEnv (VStr "true"))
                                             (Scenario.syncEvent VUndefined) w) in
  getSession (GenerateReportSync.redis w) 1200 "123e4567e89b42d3" = Ok Scenario.sessionDocument
  ∧ length (GenerateReportSync.generation_log out) = 1%nat
  ∧ getSession (GenerateReportSync.redis out) 1200 "123e4567e89b42d3" = Ok VNull.
Proof.
  intros w out. split; [reflexivity |]. split; [reflexivity |].
  apply (attempted_generation_consumes_the_session
           (Scenario.syncEnv (VStr "true")) (Scenario.syncEvent VUndefined) w
           (VObj [("sessionId", VStr "123e4567e89b42d3"); ("paymentIntentId", VUndefined)])
           1200).
  - reflexivity.
  - vm_compute. discriminate.
  - vm_compute. discriminate.
Defined.

Lemma uploaded_files_reach_the_generation_service_witness :
  let r' := snd (UploadScreenshots.handler Scenario.uploadEnv Scenario.uploadEvent
                                           Scenario.emptyRedis) in
  let out := snd (GenerateReportSync.handler
                    (Scenario.syncEnv VUndefined) (Scenario.syncEvent (VStr "pi_paid"))
                    (GenerateReportSync.mkWorld r' Sample.provider [])) in
  map GenerateReportSync.images (GenerateReportSync.generation_log out)
  = [[GenerateReportSync.mkImage (VStr "image/png") (VStr "iVBORw0KGgo=");
      GenerateReportSync.mkImage (VStr "image/jpeg") (VStr "/9j/4AAQSkZJRg==")]].
Proof.
  intros r' out.
  destruct (uploaded_files_reach_the_generation_service
              Scenario.uploadEnv Scenario.uploadEvent Scenario.emptyRedis
              (Scenario.syncEnv VUndefined) (VStr "pi_paid") Sample.provider [])
    as (fields & files & call & Hmulti & Hlog & Himages).
  - reflexivity.
  - reflexivity.
  - reflexivity.
  - reflexivity.
  - reflexivity.
  - reflexivity.
  - vm_compute. discriminate.
  - injection Hmulti as <- <-.
    assert (Hout : GenerateReportSync.generation_log out = [] ++ [call]) by exact Hlog.
    rewrite Hout. cbn [app map]. rewrite Himages. reflexivity.
Defined.

Lemma in_process_run_agrees_with_the_worker_witness :
  let a := InProcessWorker.runReportGeneration
             Scenario.paidEnv Sample.jobId (VStr Sample.sessionId) (VStr "pi_paid")
             Scenario.world in
  let b := snd (handler Scenario.paidEnv
                        (workerRequest (VStr Sample.jobId) (VStr Sample.sessionId)
                                       (VStr "pi_paid"))
                        Scenario.world) in
  stripe a = stripe b
  ∧ map images (generation_log a) = map images (generation_log b)
  ∧ map user_text (generation_log a) = map user_text (generation_log b).
Proof.
  intros a b.
  destruct (in_process_run_agrees_with_the_worker
              Scenario.paidEnv Sample.jobId (VStr Sample.sessionId) (VStr "pi_paid")
              Scenario.world)
    as (Hstripe & Himages & Htext & _).
  - discriminate.
  - reflexivity.
  - apply not_elem_of_empty.
  - split; [exact Hstripe |]. split; [exact Himages | exact Htext].
Defined.

Lemma in_process_run_needs_the_job_key_witness :
  InProcessWorker.runReportGeneration
    Scenario.paidEnv Sample.jobId (VStr Sample.sessionId) (VStr "pi_paid") Scenario.brokenWorld
  = Scenario.brokenWorld.
Proof.
  apply in_process_run_needs_the_job_key.
  unfold Scenario.brokenWorld. cbn [store faulty]. apply elem_of_singleton. reflexivity.
Defined.

Lemma reportId_of_fraction_witness :
  reportId "0.4fzyo82mvyr" = "LL-4FZYO"
  ∧ matches_report_pattern (reportId "0.4fzyo82mvyr") = true.
Proof.
  destruct (reportId_of_fraction "0.4fzyo82mvyr" eq_refl) as (tail & _ & _ & _ & Hpattern).
  split; [reflexivity |]. apply Hpattern. vm_compute. lia.
Defined.

Lemma finished_run_is_delivered_by_the_next_poll_witness :
  let finished :=
    store (snd (handler Scenario.paidEnv
                        (workerRequest (VStr Sample.jobId) (VStr Sample.sessionId)
                                       (VStr "pi_paid"))
                        Scenario.world)) in
  let poll := ReportStatus.handler (ReportStatus.mkEvent "GET" (VStr Sample.jobId)) in
  ∃ record,
    fst (poll finished) = mkResponse 200 (Some record)
    ∧ (field record "status" = VStr "complete" ∨ field record "status" = VStr "error")
    ∧ fst (poll (snd (poll finished))) = mkResponse 200 (Some processing_body).
Proof.
  apply (finished_run_is_delivered_by_the_next_poll
           Scenario.paidEnv Scenario.world Sample.jobId (VStr Sample.sessionId)
           (VStr "pi_paid") "GET").
  - split; reflexivity.
  - reflexivity.
  - apply not_elem_of_empty.
  - discriminate.
Defined.
